(** * GreenPipeline: energy estimator, measuring CLI and bounded history

    A shallow embedding of [core/estimator.py] (class [EnergyEstimator]) and
    of [src/greenpipeline/cli.py] (class [GreenPipelineCLI]).

    Python's [float] is IEEE-754 binary64.  It is modelled bit for bit by the
    executable specification [spec_float] of the standard library, at
    precision 53 and maximal exponent 1024.  The arithmetic the program uses is
    gathered in the interface [PyFloat], so that every function of the program
    is written once; the interface has a second instance, exact rational
    arithmetic, which is the real-number reading of the same formulas.

    What the program reads from its surroundings (clock, subprocess, resource
    samples, the history file) is an explicit argument of the embedded
    function; what it raises is a value of [result].

    The file has four parts: the embedding; the properties of the history,
    of the measuring command and of the estimator; an analysis of binary64
    rounding, which shows that the power model is monotone in the cpu
    utilisation on floats as they are; and the console, what the listing,
    the comparison and the dispatch in [main] show and leave behind, with
    the figures of a run followed through every rounding. *)

From Stdlib Require Import ZArith QArith List String Bool Lia Lqa.
From Stdlib Require Import Floats.SpecFloat.
Import ListNotations.

Set Implicit Arguments.

(** ** Exceptions and fallible computations *)

Inductive exn : Type :=
| ZeroDivisionError
| IndexError
| WorkloadError (msg : string).

Inductive result (A : Type) : Type :=
| Ok (a : A)
| Raise (e : exn).

Arguments Ok {A} a.
Arguments Raise {A} e.

Definition bind {A B : Type} (c : result A) (k : A -> result B) : result B :=
  match c with
  | Ok a => k a
  | Raise e => Raise e
  end.

Notation "x <- c ;; k" := (bind c (fun x => k))
  (at level 61, c at next level, right associativity).

(** ** Round half to even of an integer ratio *)

(** [rne_div a b] is the integer nearest to [a / b], ties going to the even
    neighbour.  With the floor quotient and the non-negative remainder the
    same formula serves both signs of [a]. *)
Definition rne_div (a : Z) (b : positive) : Z :=
  let q := (a / Zpos b)%Z in
  let r := (a mod Zpos b)%Z in
  match (2 * r ?= Zpos b)%Z with
  | Lt => q
  | Gt => (q + 1)%Z
  | Eq => if Z.even q then q else (q + 1)%Z
  end.

Definition pow10 (n : nat) : positive := Z.to_pos (10 ^ Z.of_nat n).

(** ** The arithmetic interface *)

Class PyFloat (F : Type) : Type := {
  (** conversion of a Python [int] operand *)
  of_int : Z -> F;
  (** the float literal whose decimal text denotes [n / d] *)
  lit : positive -> positive -> F;
  fadd : F -> F -> F;
  fsub : F -> F -> F;
  fmul : F -> F -> F;
  (** IEEE division; Python guards it with a test of the divisor *)
  fdiv : F -> F -> F;
  (** [y == 0], the test behind [ZeroDivisionError] *)
  is_zero : F -> bool;
  (** [x < y] and [x <= y] *)
  fltb : F -> F -> bool;
  fleb : F -> F -> bool;
  (** the builtin [round(x, ndigits)] for [ndigits >= 0] *)
  round_nd : F -> nat -> F
}.

(** *** IEEE-754 binary64 *)

Module B64.

Definition prec : Z := 53.
Definition emax : Z := 1024.

Definition float : Type := spec_float.

Definition of_Z (z : Z) : float := binary_normalize prec emax z 0 false.

(** The binary64 number nearest to [n / d], with sign [s]. *)
Definition rnd_ratio (s : bool) (n d : positive) : float :=
  let '(q, e, l) := SFdiv_core_binary prec emax (Zpos n) 0 (Zpos d) 0 in
  binary_round_aux prec emax s q e l.

Definition zerob (x : float) : bool :=
  match x with
  | S754_zero _ => true
  | _ => false
  end.

(** [round(x, ndigits)]: the exact binary value is rounded half-even to
    [ndigits] decimals, and the decimal so obtained is converted back to the
    nearest binary64.  Zeros, infinities, NaN and integral values are
    returned as they are; a value that rounds to zero keeps its sign. *)
Definition round_dec (x : float) (ndigits : nat) : float :=
  match x with
  | S754_finite s m (Zneg k) =>
      match rne_div (Zpos m * Zpos (pow10 ndigits)) (2 ^ k)%positive with
      | Zpos n => rnd_ratio s n (pow10 ndigits)
      | _ => S754_zero s
      end
  | _ => x
  end.

#[global] Instance binary64 : PyFloat float := {|
  of_int := of_Z;
  lit := rnd_ratio false;
  fadd := SFadd prec emax;
  fsub := SFsub prec emax;
  fmul := SFmul prec emax;
  fdiv := SFdiv prec emax;
  is_zero := zerob;
  fltb := SFltb;
  fleb := SFleb;
  round_nd := round_dec
|}.

End B64.

(** *** Exact rational arithmetic *)

Module Exact.

Definition round_dec (x : Q) (ndigits : nat) : Q :=
  Qmake (rne_div (Qnum x * Zpos (pow10 ndigits)) (Qden x)) (pow10 ndigits).

#[global] Instance rational : PyFloat Q := {|
  of_int := inject_Z;
  lit := fun n d => Qmake (Zpos n) d;
  fadd := Qplus;
  fsub := Qminus;
  fmul := Qmult;
  fdiv := Qdiv;
  is_zero := fun y => Qeq_bool y 0;
  fltb := fun x y => negb (Qle_bool y x);
  fleb := Qle_bool;
  round_nd := round_dec
|}.

End Exact.

(** ** Python's true division *)

Section Division.
Context {F : Type} `{PyFloat F}.

(** [x / y] with a float divisor. *)
Definition truediv (x y : F) : result F :=
  if is_zero y then Raise ZeroDivisionError else Ok (fdiv x y).

(** [x / n] with an [int] divisor: zero is refused, any other integer is
    converted and divides. *)
Definition truediv_int (x : F) (n : Z) : result F :=
  if (n =? 0)%Z then Raise ZeroDivisionError else Ok (fdiv x (of_int n)).

(** [sum(xs)]: the accumulator starts at the integer [0] and the elements
    are added from left to right, as CPython does up to version 3.11.  From
    3.12 on the builtin compensates the float additions, so that a sum of
    several floats may differ in its last bits; the properties proved
    below of averages and of listings do not depend on how a sum of more
    than one element is rounded. *)
Definition py_sum (xs : list F) : F := fold_left fadd xs (of_int 0).
End Division.

(** ** core/estimator.py *)

Module Estimator.

Section WithFloat.
Context {F : Type} `{PyFloat F}.

(** The dataclass [EnergyMetrics]. *)
Record EnergyMetrics : Type := {
  duration_seconds : F;
  cpu_percent : F;
  memory_mb : F;
  energy_joules : F;
  carbon_grams : F;
  sci_score : F
}.

(** The class attributes. *)
Definition CPU_TDP : list (string * Z) :=
  [("x86_64"%string, 65%Z); ("aarch64"%string, 15%Z); ("arm64"%string, 15%Z)].
Definition CPU_POWER_FACTOR : F := lit 6 10.
Definition CPU_BASELINE : F := lit 4 10.
Definition RAM_WATTS_PER_GB : F := lit 375 1000.

(** [d.get(key, default)] on a dict literal. *)
Fixpoint dict_get (d : list (string * Z)) (key : string) (default : Z) : Z :=
  match d with
  | [] => default
  | (k, v) :: rest => if String.eqb k key then v else dict_get rest key default
  end.

(** The instance attributes set by [__init__]. *)
Record EnergyEstimator : Type := {
  carbon_intensity : F;
  platform : string;
  tdp : Z
}.

(** [__init__]; [machine] is [platform.machine().lower()]. *)
Definition init (carbon_intensity : F) (machine : string) : EnergyEstimator :=
  {| carbon_intensity := carbon_intensity;
     platform := machine;
     tdp := dict_get CPU_TDP machine 65 |}.

(** The default of the parameter [carbon_intensity] of [__init__]. *)
Definition default_carbon_intensity : F := of_int 475.

(** Lines 106 to 116 of [_calculate_energy]: the value of the local
    [total_power_watts]. *)
Definition total_power_watts (self : EnergyEstimator)
    (cpu_percent memory_gb : F) : result F :=
  cpu_util <- truediv cpu_percent (lit 100 1) ;;
  let cpu_power :=
    fmul (of_int (tdp self))
         (fadd (fmul cpu_util CPU_POWER_FACTOR) CPU_BASELINE) in
  let ram_power := fmul memory_gb RAM_WATTS_PER_GB in
  Ok (fadd cpu_power ram_power).

Definition _calculate_energy (self : EnergyEstimator)
    (duration cpu_percent memory_gb : F) : result EnergyMetrics :=
  total_power_watts <- total_power_watts self cpu_percent memory_gb ;;
  let energy_joules := fmul total_power_watts duration in
  energy_kwh <- truediv_int energy_joules 3600000 ;;
  let carbon_grams := fmul energy_kwh (carbon_intensity self) in
  let sci_score := carbon_grams in
  Ok {| duration_seconds := duration;
        cpu_percent := cpu_percent;
        memory_mb := fmul memory_gb (of_int 1024);
        energy_joules := energy_joules;
        carbon_grams := carbon_grams;
        sci_score := sci_score |}.

(** The clamping the specification describes for the power model, a
    negative input counting as zero.  [total_power_watts] has no such
    step; the definition is here to be compared with it. *)
Definition spec_clamp (x : F) : F :=
  if fltb x (of_int 0) then of_int 0 else x.

(** What one call of [measure_execution] observes: how [func] ended, the
    two series the sampling thread had appended when they are read, and the
    two readings of [time.time()]. *)
Record Execution (A : Type) : Type := {
  func_outcome : result A;
  cpu_samples : list F;
  memory_samples : list F;
  start_time : F;
  end_time : F
}.

(** [sum(xs) / len(xs) if xs else 0] *)
Definition average (xs : list F) : result F :=
  match xs with
  | [] => Ok (of_int 0)
  | _ :: _ => truediv_int (py_sum xs) (Z.of_nat (List.length xs))
  end.

(** An exception of [func] leaves through the [finally] clause and no
    metrics are computed. *)
Definition measure_execution {A : Type} (self : EnergyEstimator)
    (run : Execution A) : result (A * EnergyMetrics) :=
  res <- func_outcome run ;;
  let duration := fsub (end_time run) (start_time run) in
  avg_cpu <- average (cpu_samples run) ;;
  avg_memory_gb <- average (memory_samples run) ;;
  metrics <- _calculate_energy self duration avg_cpu avg_memory_gb ;;
  Ok (res, metrics).

Definition estimate_from_metrics (self : EnergyEstimator)
    (duration cpu_percent memory_mb : F) : result EnergyMetrics :=
  memory_gb <- truediv_int memory_mb 1024 ;;
  _calculate_energy self duration cpu_percent memory_gb.

End WithFloat.

Arguments EnergyMetrics F : clear implicits.
Arguments EnergyEstimator F : clear implicits.
Arguments Execution F A : clear implicits.

End Estimator.

(** ** src/greenpipeline/cli.py *)

Module Cli.

Section WithFloat.
Context {F : Type} `{PyFloat F}.

(** The dict [result_data] built by [run_command], with its two nested
    dicts; the keys are the fields. *)
Record Metrics : Type := {
  cpu_percent : F;
  memory_mb : F;
  energy_joules : F;
  energy_kwh : F;
  carbon_grams : F;
  carbon_intensity : Z
}.

Record Equivalents : Type := {
  smartphone_charges : F;
  km_driven : F
}.

Record ResultData : Type := {
  timestamp : string;
  command : string;
  location : string;
  success : bool;
  duration_seconds : F;
  metrics : Metrics;
  equivalents : Equivalents
}.

(** How [subprocess.run] ended: a completed process, or an exception whose
    text is [message]. *)
Inductive Subprocess : Type :=
| Completed (returncode : Z) (stdout stderr : string)
| Faulted (message : string).

(** What one call of [run_command] observes: the two readings of
    [time.time()], the subprocess and [datetime.now().isoformat()]. *)
Record Observation : Type := {
  start_time : F;
  proc : Subprocess;
  end_time : F;
  now : string
}.

(** [~/.greenpipeline/history.json]: absent, or the JSON list it holds.  A
    file that exists is taken to hold a list of complete entries, which is
    what [_save_to_history] writes; what [json.load] or a key lookup raises
    on any other content has no counterpart here, and every statement about
    a history file is about a file that is absent or holds such a list. *)
Definition HistoryFile : Type := option (list ResultData).

(** The slice [xs[-n:]] for a positive [n]. *)
Definition last_entries {A : Type} (n : nat) (xs : list A) : list A :=
  skipn (List.length xs - n) xs.

(** The list [_save_to_history] starts from: empty, replaced by the content
    of the file when the file exists. *)
Definition stored (file : HistoryFile) : list ResultData :=
  match file with
  | Some entries => entries
  | None => []
  end.

Definition _save_to_history (file : HistoryFile) (data : ResultData)
    : HistoryFile :=
  let history := stored file in
  let history := history ++ [data] in
  let history := last_entries 100 history in
  Some history.

(** Successive calls of [_save_to_history], one per entry. *)
Definition appends (file : HistoryFile) (entries : list ResultData)
    : HistoryFile :=
  fold_left _save_to_history entries file.

(** Line 45 of [run_command]: the value of the local [carbon_intensity]. *)
Definition intensity_for (location : string) : Z :=
  if String.eqb location "DE" then 420%Z
  else if String.eqb location "CO" then 165%Z
  else 389%Z.

(** A workload failed when it exited with a non-zero status or when
    running it raised; the error text captured is then its standard error,
    or the text of the exception. *)
Definition failed (p : Subprocess) : bool :=
  match p with
  | Completed returncode _ _ => negb (returncode =? 0)%Z
  | Faulted _ => true
  end.

Definition error_output (p : Subprocess) : string :=
  match p with
  | Completed _ _ stderr => stderr
  | Faulted message => message
  end.

(** What a call of [run_command] leaves behind: the dict it returns, the
    text it hands to [_print_results] for display, and the history file. *)
Record Run : Type := {
  returned : ResultData;
  output : string;
  history : HistoryFile
}.

Definition run_command (file : HistoryFile) (obs : Observation)
    (command location : string) (save_history : bool) : result Run :=
  let carbon_intensity := intensity_for location in
  let '(success, output) :=
    match proc obs with
    | Completed returncode stdout stderr =>
        let success := (returncode =? 0)%Z in
        (success, if success then stdout else stderr)
    | Faulted message => (false, message)
    end in
  let duration := fsub (end_time obs) (start_time obs) in
  let cpu_percent := lit 45 1 in
  let memory_mb := lit 512 1 in
  let energy_joules := fmul duration (of_int 25) in
  energy_kwh <- truediv_int energy_joules 3600000 ;;
  let carbon_grams := fmul energy_kwh (of_int carbon_intensity) in
  charges <- truediv (fmul carbon_grams (of_int 1000)) (lit 62 1000) ;;
  km <- truediv_int carbon_grams 192 ;;
  let result_data :=
    {| timestamp := now obs;
       command := command;
       location := location;
       success := success;
       duration_seconds := round_nd duration 2;
       metrics :=
         {| cpu_percent := cpu_percent;
            memory_mb := memory_mb;
            energy_joules := round_nd energy_joules 2;
            energy_kwh := round_nd energy_kwh 6;
            carbon_grams := round_nd carbon_grams 4;
            carbon_intensity := carbon_intensity |};
       equivalents :=
         {| smartphone_charges := round_nd charges 1;
            km_driven := round_nd km 3 |} |} in
  let file := if save_history then _save_to_history file result_data
              else file in
  Ok {| returned := result_data; output := output; history := file |}.

(** The list [locations] of [compare_locations]. *)
Definition locations : list (string * string) :=
  [("Colombia"%string, "CO"%string); ("Alemania"%string, "DE"%string);
   ("California"%string, "US-CA"%string); ("Francia"%string, "FR"%string)].

(** The first loop of [compare_locations]; [world i] is what the [i]-th
    call of [run_command] observes. *)
Fixpoint measure_each (file : HistoryFile) (world : nat -> Observation)
    (i : nat) (command : string) (locs : list (string * string))
    : result (list (string * ResultData)) :=
  match locs with
  | [] => Ok []
  | (name, code) :: rest =>
      run <- run_command file (world i) command code false ;;
      results <- measure_each (history run) world (S i) command rest ;;
      Ok ((name, returned run) :: results)
  end.

(** One printed line of the comparison: the name, the carbon mass, the
    percentage against the baseline, and whether the rising arrow is
    chosen. *)
Record Row : Type := {
  name : string;
  carbon : F;
  diff_percent : F;
  rising : bool
}.

Definition report_row (baseline : F) (entry : string * ResultData)
    : result Row :=
  let carbon := carbon_grams (metrics (snd entry)) in
  ratio <- truediv (fsub carbon baseline) baseline ;;
  let diff_percent := fmul ratio (of_int 100) in
  Ok {| name := fst entry;
        carbon := carbon;
        diff_percent := diff_percent;
        rising := fltb (of_int 0) diff_percent |}.

(** The second loop of [compare_locations]. *)
Fixpoint report (baseline : F) (results : list (string * ResultData))
    : result (list Row) :=
  match results with
  | [] => Ok []
  | entry :: rest =>
      row <- report_row baseline entry ;;
      rows <- report baseline rest ;;
      Ok (row :: rows)
  end.

(** [compare_locations] over a given list of locations. *)
Definition compare_over (locs : list (string * string))
    (file : HistoryFile) (world : nat -> Observation) (command : string)
    : result (list Row) :=
  results <- measure_each file world 0 command locs ;;
  match results with
  | [] => Raise IndexError
  | first :: _ => report (carbon_grams (metrics (snd first))) results
  end.

Definition compare_locations : HistoryFile -> (nat -> Observation) ->
    string -> result (list Row) :=
  compare_over locations.

End WithFloat.

Arguments Metrics F : clear implicits.
Arguments Equivalents F : clear implicits.
Arguments ResultData F : clear implicits.
Arguments Observation F : clear implicits.
Arguments HistoryFile F : clear implicits.
Arguments Run F : clear implicits.
Arguments Row F : clear implicits.

End Cli.

(** ** src/greenpipeline/cli.py: what is shown, and the dispatch *)

Module Console.

(** *** Slices and strings

    A character is a code point below 256, one [ascii] each. *)

(** The slice [xs[k:]] for any integer [k]: a negative [k] counts from the
    end, and either way the start is clipped to the list. *)
Definition slice_from {A : Type} (k : Z) (xs : list A) : list A :=
  let n := Z.of_nat (List.length xs) in
  let start := if (k <? 0)%Z then Z.max (n + k) 0 else Z.min k n in
  skipn (Z.to_nat start) xs.

(** The slice [s[:n]] of a string. *)
Definition prefix (n : nat) (s : string) : string := substring 0 n s.

(** [c.isspace()] *)
Definition is_space (c : Ascii.ascii) : bool :=
  let n := Ascii.nat_of_ascii c in
  ((9 <=? n) && (n <=? 13)) || ((28 <=? n) && (n <=? 32))
  || (n =? 133) || (n =? 160).

Fixpoint lstrip (s : string) : string :=
  match s with
  | EmptyString => EmptyString
  | String c rest => if is_space c then lstrip rest else s
  end.

Fixpoint rstrip (s : string) : string :=
  match s with
  | EmptyString => EmptyString
  | String c rest =>
      match rstrip rest with
      | EmptyString => if is_space c then EmptyString else String c EmptyString
      | kept => String c kept
      end
  end.

(** [s.strip()] *)
Definition strip (s : string) : string := rstrip (lstrip s).

Definition newline : Ascii.ascii := Ascii.ascii_of_nat 10.

(** [s.split("\n")]: the pieces between line breaks, at least one. *)
Fixpoint split_lines (s : string) : list string :=
  match s with
  | EmptyString => [EmptyString]
  | String c rest =>
      if Ascii.eqb c newline then EmptyString :: split_lines rest
      else match split_lines rest with
           | piece :: pieces => String c piece :: pieces
           | [] => [String c EmptyString]
           end
  end.

(** The end of [_print_results]: the lines printed under the heading of the
    command's output, nothing when the output is empty. *)
Definition _print_results_output (output : string) : list string :=
  match output with
  | EmptyString => []
  | _ =>
      let lines := slice_from (-5) (split_lines (strip output)) in
      map (fun line => ("   " ++ prefix 70 line)%string) lines
  end.

Section WithFloat.
Context {F : Type} `{PyFloat F}.

(** One line of the listing of [show_history]. *)
Record Line : Type := {
  line_timestamp : string;
  line_command : string;
  line_duration : F;
  line_carbon : F
}.

(** What [show_history] prints when the file exists: the lines, then the
    number of entries, the two sums and the smartphone equivalent. *)
Record Listing : Type := {
  lines : list Line;
  executions : nat;
  total_carbon : F;
  total_energy : F;
  total_charges : F
}.

Definition line_of (entry : Cli.ResultData F) : Line :=
  {| line_timestamp := prefix 19 (Cli.timestamp entry);
     line_command := prefix 30 (Cli.command entry);
     line_duration := Cli.duration_seconds entry;
     line_carbon := Cli.carbon_grams (Cli.metrics entry) |}.

(** [show_history]; without a file it prints a notice and returns. *)
Definition show_history (file : Cli.HistoryFile F) (limit : Z)
    : result (option Listing) :=
  match file with
  | None => Ok None
  | Some history =>
      let lines := map line_of (slice_from (- limit) history) in
      let total_carbon :=
        py_sum (map (fun e => Cli.carbon_grams (Cli.metrics e)) history) in
      let total_energy :=
        py_sum (map (fun e => Cli.energy_joules (Cli.metrics e)) history) in
      charges <- truediv (fmul total_carbon (of_int 1000)) (lit 62 1000) ;;
      Ok (Some {| lines := lines;
                  executions := List.length history;
                  total_carbon := total_carbon;
                  total_energy := total_energy;
                  total_charges := charges |})
  end.

(** The history file when the first loop of [compare_locations] ends,
    by running through the list or by an exception of a run; the
    divisions of [run_command] come before it saves, so a run that raises
    leaves the file it found. *)
Fixpoint history_after_each (file : Cli.HistoryFile F)
    (world : nat -> Cli.Observation F) (i : nat) (command : string)
    (locs : list (string * string)) : Cli.HistoryFile F :=
  match locs with
  | [] => file
  | (name, code) :: rest =>
      match Cli.run_command file (world i) command code false with
      | Ok run => history_after_each (Cli.history run) world (S i) command rest
      | Raise _ => file
      end
  end.

(** The arguments as [argparse] hands them to [main]. *)
Inductive Args : Type :=
| NoCommand
| RunArgs (cmd location : string)
| HistoryArgs
| CompareArgs (cmd : string).

(** What [main] did. *)
Inductive Done : Type :=
| Helped
| Ran (data : Cli.ResultData F) (output : string)
| Listed (listing : option Listing)
| Compared (rows : list (Cli.Row F)).

(** [main] after the parsing: how it ended, with what it did or with the
    exception that left it, and the history file it leaves either way.  The
    second loop of [compare_locations] and [show_history] do not write. *)
Definition main (args : Args) (file : Cli.HistoryFile F)
    (world : nat -> Cli.Observation F)
    : result Done * Cli.HistoryFile F :=
  match args with
  | NoCommand => (Ok Helped, file)
  | RunArgs cmd location =>
      match Cli.run_command file (world 0%nat) cmd location true with
      | Ok run => (Ok (Ran (Cli.returned run) (Cli.output run)),
                   Cli.history run)
      | Raise e => (Raise e, file)
      end
  | HistoryArgs =>
      (listing <- show_history file 10 ;; Ok (Listed listing), file)
  | CompareArgs cmd =>
      (rows <- Cli.compare_locations file world cmd ;; Ok (Compared rows),
       history_after_each file world 0 cmd Cli.locations)
  end.

End WithFloat.

Arguments Line F : clear implicits.
Arguments Listing F : clear implicits.
Arguments Done F : clear implicits.

End Console.

(** ** Vocabulary for the analysis of binary64 rounding

    The standard library computes a rounded result by shifting a mantissa to
    the right while it keeps a round bit and a sticky bit.  The definitions
    below say what that computation returns, in terms of integer division
    and of [rne_div], for a non-negative quantity given as [N / D * 2 ^ e]. *)

Section RoundingVocabulary.
Open Scope Z_scope.

(** The exponent binary64 gives to a number of magnitude [e]. *)
Definition fexp64 (e : Z) : Z := Z.max (e - 53) (-1074).

(** Where a remainder [r] of a division by [d] lies: nowhere when it is
    zero, else below, at or above the half. *)
Definition loc_of (r d : Z) : location :=
  if r =? 0 then loc_Exact else loc_Inexact (2 * r ?= d).

(** The quotient of [N] by [D], truncated, with the place of what was cut
    off, in the record the library shifts. *)
Definition located (N D : Z) : shr_record :=
  shr_record_of_loc (N / D) (loc_of (N mod D) D).

(** The number whose rounded mantissa is [k] at exponent [E]: a mantissa
    that reached [2 ^ 53] moves one exponent up, an exponent above 971
    overflows to infinity. *)
Definition round_at (s : bool) (E k : Z) : spec_float :=
  match k with
  | Zpos p =>
      if Zpos p =? 2 ^ 53
      then if E + 1 <=? 971
           then S754_finite s (2 ^ 52)%positive (E + 1)
           else S754_infinity s
      else if E <=? 971 then S754_finite s p E else S754_infinity s
  | _ => S754_zero s
  end.

(** The rounding to nearest, ties to even, of [N / D * 2 ^ e], with sign
    [s]. *)
Definition rnd (s : bool) (N D e : Z) : spec_float :=
  let E := fexp64 (Zdigits2 (N / D) + e) in
  round_at s E (rne_div N (Z.to_pos (D * 2 ^ (E - e)))).

(** Non-negative numbers: a zero of either sign, a valid positive number,
    plus infinity. *)
Inductive nn : spec_float -> Prop :=
| nn_zero (s : bool) : nn (S754_zero s)
| nn_finite (m : positive) (e : Z) :
    bounded B64.prec B64.emax m e = true -> nn (S754_finite false m e)
| nn_inf : nn (S754_infinity false).

(** A valid positive finite number. *)
Definition pos_valid (c : spec_float) : Prop :=
  exists m e, c = S754_finite false m e /\ bounded B64.prec B64.emax m e = true.

(** A function that keeps non-negative numbers non-negative and in order. *)
Definition mono_nn (f : spec_float -> spec_float) : Prop :=
  forall x1 x2, nn x1 -> nn x2 -> SFleb x1 x2 = true ->
    nn (f x1) /\ nn (f x2) /\ SFleb (f x1) (f x2) = true.

(** The exponent at which the division of [mx * 2 ^ ex] by [mc * 2 ^ ec]
    computes its quotient, and the numerator it divides by [mc]. *)
Definition div_exp (mc : positive) (ec : Z) (mx : positive) (ex : Z) : Z :=
  Z.min (fexp64 (Zdigits2 (Zpos mx) + ex - (Zdigits2 (Zpos mc) + ec)))
        (ex - ec).

Definition div_num (mc : positive) (ec : Z) (mx : positive) (ex : Z) : Z :=
  Zpos mx * 2 ^ (ex - ec - div_exp mc ec mx ex).

(** The exponent [binary_round] aligns [M * 2 ^ e] to, and the mantissa it
    then rounds. *)
Definition norm_exp (M e : Z) : Z := Z.min e (fexp64 (Zdigits2 M + e)).
Definition norm_num (M e : Z) : Z := M * 2 ^ (e - norm_exp M e).

(** The cpu term of [total_power_watts] on binary64. *)
Definition cpu_power (tdp : Z) (u : B64.float) : B64.float :=
  fmul (of_int tdp)
    (fadd (fmul (fdiv u (lit 100 1)) Estimator.CPU_POWER_FACTOR)
       Estimator.CPU_BASELINE).

(** A memory figure in the ordinary range: zero, or a positive normal
    number below [2 ^ 1014]. *)
Definition ordinary (g : spec_float) : Prop :=
  (exists s, g = S754_zero s)
  \/ exists m e, g = S754_finite false m e
       /\ bounded B64.prec B64.emax m e = true
       /\ 2 ^ 52 <= Zpos m /\ e <= 961.

End RoundingVocabulary.

(** ** Concrete runs *)

Module Samples.

(** An estimator on an x86_64 machine with the default intensity. *)
Definition x86 : Estimator.EnergyEstimator B64.float :=
  Estimator.init Estimator.default_carbon_intensity "x86_64".

(** A workload that returned [tt] after ten seconds, during which two
    samples of 50 % cpu and 2 GB were taken. *)
Definition sampled : Estimator.Execution B64.float unit :=
  {| Estimator.func_outcome := Ok tt;
     Estimator.cpu_samples := [of_int 50; of_int 50];
     Estimator.memory_samples := [of_int 2; of_int 2];
     Estimator.start_time := of_int 0;
     Estimator.end_time := of_int 10 |}.

(** A command that exits with status 1 after ten seconds, having written
    [stderr] to its standard error. *)
Definition exits_1 (stderr : string) : Cli.Observation B64.float :=
  {| Cli.start_time := of_int 0;
     Cli.proc := Cli.Completed 1 EmptyString stderr;
     Cli.end_time := of_int 10;
     Cli.now := "2024-01-01T00:00:00" |}.

(** A command that succeeds within a hundredth of a second. *)
Definition quick : Cli.Observation B64.float :=
  {| Cli.start_time := of_int 0;
     Cli.proc := Cli.Completed 0 EmptyString EmptyString;
     Cli.end_time := lit 1 100;
     Cli.now := "2024-01-01T00:00:00" |}.

End Samples.

(** ** Concrete history files *)

Module Logs.

(** The dict of a ten-second run in Colombia, as [run_command] builds
    it. *)
Definition logged (stamp command : string) : Cli.ResultData B64.float :=
  {| Cli.timestamp := stamp;
     Cli.command := command;
     Cli.location := "CO";
     Cli.success := true;
     Cli.duration_seconds := of_int 10;
     Cli.metrics :=
       {| Cli.cpu_percent := lit 45 1;
          Cli.memory_mb := lit 512 1;
          Cli.energy_joules := of_int 250;
          Cli.energy_kwh := lit 69 1000000;
          Cli.carbon_grams := lit 115 10000;
          Cli.carbon_intensity := 165 |};
     Cli.equivalents :=
       {| Cli.smartphone_charges := lit 1848 10;
          Cli.km_driven := of_int 0 |} |}.

(** A history of three runs, the second with a time stamp and a command
    longer than a listing shows. *)
Definition three : list (Cli.ResultData B64.float) :=
  [logged "2024-01-01T09:00:00" "npm test";
   logged "2024-01-01T10:00:00.123456"
     "python -m pytest tests/integration --maxfail=1";
   logged "2024-01-01T11:00:00" "make"].

(** A command that succeeds after ten seconds. *)
Definition ten_seconds : Cli.Observation B64.float :=
  {| Cli.start_time := of_int 0;
     Cli.proc := Cli.Completed 0 "ok" EmptyString;
     Cli.end_time := of_int 10;
     Cli.now := "2024-01-01T09:00:00" |}.

End Logs.

(** * Properties *)

(** ** The monad *)

Lemma bind_Ok {A B : Type} (a : A) (k : A -> result B) :
  bind (Ok a) k = k a.
Proof. reflexivity. Qed.

Lemma bind_inv {A B : Type} (c : result A) (k : A -> result B) (b : B) :
  bind c k = Ok b -> exists a, c = Ok a /\ k a = Ok b.
Proof.
  destruct c as [a | e]; simpl; intros E.
  - exists a. split; [reflexivity | exact E].
  - discriminate E.
Qed.

(** ** Divisors that are literals *)

Lemma truediv_int_nonzero {F : Type} `{PyFloat F} (x : F) (n : Z) :
  n <> 0%Z -> truediv_int x n = Ok (fdiv x (of_int n)).
Proof.
  intros Hn. unfold truediv_int.
  destruct (Z.eqb_spec n 0) as [E | _]; [contradiction | reflexivity].
Qed.

Lemma truediv_nonzero {F : Type} `{PyFloat F} (x y : F) :
  is_zero y = false -> truediv x y = Ok (fdiv x y).
Proof. intros Hy. unfold truediv. rewrite Hy. reflexivity. Qed.

Lemma b64_100_nonzero : is_zero (lit 100 1 : B64.float) = false.
Proof. reflexivity. Qed.

Lemma b64_0062_nonzero : is_zero (lit 62 1000 : B64.float) = false.
Proof. reflexivity. Qed.

Lemma exact_100_nonzero : is_zero (lit 100 1 : Q) = false.
Proof. reflexivity. Qed.

(** ** Slices *)

Section Slices.
Context {A : Type}.
Implicit Types xs ys : list A.

Lemma last_entries_length n xs :
  List.length (Cli.last_entries n xs) = Nat.min n (List.length xs).
Proof. unfold Cli.last_entries. rewrite length_skipn. lia. Qed.

Lemma last_entries_short n xs :
  (List.length xs <= n)%nat -> Cli.last_entries n xs = xs.
Proof.
  intros Hle. unfold Cli.last_entries.
  replace (List.length xs - n)%nat with 0%nat by lia. reflexivity.
Qed.

(** Truncating before a further append changes nothing once the result is
    truncated again. *)
Lemma last_entries_app n xs ys :
  Cli.last_entries n (Cli.last_entries n xs ++ ys)
  = Cli.last_entries n (xs ++ ys).
Proof.
  unfold Cli.last_entries.
  set (k := (List.length xs - n)%nat).
  assert (Hcut : skipn k (xs ++ ys) = skipn k xs ++ ys).
  { rewrite skipn_app.
    replace (k - List.length xs)%nat with 0%nat by (subst k; lia).
    reflexivity. }
  rewrite <- Hcut, skipn_skipn. f_equal.
  rewrite length_skipn, length_app. subst k. lia.
Qed.

(** Appending one element and keeping one more. *)
Lemma last_entries_snoc n xs x :
  Cli.last_entries (S n) (xs ++ [x]) = Cli.last_entries n xs ++ [x].
Proof.
  unfold Cli.last_entries. rewrite length_app. simpl List.length.
  replace (List.length xs + 1 - S n)%nat with (List.length xs - n)%nat
    by lia.
  rewrite skipn_app.
  replace (List.length xs - n - List.length xs)%nat with 0%nat by lia.
  reflexivity.
Qed.

(** The slice is a suffix: what it drops is a prefix. *)
Lemma last_entries_suffix n xs :
  exists dropped, xs = dropped ++ Cli.last_entries n xs
    /\ List.length dropped = (List.length xs - n)%nat.
Proof.
  exists (firstn (List.length xs - n) xs). split.
  - unfold Cli.last_entries. symmetry. apply firstn_skipn.
  - rewrite length_firstn. lia.
Qed.
End Slices.

(** ** The history file *)

Section History.
Context {F : Type} `{PyFloat F}.
Implicit Types (file : Cli.HistoryFile F) (d : Cli.ResultData F).
Implicit Types (ds : list (Cli.ResultData F)).

Lemma stored_save file d :
  Cli.stored (Cli._save_to_history file d)
  = Cli.last_entries 100 (Cli.stored file ++ [d]).
Proof. reflexivity. Qed.

Lemma appends_cons file d ds :
  Cli.appends file (d :: ds) = Cli.appends (Cli._save_to_history file d) ds.
Proof. reflexivity. Qed.

(** From a log within the cap, any run of appends leaves the last hundred
    of everything ever stored. *)
Lemma appends_within_cap ds : forall file,
  (List.length (Cli.stored file) <= 100)%nat ->
  Cli.stored (Cli.appends file ds)
  = Cli.last_entries 100 (Cli.stored file ++ ds).
Proof.
  induction ds as [| d ds IH]; intros file Hcap.
  - simpl. rewrite app_nil_r. symmetry. now apply last_entries_short.
  - rewrite appends_cons, IH.
    + rewrite stored_save, last_entries_app, <- app_assoc. reflexivity.
    + rewrite stored_save, last_entries_length. lia.
Qed.

(** C2. After one or more appends, whatever the file held before, the
    persisted log has at most 100 entries; it is the last 100 of the old
    log followed by the appended entries in order, so what is missing is a
    prefix, evicted oldest first; from an absent file it is the last 100
    appended.  Said without the slice: the log is what remains of the old
    log followed by the appended entries when a prefix is taken away, and
    it has 100 entries, or all of them when there are fewer. *)
Theorem history_capped_most_recent file d ds :
  let log := Cli.stored (Cli.appends file (d :: ds)) in
  (List.length log <= 100)%nat
  /\ log = Cli.last_entries 100 (Cli.stored file ++ d :: ds)
  /\ (exists evicted, Cli.stored file ++ d :: ds = evicted ++ log)
  /\ Cli.stored (Cli.appends None (d :: ds))
     = Cli.last_entries 100 (d :: ds)
  /\ List.length log
     = Nat.min 100 (List.length (Cli.stored file ++ d :: ds)).
Proof.
  assert (Hlog : forall file',
    Cli.stored (Cli.appends file' (d :: ds))
    = Cli.last_entries 100 (Cli.stored file' ++ d :: ds)).
  { intros file'. rewrite appends_cons, appends_within_cap.
    - rewrite stored_save, last_entries_app, <- app_assoc. reflexivity.
    - rewrite stored_save, last_entries_length. lia. }
  cbv zeta. rewrite Hlog.
  split; [rewrite last_entries_length; lia |].
  split; [reflexivity |].
  split.
  { destruct (last_entries_suffix 100 (Cli.stored file ++ d :: ds))
      as [dropped [Hsplit _]].
    exists dropped. exact Hsplit. }
  split; [apply Hlog | apply last_entries_length].
Qed.

(** What one append stores: the last 99 of the old log, then the new
    entry. *)
Lemma save_to_history_value file d :
  Cli._save_to_history file d
  = Some (Cli.last_entries 99 (Cli.stored file) ++ [d]).
Proof.
  unfold Cli._save_to_history. cbv zeta. f_equal.
  apply last_entries_snoc.
Qed.

(** C10. One append keeps a suffix of the old log, unchanged and in order,
    and puts the new entry after it; the entries that disappear form a
    prefix of the old log, and none disappears while the old log has fewer
    than 100 entries. *)
Theorem append_keeps_suffix file d :
  exists evicted kept,
    Cli.stored file = evicted ++ kept
    /\ Cli._save_to_history file d = Some (kept ++ [d])
    /\ List.length evicted = (List.length (Cli.stored file) - 99)%nat.
Proof.
  destruct (last_entries_suffix 99 (Cli.stored file))
    as [evicted [Hsplit Hevicted]].
  exists evicted, (Cli.last_entries 99 (Cli.stored file)).
  split; [exact Hsplit |].
  split; [apply save_to_history_value | exact Hevicted].
Qed.
End History.

(** ** [run_command] *)

Section RunCommand.
Context {F : Type} `{PyFloat F}.
Hypothesis smartphone_divisor : is_zero (lit 62 1000) = false.

Variables (file : Cli.HistoryFile F) (obs : Cli.Observation F).
Variables (command location : string) (save_history : bool).

Let duration : F := fsub (Cli.end_time obs) (Cli.start_time obs).
Let joules : F := fmul duration (of_int 25).
Let kwh : F := fdiv joules (of_int 3600000).
Let grams : F := fmul kwh (of_int (Cli.intensity_for location)).

(** None of the three divisions of [run_command] can raise; the call
    returns, and every figure of the dict is the rounding of a value
    computed from the observed duration. *)
Lemma run_command_returns :
  exists run,
    Cli.run_command file obs command location save_history = Ok run
    /\ Cli.success (Cli.returned run) = negb (Cli.failed (Cli.proc obs))
    /\ (Cli.failed (Cli.proc obs) = true ->
        Cli.output run = Cli.error_output (Cli.proc obs))
    /\ Cli.duration_seconds (Cli.returned run) = round_nd duration 2
    /\ Cli.energy_joules (Cli.metrics (Cli.returned run))
       = round_nd joules 2
    /\ Cli.energy_kwh (Cli.metrics (Cli.returned run)) = round_nd kwh 6
    /\ Cli.carbon_grams (Cli.metrics (Cli.returned run))
       = round_nd grams 4
    /\ Cli.carbon_intensity (Cli.metrics (Cli.returned run))
       = Cli.intensity_for location
    /\ Cli.history run
       = if save_history
         then Cli._save_to_history file (Cli.returned run)
         else file.
Proof.
  unfold Cli.run_command, Cli.failed, Cli.error_output.
  destruct (Cli.proc obs) as [returncode stdout stderr | message];
    [destruct (returncode =? 0)%Z |];
    cbv beta iota zeta;
    rewrite truediv_int_nonzero by discriminate; rewrite bind_Ok;
    rewrite truediv_nonzero by exact smartphone_divisor; rewrite bind_Ok;
    rewrite truediv_int_nonzero by discriminate; rewrite bind_Ok;
    (eexists; split; [reflexivity |]; simpl;
     repeat split; try reflexivity;
     intros Hfailed; try reflexivity; discriminate Hfailed).
Qed.
End RunCommand.

(** ** [_calculate_energy] *)

Section CalculateEnergy.
Context {F : Type} `{PyFloat F}.
Hypothesis percent_divisor : is_zero (lit 100 1) = false.

Variable self : Estimator.EnergyEstimator F.

(** The power of the linear model, on the inputs as they are given. *)
Lemma total_power_watts_value (cpu_percent memory_gb : F) :
  Estimator.total_power_watts self cpu_percent memory_gb
  = Ok (fadd
          (fmul (of_int (Estimator.tdp self))
             (fadd (fmul (fdiv cpu_percent (lit 100 1))
                      Estimator.CPU_POWER_FACTOR)
                Estimator.CPU_BASELINE))
          (fmul memory_gb Estimator.RAM_WATTS_PER_GB)).
Proof.
  unfold Estimator.total_power_watts.
  rewrite truediv_nonzero by exact percent_divisor. reflexivity.
Qed.

Lemma calculate_energy_value (duration cpu_percent memory_gb : F) :
  exists power,
    Estimator.total_power_watts self cpu_percent memory_gb = Ok power
    /\ Estimator._calculate_energy self duration cpu_percent memory_gb
       = Ok {| Estimator.duration_seconds := duration;
               Estimator.cpu_percent := cpu_percent;
               Estimator.memory_mb := fmul memory_gb (of_int 1024);
               Estimator.energy_joules := fmul power duration;
               Estimator.carbon_grams :=
                 fmul (fdiv (fmul power duration) (of_int 3600000))
                   (Estimator.carbon_intensity self);
               Estimator.sci_score :=
                 fmul (fdiv (fmul power duration) (of_int 3600000))
                   (Estimator.carbon_intensity self) |}.
Proof.
  eexists. split; [apply total_power_watts_value |].
  unfold Estimator._calculate_energy.
  rewrite total_power_watts_value, bind_Ok.
  rewrite truediv_int_nonzero by discriminate. reflexivity.
Qed.

(** The mean of a non-empty series divides by its length, which is not
    zero; the empty series is answered without dividing. *)
Lemma average_returns (xs : list F) :
  exists mean, Estimator.average xs = Ok mean.
Proof.
  destruct xs as [| x xs]; simpl.
  - eexists. reflexivity.
  - eexists. apply truediv_int_nonzero. lia.
Qed.
End CalculateEnergy.

(** ** The estimator on binary64 *)

Section EstimatorBinary64.
Local Abbreviation float := B64.float.
Local Abbreviation zero := (S754_zero false).

Variable self : Estimator.EnergyEstimator float.

(** C4. With no sample in either series the two averages are the constant
    zero, obtained without a division, and the metrics report zero for
    both; on any series the averaging returns a value, so it never divides
    by zero. *)
Theorem no_samples_means_zero (A : Type) (res : A) (t0 t1 : float) :
  (forall xs : list float, exists mean, Estimator.average xs = Ok mean)
  /\ Estimator.average (@nil float) = Ok zero
  /\ exists metrics,
       Estimator.measure_execution self
         {| Estimator.func_outcome := Ok res;
            Estimator.cpu_samples := [];
            Estimator.memory_samples := [];
            Estimator.start_time := t0;
            Estimator.end_time := t1 |} = Ok (res, metrics)
       /\ Estimator.cpu_percent metrics = zero
       /\ Estimator.memory_mb metrics = zero.
Proof.
  split; [intros xs; apply average_returns |].
  split; [reflexivity |].
  destruct (calculate_energy_value b64_100_nonzero self
              (fsub t1 t0) zero zero) as [power [_ Hcalc]].
  eexists. split.
  - unfold Estimator.measure_execution. simpl Estimator.func_outcome.
    rewrite bind_Ok. simpl Estimator.cpu_samples.
    simpl Estimator.memory_samples. simpl Estimator.average.
    rewrite !bind_Ok. simpl Estimator.end_time. simpl Estimator.start_time.
    change (@of_int float B64.binary64 0) with zero.
    rewrite Hcalc, bind_Ok. reflexivity.
  - split; reflexivity.
Qed.

(** C3, as the code has it.  The power computation always returns, and
    what it returns is the linear model on the inputs as given, negative
    ones included; it agrees with the clamped computation of the
    specification whenever neither input is negative. *)
Theorem power_returns_unclamped (cpu_percent memory_gb : float) :
  Estimator.total_power_watts self cpu_percent memory_gb
  = Ok (fadd
          (fmul (of_int (Estimator.tdp self))
             (fadd (fmul (fdiv cpu_percent (lit 100 1))
                      Estimator.CPU_POWER_FACTOR)
                Estimator.CPU_BASELINE))
          (fmul memory_gb Estimator.RAM_WATTS_PER_GB))
  /\ (fltb cpu_percent (of_int 0) = false ->
      fltb memory_gb (of_int 0) = false ->
      Estimator.total_power_watts self
        (Estimator.spec_clamp cpu_percent) (Estimator.spec_clamp memory_gb)
      = Estimator.total_power_watts self cpu_percent memory_gb).
Proof.
  split; [apply total_power_watts_value; exact b64_100_nonzero |].
  intros Hcpu Hmem. unfold Estimator.spec_clamp.
  rewrite Hcpu, Hmem. reflexivity.
Qed.

(** C1, the estimator's half.  [_calculate_energy] always returns, and in
    the metrics it returns the carbon mass is the product of the energy in
    kWh, itself the energy in joules over 3 600 000, by the carbon
    intensity, with nothing rounded in between. *)
Lemma estimator_carbon_identity (duration cpu_percent memory_gb : float) :
  exists metrics,
    Estimator._calculate_energy self duration cpu_percent memory_gb
    = Ok metrics
    /\ Estimator.carbon_grams metrics
       = fmul (fdiv (Estimator.energy_joules metrics) (of_int 3600000))
           (Estimator.carbon_intensity self)
    /\ Estimator.sci_score metrics = Estimator.carbon_grams metrics.
Proof.
  destruct (calculate_energy_value b64_100_nonzero self
              duration cpu_percent memory_gb) as [power [_ Hcalc]].
  eexists. split; [exact Hcalc |]. split; reflexivity.
Qed.
End EstimatorBinary64.

(** ** The measuring command on binary64 *)

(** Every figure of the dict of [run_command], from the observed
    duration. *)
Lemma run_command_figures (file : Cli.HistoryFile B64.float)
    (obs : Cli.Observation B64.float) (command location : string)
    (save_history : bool) :
  let duration := fsub (Cli.end_time obs) (Cli.start_time obs) in
  let joules := fmul duration (of_int 25) in
  let kwh := fdiv joules (of_int 3600000) in
  let grams := fmul kwh (of_int (Cli.intensity_for location)) in
  exists run,
    Cli.run_command file obs command location save_history = Ok run
    /\ Cli.duration_seconds (Cli.returned run) = round_nd duration 2
    /\ Cli.energy_joules (Cli.metrics (Cli.returned run)) = round_nd joules 2
    /\ Cli.energy_kwh (Cli.metrics (Cli.returned run)) = round_nd kwh 6
    /\ Cli.carbon_grams (Cli.metrics (Cli.returned run)) = round_nd grams 4
    /\ Cli.smartphone_charges (Cli.equivalents (Cli.returned run))
       = round_nd (fdiv (fmul grams (of_int 1000)) (lit 62 1000)) 1
    /\ Cli.km_driven (Cli.equivalents (Cli.returned run))
       = round_nd (fdiv grams (of_int 192)) 3.
Proof.
  cbv zeta. unfold Cli.run_command.
  destruct (Cli.proc obs) as [returncode stdout stderr | message];
    cbv beta iota zeta;
    rewrite truediv_int_nonzero by discriminate; rewrite bind_Ok;
    rewrite truediv_nonzero by exact b64_0062_nonzero; rewrite bind_Ok;
    rewrite truediv_int_nonzero by discriminate; rewrite bind_Ok;
    eexists; (split; [reflexivity |]); repeat split.
Qed.

Section CliBinary64.
Local Abbreviation float := B64.float.

Variables (file : Cli.HistoryFile float) (obs : Cli.Observation float).
Variables (command location : string) (save_history : bool).

(** C1, as the code has it.  In both pipelines the carbon mass is computed
    as energy in kWh times carbon intensity, the energy in kWh being the
    energy in joules over 3 600 000, with no rounding in between: so it is
    in the metrics of [_calculate_energy], and so it is in [run_command]
    before the dict is built.  The dict that is returned and persisted
    holds the energy in joules, the energy in kWh and the carbon mass each
    rounded on its own, to 2, 6 and 4 decimals. *)
Theorem carbon_identity_before_rounding
    (self : Estimator.EnergyEstimator float)
    (duration cpu_percent memory_gb : float) :
  (exists metrics,
     Estimator._calculate_energy self duration cpu_percent memory_gb
     = Ok metrics
     /\ Estimator.carbon_grams metrics
        = fmul (fdiv (Estimator.energy_joules metrics) (of_int 3600000))
            (Estimator.carbon_intensity self))
  /\ (exists run,
       Cli.run_command file obs command location save_history = Ok run
       /\ let joules :=
            fmul (fsub (Cli.end_time obs) (Cli.start_time obs))
              (of_int 25) in
          let kwh := fdiv joules (of_int 3600000) in
          let grams := fmul kwh (of_int (Cli.intensity_for location)) in
          Cli.energy_joules (Cli.metrics (Cli.returned run))
          = round_nd joules 2
          /\ Cli.energy_kwh (Cli.metrics (Cli.returned run))
             = round_nd kwh 6
          /\ Cli.carbon_grams (Cli.metrics (Cli.returned run))
             = round_nd grams 4
          /\ Cli.carbon_intensity (Cli.metrics (Cli.returned run))
             = Cli.intensity_for location
          /\ (save_history = true ->
              exists kept,
                Cli.history run = Some (kept ++ [Cli.returned run]))).
Proof.
  split.
  - destruct (estimator_carbon_identity self duration cpu_percent memory_gb)
      as [metrics [Hcalc [Hcarbon _]]].
    exists metrics. split; assumption.
  - destruct (run_command_returns b64_0062_nonzero file obs command location
                save_history)
      as [run [Hrun [_ [_ [_ [Hj [Hk [Hg [Hi Hh]]]]]]]]].
    exists run. split; [exact Hrun |]. cbv zeta.
    repeat (split; [assumption |]).
    intros Hsave. rewrite Hh, Hsave.
    exists (Cli.last_entries 99 (Cli.stored file)).
    apply save_to_history_value.
Qed.

(** C7, as the code has it.  A failing workload does not abort the
    measurement: [run_command] returns a dict with [success] false, whose
    figures are those computed from the observed duration; the error text
    is handed to the display and is not part of the dict; the dict is
    appended to the history when [save_history] is set and the history is
    left alone otherwise. *)
Theorem failed_workload_still_measured :
  Cli.failed (Cli.proc obs) = true ->
  exists run,
    Cli.run_command file obs command location save_history = Ok run
    /\ Cli.success (Cli.returned run) = false
    /\ Cli.output run = Cli.error_output (Cli.proc obs)
    /\ (let duration := fsub (Cli.end_time obs) (Cli.start_time obs) in
        let joules := fmul duration (of_int 25) in
        let kwh := fdiv joules (of_int 3600000) in
        Cli.duration_seconds (Cli.returned run) = round_nd duration 2
        /\ Cli.energy_joules (Cli.metrics (Cli.returned run))
           = round_nd joules 2
        /\ Cli.energy_kwh (Cli.metrics (Cli.returned run))
           = round_nd kwh 6
        /\ Cli.carbon_grams (Cli.metrics (Cli.returned run))
           = round_nd (fmul kwh (of_int (Cli.intensity_for location))) 4)
    /\ Cli.history run
       = if save_history
         then Cli._save_to_history file (Cli.returned run)
         else file.
Proof.
  intros Hfailed.
  destruct (run_command_returns b64_0062_nonzero file obs command location
              save_history)
    as [run [Hrun [Hs [Ho [Hd [Hj [Hk [Hg [_ Hh]]]]]]]]].
  exists run. split; [exact Hrun |].
  split; [rewrite Hs, Hfailed; reflexivity |].
  split; [exact (Ho Hfailed) |].
  split; [cbv zeta; repeat split; assumption | exact Hh].
Qed.

(** C9. A location code outside the built-in table, which holds DE and CO,
    is given the default intensity 389; the run returns, and the dict it
    returns carries that default.  The run measures with it: the carbon
    mass of the dict is the energy of the observed duration, in kWh, times
    389, rounded to four decimals, and the two equivalents are computed
    from that mass. *)
Theorem unknown_location_default :
  location <> "DE"%string -> location <> "CO"%string ->
  Cli.intensity_for location = 389%Z
  /\ exists run,
       Cli.run_command file obs command location save_history = Ok run
       /\ Cli.carbon_intensity (Cli.metrics (Cli.returned run)) = 389%Z
       /\ let duration := fsub (Cli.end_time obs) (Cli.start_time obs) in
          let joules := fmul duration (of_int 25) in
          let kwh := fdiv joules (of_int 3600000) in
          let grams := fmul kwh (of_int 389) in
          Cli.energy_joules (Cli.metrics (Cli.returned run))
          = round_nd joules 2
          /\ Cli.energy_kwh (Cli.metrics (Cli.returned run))
             = round_nd kwh 6
          /\ Cli.carbon_grams (Cli.metrics (Cli.returned run))
             = round_nd grams 4
          /\ Cli.smartphone_charges (Cli.equivalents (Cli.returned run))
             = round_nd (fdiv (fmul grams (of_int 1000)) (lit 62 1000)) 1
          /\ Cli.km_driven (Cli.equivalents (Cli.returned run))
             = round_nd (fdiv grams (of_int 192)) 3.
Proof.
  intros Hde Hco.
  assert (Hdefault : Cli.intensity_for location = 389%Z).
  { unfold Cli.intensity_for.
    destruct (String.eqb_spec location "DE") as [E | _]; [contradiction |].
    destruct (String.eqb_spec location "CO") as [E | _]; [contradiction |].
    reflexivity. }
  split; [exact Hdefault |].
  destruct (run_command_returns b64_0062_nonzero file obs command location
              save_history)
    as [run [Hrun [_ [_ [_ [_ [_ [_ [Hi _]]]]]]]]].
  destruct (run_command_figures file obs command location save_history)
    as [run' [Hrun' [_ [Hj [Hk [Hg [Hc Hm]]]]]]].
  rewrite Hrun in Hrun'. injection Hrun' as <-.
  rewrite Hdefault in Hg, Hc, Hm.
  exists run. split; [exact Hrun |].
  split; [rewrite Hi; exact Hdefault |].
  cbv zeta. repeat split; assumption.
Qed.
End CliBinary64.

(** ** Concrete runs on binary64 *)

(** C1 fails on the persisted values: after a ten-second run the stored
    entry holds 0.027 g of carbon and 0.000069 kWh at 389 g/kWh, whose
    product is 0.026841. *)
Lemma persisted_identity_broken :
  exists run,
    Cli.run_command None (Samples.exits_1 "boom") "false" "GLOBAL" true
    = Ok run
    /\ Cli.history run = Some [Cli.returned run]
    /\ Cli.carbon_grams (Cli.metrics (Cli.returned run))
       = B64.rnd_ratio false 27 1000
    /\ Cli.energy_kwh (Cli.metrics (Cli.returned run))
       = B64.rnd_ratio false 69 1000000
    /\ Cli.carbon_grams (Cli.metrics (Cli.returned run))
       <> fmul (Cli.energy_kwh (Cli.metrics (Cli.returned run)))
            (of_int (Cli.carbon_intensity (Cli.metrics (Cli.returned run)))).
Proof.
  eexists. split; [reflexivity |].
  vm_compute. repeat split; discriminate.
Qed.

Lemma carbon_identity_before_rounding_witness :
  (exists metrics,
     Estimator._calculate_energy Samples.x86 (of_int 10) (of_int 50)
       (of_int 2) = Ok metrics
     /\ Estimator.carbon_grams metrics
        = fmul (fdiv (Estimator.energy_joules metrics) (of_int 3600000))
            (of_int 475))
  /\ exists run,
       Cli.run_command None (Samples.exits_1 "boom") "false" "GLOBAL" true
       = Ok run
       /\ Cli.carbon_grams (Cli.metrics (Cli.returned run))
          = round_nd
              (fmul (fdiv (fmul (fsub (of_int 10) (of_int 0)) (of_int 25))
                       (of_int 3600000)) (of_int 389)) 4
       /\ exists kept, Cli.history run = Some (kept ++ [Cli.returned run]).
Proof.
  destruct (@carbon_identity_before_rounding None (Samples.exits_1 "boom")
              "false" "GLOBAL" true Samples.x86 (of_int 10) (of_int 50)
              (of_int 2))
    as [Hestimator [run [Hrun [_ [_ [Hgrams [_ Hsaved]]]]]]].
  split; [exact Hestimator |].
  exists run. split; [exact Hrun |]. split; [exact Hgrams |].
  apply Hsaved. reflexivity.
Defined.

(** C3 fails on negative inputs: at -100 % cpu the power is negative, not
    the 26 W of an idle machine, and a negative memory lowers the power. *)
Lemma negative_inputs_not_clamped :
  fltb (of_int (-100) : B64.float) (of_int 0) = true
  /\ Estimator.total_power_watts Samples.x86 (of_int (-100)) (of_int 0)
     <> Estimator.total_power_watts Samples.x86 (of_int 0) (of_int 0)
  /\ Estimator.total_power_watts Samples.x86 (of_int 0) (of_int 0)
     = Ok (of_int 26)
  /\ fltb (of_int (-1) : B64.float) (of_int 0) = true
  /\ Estimator.total_power_watts Samples.x86 (of_int 50) (of_int (-1))
     <> Estimator.total_power_watts Samples.x86 (of_int 50) (of_int 0).
Proof. vm_compute. repeat split; discriminate. Qed.

Lemma power_returns_unclamped_witness :
  Estimator.total_power_watts Samples.x86 (of_int 50) (of_int 2)
  = Ok (lit 4625 100)
  /\ Estimator.total_power_watts Samples.x86
       (Estimator.spec_clamp (of_int 50)) (Estimator.spec_clamp (of_int 2))
     = Estimator.total_power_watts Samples.x86 (of_int 50) (of_int 2).
Proof.
  destruct (power_returns_unclamped Samples.x86 (of_int 50) (of_int 2))
    as [Hvalue Hclamped].
  split.
  - rewrite Hvalue. vm_compute. reflexivity.
  - apply Hclamped; reflexivity.
Defined.


(** C7 fails as stated.  No reading of the returned dict, hence of the
    stored entry, recovers the error text of every failed workload: two
    failed runs that differ in their standard error only return the same
    dict.  And with [save_history] unset a failed run is measured but not
    recorded. *)
Lemma error_output_not_in_record :
  (~ exists captured : Cli.ResultData B64.float -> string,
       forall (file : Cli.HistoryFile B64.float) obs command location save run,
         Cli.failed (Cli.proc obs) = true ->
         Cli.run_command file obs command location save = Ok run ->
         captured (Cli.returned run) = Cli.error_output (Cli.proc obs))
  /\ exists run,
       Cli.failed (Cli.proc (Samples.exits_1 "boom")) = true
       /\ Cli.run_command None (Samples.exits_1 "boom") "false" "GLOBAL" false
          = Ok run
       /\ Cli.history run = None.
Proof.
  split.
  - intros [captured Hcaptured].
    destruct (Cli.run_command None (Samples.exits_1 "boom") "false" "GLOBAL"
                true) as [boom | e] eqn:Eboom;
      [| vm_compute in Eboom; discriminate Eboom].
    destruct (Cli.run_command None (Samples.exits_1 "bang") "false" "GLOBAL"
                true) as [bang | e] eqn:Ebang;
      [| vm_compute in Ebang; discriminate Ebang].
    pose proof (Hcaptured None (Samples.exits_1 "boom") _ _ _ _ eq_refl Eboom)
      as Hboom.
    pose proof (Hcaptured None (Samples.exits_1 "bang") _ _ _ _ eq_refl Ebang)
      as Hbang.
    vm_compute in Eboom, Ebang.
    injection Eboom as <-. injection Ebang as <-.
    simpl in Hboom, Hbang. congruence.
  - eexists. split; [reflexivity |]. split; reflexivity.
Qed.

Lemma failed_workload_still_measured_witness :
  Cli.failed (Cli.proc (Samples.exits_1 "boom")) = true
  /\ exists run,
       Cli.run_command None (Samples.exits_1 "boom") "false" "GLOBAL" true
       = Ok run
       /\ Cli.success (Cli.returned run) = false
       /\ Cli.output run = "boom"%string
       /\ Cli.energy_joules (Cli.metrics (Cli.returned run)) = of_int 250
       /\ Cli.history run = Some [Cli.returned run].
Proof.
  split; [reflexivity |].
  destruct (@failed_workload_still_measured None (Samples.exits_1 "boom")
              "false" "GLOBAL" true eq_refl)
    as [run [Hrun [Hsuccess [Houtput [[_ [Hjoules _]] Hhistory]]]]].
  exists run. repeat split; assumption.
Defined.

Lemma unknown_location_default_witness :
  Cli.intensity_for "US-CA" = 389%Z
  /\ exists run,
       Cli.run_command None Logs.ten_seconds "npm test" "US-CA" false = Ok run
       /\ Cli.carbon_intensity (Cli.metrics (Cli.returned run)) = 389%Z
       /\ Cli.carbon_grams (Cli.metrics (Cli.returned run)) = lit 27 1000
       /\ Cli.smartphone_charges (Cli.equivalents (Cli.returned run))
          = lit 4357 10
       /\ Cli.carbon_grams (Cli.metrics (Cli.returned run))
          <> Cli.carbon_grams
               (Cli.metrics (Logs.logged "2024-01-01T09:00:00" "npm test")).
Proof.
  destruct (@unknown_location_default None Logs.ten_seconds "npm test"
              "US-CA" false)
    as [Hdefault [run [Hrun [Hintensity [_ [_ [Hgrams [Hcharges _]]]]]]]];
    try discriminate.
  split; [exact Hdefault |].
  exists run. split; [exact Hrun |]. split; [exact Hintensity |].
  split; [rewrite Hgrams; vm_compute; reflexivity |].
  split; [rewrite Hcharges; vm_compute; reflexivity |].
  rewrite Hgrams. vm_compute. discriminate.
Defined.

(** ** The location comparison *)

Section Comparison.
Context {F : Type} `{PyFloat F}.

Lemma report_names (baseline : F) results : forall rows,
  Cli.report baseline results = Ok rows ->
  map Cli.name rows = map fst results.
Proof.
  induction results as [| entry rest IH]; simpl; intros rows Hrows.
  - injection Hrows as <-. reflexivity.
  - apply bind_inv in Hrows. destruct Hrows as [row [Hrow Hrows]].
    apply bind_inv in Hrows. destruct Hrows as [rows' [Hrest Hrows]].
    injection Hrows as <-. simpl. rewrite (IH _ Hrest). f_equal.
    unfold Cli.report_row in Hrow.
    apply bind_inv in Hrow. destruct Hrow as [ratio [_ Hrow]].
    injection Hrow as <-. reflexivity.
Qed.

Lemma measure_each_names world command locs : forall file i results,
  Cli.measure_each file world i command locs = Ok results ->
  map fst results = map fst locs.
Proof.
  induction locs as [| [name code] rest IH]; simpl; intros file i results Hr.
  - injection Hr as <-. reflexivity.
  - apply bind_inv in Hr. destruct Hr as [run [_ Hr]].
    apply bind_inv in Hr. destruct Hr as [results' [Hrest Hr]].
    injection Hr as <-. simpl. rewrite (IH _ _ _ Hrest). reflexivity.
Qed.

(** When the comparison prints its rows, they stand in the order of the
    list of locations, and the first of them is the baseline compared with
    itself. *)
Lemma compare_over_rows locs file world command rows :
  Cli.compare_over locs file world command = Ok rows ->
  map Cli.name rows = map fst locs
  /\ exists first rest baseline ratio,
       rows = first :: rest
       /\ Cli.carbon first = baseline
       /\ truediv (fsub baseline baseline) baseline = Ok ratio
       /\ Cli.diff_percent first = fmul ratio (of_int 100).
Proof.
  unfold Cli.compare_over. intros Hrows.
  apply bind_inv in Hrows. destruct Hrows as [results [Hresults Hrows]].
  destruct results as [| entry results]; [discriminate Hrows |].
  split.
  - rewrite (report_names _ _ Hrows).
    apply (measure_each_names _ _ _ _ _ Hresults).
  - simpl in Hrows.
    apply bind_inv in Hrows. destruct Hrows as [row [Hrow Hrows]].
    apply bind_inv in Hrows. destruct Hrows as [rows' [_ Hrows]].
    injection Hrows as <-.
    unfold Cli.report_row in Hrow.
    apply bind_inv in Hrow. destruct Hrow as [ratio [Hratio Hrow]].
    injection Hrow as <-.
    exists
      {| Cli.name := fst entry;
         Cli.carbon := Cli.carbon_grams (Cli.metrics (snd entry));
         Cli.diff_percent := fmul ratio (of_int 100);
         Cli.rising := fltb (of_int 0) (fmul ratio (of_int 100)) |},
      rows', (Cli.carbon_grams (Cli.metrics (snd entry))), ratio.
    repeat split. exact Hratio.
Qed.
End Comparison.

(** On binary64 a finite number minus itself is zero, and zero divided by a
    finite non-zero number then multiplied by 100 is zero. *)
Lemma b64_self_delta_zero (baseline ratio : B64.float) s m e :
  baseline = S754_finite s m e ->
  truediv (fsub baseline baseline) baseline = Ok ratio ->
  is_zero (fmul ratio (of_int 100)) = true.
Proof.
  intros -> Hratio.
  assert (Hsub : fsub (S754_finite s m e : B64.float) (S754_finite s m e)
                 = S754_zero false).
  { simpl. rewrite Z.sub_diag. reflexivity. }
  rewrite Hsub in Hratio. unfold truediv in Hratio.
  change (is_zero (S754_finite s m e : B64.float)) with false in Hratio.
  injection Hratio as <-. destruct s; reflexivity.
Qed.

(** Whenever the comparison prints its rows, they are in the order of
    [locations] and the baseline row, if its carbon mass is finite, shows a
    difference of zero. *)
Lemma compare_locations_rows (file : Cli.HistoryFile B64.float) world command
    rows :
  Cli.compare_locations file world command = Ok rows ->
  map Cli.name rows
  = ["Colombia"; "Alemania"; "California"; "Francia"]%string
  /\ exists first rest,
       rows = first :: rest
       /\ (forall s m e, Cli.carbon first = S754_finite s m e ->
           is_zero (Cli.diff_percent first) = true).
Proof.
  intros Hrows. apply compare_over_rows in Hrows.
  destruct Hrows as [Hnames [first [rest [baseline [ratio
                      [Hsplit [Hcarbon [Hratio Hdiff]]]]]]]].
  split; [exact Hnames |].
  exists first, rest. split; [exact Hsplit |].
  intros s m e Hfinite. rewrite Hdiff.
  apply (@b64_self_delta_zero baseline ratio s m e); [congruence | exact Hratio].
Qed.

(** C6, where the code departs from it.  A command that finishes in a
    hundredth of a second leaves 0.0000 g as the rounded carbon mass of the
    baseline run, and the comparison raises [ZeroDivisionError] on its first
    row instead of printing 0 %. *)
Theorem comparison_of_quick_command_raises :
  (exists run,
     Cli.run_command None Samples.quick "true" "CO" false = Ok run
     /\ Cli.carbon_grams (Cli.metrics (Cli.returned run)) = S754_zero false)
  /\ Cli.compare_locations None (fun _ => Samples.quick) "true"
     = Raise ZeroDivisionError.
Proof.
  split.
  - eexists. split; [reflexivity |]. vm_compute. reflexivity.
  - vm_compute. reflexivity.
Qed.

(** ** The power model in exact arithmetic *)

Section PowerModelExact.
Open Scope Q_scope.

Lemma init_tdp {F : Type} `{PyFloat F} (intensity : F) (machine : string) :
  Estimator.tdp (Estimator.init intensity machine) = 65%Z
  \/ Estimator.tdp (Estimator.init intensity machine) = 15%Z.
Proof.
  unfold Estimator.init, Estimator.CPU_TDP.
  cbn [Estimator.tdp Estimator.dict_get].
  destruct (String.eqb "x86_64" machine); [left; reflexivity |].
  destruct (String.eqb "aarch64" machine); [right; reflexivity |].
  destruct (String.eqb "arm64" machine); [right | left]; reflexivity.
Qed.

(** In exact arithmetic, with the memory held fixed, the power of an
    estimator built by [__init__] on any machine does not decrease when the
    cpu utilisation grows. *)
Lemma power_monotone_exact (intensity : Q) (machine : string)
    (u1 u2 memory_gb : Q) :
  0 <= u1 -> u1 <= u2 -> u2 <= 100 ->
  exists p1 p2,
    Estimator.total_power_watts (Estimator.init intensity machine)
      u1 memory_gb = Ok p1
    /\ Estimator.total_power_watts (Estimator.init intensity machine)
         u2 memory_gb = Ok p2
    /\ p1 <= p2.
Proof.
  intros _ Hle _.
  rewrite !(total_power_watts_value exact_100_nonzero).
  do 2 eexists. split; [reflexivity |]. split; [reflexivity |].
  destruct (init_tdp intensity machine) as [-> | ->];
    unfold Estimator.CPU_POWER_FACTOR, Estimator.CPU_BASELINE,
      Estimator.RAM_WATTS_PER_GB;
    simpl; unfold Qdiv, inject_Z;
    change (/ (100 # 1)) with (1 # 100); lra.
Qed.
End PowerModelExact.


(** * Binary64 arithmetic is monotone *)

Section RoundingTheory.
Open Scope Z_scope.

(** ** Binary64: digit counts *)

Lemma digits2_pos_bounds (m : positive) :
  2 ^ (Zpos (digits2_pos m) - 1) <= Zpos m < 2 ^ Zpos (digits2_pos m).
Proof.
  induction m as [m IH | m IH |]; cbn [digits2_pos].
  - rewrite Pos2Z.inj_succ.
    replace (Z.succ (Zpos (digits2_pos m)) - 1) with (Z.succ (Zpos (digits2_pos m) - 1)) by lia.
    rewrite !Z.pow_succ_r by lia. lia.
  - rewrite Pos2Z.inj_succ.
    replace (Z.succ (Zpos (digits2_pos m)) - 1) with (Z.succ (Zpos (digits2_pos m) - 1)) by lia.
    rewrite !Z.pow_succ_r by lia. lia.
  - simpl. lia.
Qed.

Lemma Zdigits2_bounds (m : Z) :
  0 < m -> 2 ^ (Zdigits2 m - 1) <= m < 2 ^ Zdigits2 m.
Proof.
  destruct m as [| p | p]; try lia. intros _. apply digits2_pos_bounds.
Qed.

Lemma Zdigits2_nonneg (m : Z) : 0 <= Zdigits2 m.
Proof. destruct m; simpl; lia. Qed.

Lemma Zdigits2_upper (m : Z) : 0 <= m -> m < 2 ^ Zdigits2 m.
Proof.
  intros Hm. destruct (Z.eq_dec m 0) as [-> | Hnz]; [simpl; lia |].
  apply Zdigits2_bounds. lia.
Qed.

(** The digit count is determined by the power-of-two bracket. *)
Lemma Zdigits2_unique (m d : Z) :
  2 ^ (d - 1) <= m < 2 ^ d -> 0 < d -> Zdigits2 m = d.
Proof.
  intros [Hlo Hhi] Hd.
  assert (Hm : 0 < m) by (pose proof (Z.pow_pos_nonneg 2 (d - 1)); lia).
  destruct (Zdigits2_bounds Hm) as [Hlo' Hhi'].
  pose proof (Zdigits2_nonneg m) as Hnn.
  assert (Zdigits2 m - 1 < d).
  { apply (Z.pow_lt_mono_r_iff 2); try lia. }
  assert (d - 1 < Zdigits2 m).
  { apply (Z.pow_lt_mono_r_iff 2); try lia. }
  lia.
Qed.

Lemma Zdigits2_le (a b : Z) : 0 <= a -> a <= b -> Zdigits2 a <= Zdigits2 b.
Proof.
  intros Ha Hab.
  destruct (Z.eq_dec a 0) as [-> | Hnz]; [apply Zdigits2_nonneg |].
  destruct (Zdigits2_bounds (m := a)) as [Hlo _]; [lia |].
  pose proof (Zdigits2_upper (m := b)) as Hhi.
  pose proof (Zdigits2_nonneg b).
  assert (Zdigits2 a - 1 < Zdigits2 b).
  { apply (Z.pow_lt_mono_r_iff 2); lia. }
  lia.
Qed.

(** ** Binary64: rounding half to even *)

(** [rne_div a b] is within a half of [a / b], and is even whenever [a / b]
    is exactly halfway. *)
Lemma rne_div_spec (a : Z) (b : positive) :
  let k := rne_div a b in
  2 * k * Zpos b - Zpos b <= 2 * a <= 2 * k * Zpos b + Zpos b
  /\ (2 * a = 2 * k * Zpos b + Zpos b -> Z.even k = true)
  /\ (2 * a = 2 * k * Zpos b - Zpos b -> Z.even k = true).
Proof.
  unfold rne_div.
  pose proof (Z.div_mod a (Zpos b) ltac:(lia)) as Hdm.
  pose proof (Z.mod_pos_bound a (Zpos b) ltac:(lia)) as Hr.
  set (q := a / Zpos b) in *. set (r := a mod Zpos b) in *.
  destruct (Z.compare_spec (2 * r) (Zpos b)) as [Heq | Hlt | Hgt]; cbv zeta.
  - destruct (Z.even q) eqn:Heven.
    + repeat split; try lia. intros _. exact Heven.
    + repeat split; try lia. intros _.
      rewrite Z.even_add, Heven. reflexivity.
  - repeat split; lia.
  - repeat split; lia.
Qed.

(** Rounding half to even keeps the order of fractions. *)
Lemma rne_div_mono (a1 a2 : Z) (b1 b2 : positive) :
  a1 * Zpos b2 <= a2 * Zpos b1 -> rne_div a1 b1 <= rne_div a2 b2.
Proof.
  intros Hle.
  destruct (rne_div_spec a1 b1) as [[Hlo1 _] [_ Hdn1]].
  destruct (rne_div_spec a2 b2) as [[_ Hhi2] [Hup2 _]].
  set (k1 := rne_div a1 b1) in *. set (k2 := rne_div a2 b2) in *.
  destruct (Z_le_gt_dec k1 k2) as [Hok | Hgt]; [exact Hok | exfalso].
  assert (H1 : (2 * k2 + 1) * Zpos b1 <= 2 * a1) by nia.
  assert (H2 : 2 * a2 <= (2 * k2 + 1) * Zpos b2) by nia.
  assert (H3 : 2 * a1 * Zpos b2 = (2 * k2 + 1) * Zpos b1 * Zpos b2) by nia.
  assert (H4 : 2 * a2 * Zpos b1 = (2 * k2 + 1) * Zpos b2 * Zpos b1) by nia.
  assert (E1 : 2 * a1 = (2 * k2 + 1) * Zpos b1) by nia.
  assert (E2 : 2 * a2 = (2 * k2 + 1) * Zpos b2) by nia.
  assert (Ek : k1 = k2 + 1) by nia.
  assert (Hev1 : Z.even k1 = true) by (apply Hdn1; nia).
  assert (Hev2 : Z.even k2 = true) by (apply Hup2; nia).
  rewrite Ek, Z.even_add, Hev2 in Hev1. discriminate Hev1.
Qed.

(** The rounded quotient is the truncated one or its successor. *)
Lemma rne_div_bounds (a : Z) (b : positive) :
  a / Zpos b <= rne_div a b <= a / Zpos b + 1.
Proof.
  unfold rne_div.
  destruct (2 * (a mod Zpos b) ?= Zpos b); try lia.
  destruct (Z.even (a / Zpos b)); lia.
Qed.

Lemma rne_div_exact (k : Z) (b : positive) : rne_div (k * Zpos b) b = k.
Proof.
  unfold rne_div. rewrite Z.div_mul, Z.mod_mul by lia.
  simpl. reflexivity.
Qed.

(** ** Binary64: what the right shift keeps *)

(** One right shift of a non-negative mantissa: the mantissa is halved, the
    bit that leaves becomes the round bit, the old round bit joins the
    sticky bit. *)
Lemma shr_1_nonneg (m : Z) (r s : bool) :
  0 <= m ->
  shr_1 (Build_shr_record m r s) = Build_shr_record (m / 2) (Z.odd m) (r || s).
Proof.
  intros Hm. rewrite <- Z.div2_div.
  destruct m as [| [p | p |] |]; try lia; reflexivity.
Qed.

Lemma shr_m_located N D : shr_m (located N D) = N / D.
Proof. unfold located. destruct (loc_of (N mod D) D) as [| []]; reflexivity. Qed.

Lemma loc_located N D :
  loc_of_shr_record (located N D) = loc_of (N mod D) D.
Proof. unfold located. destruct (loc_of (N mod D) D) as [| []]; reflexivity. Qed.

(** One right shift of the located quotient by [D] is the located quotient
    by [2 * D]. *)
Lemma shr_1_located (N D : Z) :
  0 <= N -> 0 < D -> shr_1 (located N D) = located N (2 * D).
Proof.
  intros HN HD.
  pose proof (Z.div_mod N D ltac:(lia)) as Hdm.
  pose proof (Z.mod_pos_bound N D HD) as Hr.
  pose proof (Z.div_pos N D HN HD) as Hm.
  set (m := N / D) in *. set (r := N mod D) in *.
  pose proof (Z.div_mod m 2 ltac:(lia)) as Hdm2.
  pose proof (Z.mod_pos_bound m 2 ltac:(lia)) as Hb.
  assert (Hq : N / (2 * D) = m / 2).
  { symmetry. apply (Z.div_unique_pos N (2 * D) (m / 2) (D * (m mod 2) + r)); nia. }
  assert (Hmod : N mod (2 * D) = D * (m mod 2) + r).
  { symmetry. apply (Z.mod_unique_pos N (2 * D) (m / 2) (D * (m mod 2) + r)); nia. }
  unfold located at 2. rewrite Hq, Hmod.
  unfold located. fold m r.
  assert (Hodd : Z.odd m = (m mod 2 =? 1)).
  { rewrite Zmod_odd. destruct (Z.odd m); reflexivity. }
  unfold loc_of.
  destruct (Z.eqb_spec r 0) as [Hr0 | Hr0].
  - simpl shr_record_of_loc at 1. rewrite shr_1_nonneg by exact Hm.
    rewrite Hodd. destruct (Z.eqb_spec (m mod 2) 1) as [Hb1 | Hb1].
    + rewrite Hb1, Hr0.
      destruct (Z.eqb_spec (D * 1 + 0) 0); [lia |].
      replace (2 * (D * 1 + 0) ?= 2 * D) with Eq
        by (symmetry; apply Z.compare_eq_iff; lia).
      reflexivity.
    + assert (Hb0 : m mod 2 = 0) by lia. rewrite Hb0, Hr0.
      destruct (Z.eqb_spec (D * 0 + 0) 0); [| lia]. reflexivity.
  - destruct (Z.eqb_spec (D * (m mod 2) + r) 0) as [Hz | _]; [nia |].
    assert (Hrec : shr_1 (shr_record_of_loc m (loc_Inexact (2 * r ?= D)))
                   = Build_shr_record (m / 2) (Z.odd m) true).
    { destruct (2 * r ?= D); simpl shr_record_of_loc;
        rewrite shr_1_nonneg by exact Hm; f_equal; apply orb_true_r. }
    rewrite Hrec, Hodd.
    destruct (Z.eqb_spec (m mod 2) 1) as [Hb1 | Hb1].
    + rewrite Hb1.
      replace (2 * (D * 1 + r) ?= 2 * D) with Gt
        by (symmetry; apply Z.compare_gt_iff; lia).
      reflexivity.
    + assert (Hb0 : m mod 2 = 0) by lia. rewrite Hb0.
      replace (2 * (D * 0 + r) ?= 2 * D) with Lt
        by (symmetry; apply Z.compare_lt_iff; lia).
      reflexivity.
Qed.

(** So [p] right shifts give the located quotient by [D * 2 ^ p]. *)
Lemma iter_pos_shr_1_located (p : positive) : forall N D,
  0 <= N -> 0 < D ->
  iter_pos shr_1 p (located N D) = located N (D * 2 ^ Zpos p).
Proof.
  induction p as [p IH | p IH |]; intros N D HN HD; cbn [iter_pos].
  - assert (Hp : 0 < 2 ^ Zpos p) by (apply Z.pow_pos_nonneg; lia).
    rewrite shr_1_located by assumption.
    rewrite IH by lia. rewrite IH by nia.
    f_equal. replace (Zpos p~1) with (Zpos p + Zpos p + 1) by lia.
    rewrite !Z.pow_add_r by lia. change (2 ^ 1) with 2. ring.
  - assert (Hp : 0 < 2 ^ Zpos p) by (apply Z.pow_pos_nonneg; lia).
    rewrite IH by lia. rewrite IH by nia.
    f_equal. replace (Zpos p~0) with (Zpos p + Zpos p) by lia.
    rewrite !Z.pow_add_r by lia. ring.
  - rewrite shr_1_located by assumption. f_equal. change (2 ^ 1) with 2. ring.
Qed.

(** ** Binary64: what [binary_round_aux] returns *)

(** The target exponent of the library at precision 53. *)
Lemma fexp64_eq e : fexp B64.prec B64.emax e = fexp64 e.
Proof. reflexivity. Qed.

Lemma located_mul_1 N D : located N (D * 1) = located N D.
Proof. rewrite Z.mul_1_r. reflexivity. Qed.

Lemma shr_located N D e n :
  0 <= N -> 0 < D -> 0 <= n ->
  shr (located N D) e n = (located N (D * 2 ^ n), e + n).
Proof.
  intros HN HD Hn. unfold shr. destruct n as [| p | p]; try lia.
  - rewrite Z.pow_0_r, located_mul_1, Z.add_0_r. reflexivity.
  - rewrite iter_pos_shr_1_located by assumption. reflexivity.
Qed.

(** Rounding a located quotient to nearest even is [rne_div]. *)
Lemma round_located N D :
  0 < D ->
  round_nearest_even (shr_m (located N D)) (loc_of_shr_record (located N D))
  = rne_div N (Z.to_pos D).
Proof.
  intros HD. rewrite shr_m_located, loc_located.
  unfold rne_div, loc_of. rewrite Z2Pos.id by exact HD.
  pose proof (Z.mod_pos_bound N D HD) as Hr.
  destruct (Z.eqb_spec (N mod D) 0) as [Hz | Hnz].
  - rewrite Hz. simpl. destruct D; lia.
  - simpl. destruct (2 * (N mod D) ?= D); reflexivity.
Qed.



(** After the shift the mantissa fits in 53 bits. *)
Lemma div_pow2_bound m n :
  0 <= m -> 0 <= n -> Zdigits2 m <= 53 + n -> m / 2 ^ n < 2 ^ 53.
Proof.
  intros Hm Hn Hd.
  assert (Hp : 0 < 2 ^ n) by (apply Z.pow_pos_nonneg; lia).
  apply Z.div_lt_upper_bound; [exact Hp |].
  rewrite <- Z.pow_add_r by lia.
  apply Z.lt_le_trans with (2 ^ Zdigits2 m).
  - apply Zdigits2_upper. exact Hm.
  - apply Z.pow_le_mono_r; lia.
Qed.

(** The second alignment of [binary_round_aux] only acts when rounding
    carried into a 54th bit. *)
Lemma second_shr_fexp (k E : Z) :
  0 <= k <= 2 ^ 53 -> -1074 <= E ->
  shr_fexp B64.prec B64.emax k E loc_Exact
  = if k =? 2 ^ 53
    then (Build_shr_record (2 ^ 52) false false, E + 1)
    else (Build_shr_record k false false, E).
Proof.
  intros Hk HE. unfold shr_fexp. rewrite fexp64_eq. unfold fexp64.
  destruct (Z.eqb_spec k (2 ^ 53)) as [-> | Hne].
  - change (Zdigits2 (2 ^ 53)) with 54.
    replace (Z.max (54 + E - 53) (-1074) - E) with 1 by lia.
    reflexivity.
  - assert (Hd : Zdigits2 k <= 53).
    { destruct (Z.eq_dec k 0) as [-> | Hnz]; [simpl; lia |].
      destruct (Zdigits2_bounds (m := k)) as [Hlo _]; [lia |].
      assert (Zdigits2 k - 1 < 53); [| lia].
      apply (Z.pow_lt_mono_r_iff 2); lia. }
    simpl shr_record_of_loc. unfold shr.
    destruct (Z.max (Zdigits2 k + E - 53) (-1074) - E) as [| p | p] eqn:Hs;
      try reflexivity.
    lia.
Qed.

(** What [binary_round_aux] returns on a located quotient whose exponent is
    not above the target exponent. *)
Lemma binary_round_aux_located (s : bool) (N D e : Z) :
  0 <= N -> 0 < D ->
  e <= fexp64 (Zdigits2 (N / D) + e) ->
  binary_round_aux B64.prec B64.emax s (N / D) e (loc_of (N mod D) D)
  = round_at s (fexp64 (Zdigits2 (N / D) + e))
      (rne_div N (Z.to_pos (D * 2 ^ (fexp64 (Zdigits2 (N / D) + e) - e)))).
Proof.
  intros HN HD Hpre.
  set (m := N / D) in *. set (E := fexp64 (Zdigits2 m + e)) in *.
  assert (Hm : 0 <= m) by (apply Z.div_pos; lia).
  assert (Hp : 0 < 2 ^ (E - e)) by (apply Z.pow_pos_nonneg; lia).
  assert (HD' : 0 < D * 2 ^ (E - e)) by nia.
  unfold binary_round_aux.
  assert (Hfirst : shr_fexp B64.prec B64.emax m e (loc_of (N mod D) D)
                   = (located N (D * 2 ^ (E - e)), E)).
  { unfold shr_fexp. rewrite fexp64_eq. fold E.
    change (shr_record_of_loc m (loc_of (N mod D) D)) with (located N D).
    rewrite shr_located by lia. f_equal. lia. }
  rewrite Hfirst, round_located by exact HD'.
  set (k := rne_div N (Z.to_pos (D * 2 ^ (E - e)))).
  assert (Hk : 0 <= k <= 2 ^ 53).
  { pose proof (rne_div_bounds N (Z.to_pos (D * 2 ^ (E - e)))) as Hb.
    fold k in Hb. rewrite Z2Pos.id in Hb by exact HD'.
    rewrite <- Z.div_div in Hb by lia. fold m in Hb.
    assert (m / 2 ^ (E - e) < 2 ^ 53).
    { apply div_pow2_bound; try lia. subst E. unfold fexp64. lia. }
    assert (0 <= m / 2 ^ (E - e)) by (apply Z.div_pos; lia).
    lia. }
  rewrite second_shr_fexp by (try exact Hk; subst E; unfold fexp64; lia).
  unfold round_at.
  destruct (Z.eqb_spec k (2 ^ 53)) as [Hk53 | Hk53].
  - rewrite Hk53. reflexivity.
  - destruct k as [| p | p]; try lia; try reflexivity.
    simpl shr_m. cbv iota.
    destruct (Z.eqb_spec (Zpos p) (2 ^ 53)) as [Hc | _]; [contradiction |].
    reflexivity.
Qed.

(** ** Binary64: rounding is monotone *)

(** Comparison of two positive finite numbers. *)
Lemma SFleb_finite_pos (m1 m2 : positive) (e1 e2 : Z) :
  e1 < e2 \/ (e1 = e2 /\ (m1 <= m2)%positive) ->
  SFleb (S754_finite false m1 e1) (S754_finite false m2 e2) = true.
Proof.
  intros [Hlt | [-> Hle]]; unfold SFleb, SFcompare.
  - rewrite (proj2 (Z.compare_lt_iff e1 e2) Hlt). reflexivity.
  - rewrite Z.compare_refl. fold (Pos.compare m1 m2).
    destruct (Pos.compare_spec m1 m2); try reflexivity. lia.
Qed.

(** At one exponent the result grows with the rounded mantissa. *)
Lemma round_at_le (E k1 k2 : Z) :
  0 <= k1 -> k1 <= k2 -> k2 <= 2 ^ 53 ->
  SFleb (round_at false E k1) (round_at false E k2) = true.
Proof.
  intros H0 H12 H2. unfold round_at.
  destruct k1 as [| p1 | p1]; try lia; destruct k2 as [| p2 | p2]; try lia.
  - reflexivity.
  - destruct (Zpos p2 =? 2 ^ 53); [destruct (E + 1 <=? 971) | destruct (E <=? 971)];
      reflexivity.
  - destruct (Z.eqb_spec (Zpos p1) (2 ^ 53)) as [E1 | E1];
      destruct (Z.eqb_spec (Zpos p2) (2 ^ 53)) as [E2 | E2]; try lia.
    + destruct (E + 1 <=? 971); [| reflexivity].
      apply SFleb_finite_pos. right. split; [reflexivity | lia].
    + destruct (Z.leb_spec (E + 1) 971) as [L1 | L1];
        destruct (Z.leb_spec E 971) as [L2 | L2]; try lia; try reflexivity.
      apply SFleb_finite_pos. left. lia.
    + destruct (E <=? 971); [| reflexivity].
      apply SFleb_finite_pos. right. split; [reflexivity | lia].
Qed.

(** A result at a higher exponent, whose mantissa is normal, is above any
    result at a lower exponent. *)
Lemma round_at_lt (E1 E2 k1 k2 : Z) :
  E1 < E2 -> 0 <= k1 <= 2 ^ 53 -> 2 ^ 52 <= k2 <= 2 ^ 53 ->
  SFleb (round_at false E1 k1) (round_at false E2 k2) = true.
Proof.
  intros HE H1 H2. unfold round_at.
  destruct k2 as [| p2 | p2]; try lia.
  destruct k1 as [| p1 | p1]; try lia.
  - destruct (Zpos p2 =? 2 ^ 53); [destruct (E2 + 1 <=? 971) | destruct (E2 <=? 971)];
      reflexivity.
  - destruct (Z.eqb_spec (Zpos p1) (2 ^ 53)) as [Q1 | Q1];
      destruct (Z.eqb_spec (Zpos p2) (2 ^ 53)) as [Q2 | Q2];
      repeat match goal with
             | |- context [?a <=? ?b] => destruct (Z.leb_spec a b)
             end; try lia; try reflexivity;
      apply SFleb_finite_pos; lia.
Qed.



Lemma binary_round_aux_rnd (s : bool) (N D e : Z) :
  0 <= N -> 0 < D ->
  e <= fexp64 (Zdigits2 (N / D) + e) ->
  binary_round_aux B64.prec B64.emax s (N / D) e (loc_of (N mod D) D)
  = rnd s N D e.
Proof. apply binary_round_aux_located. Qed.

(** The rounded mantissa fits in 53 bits, up to the carry, and is normal as
    soon as the exponent is above the minimal one. *)
Lemma mono_k_bounds (N D e : Z) :
  0 <= N -> 0 < D -> e <= fexp64 (Zdigits2 (N / D) + e) ->
  let E := fexp64 (Zdigits2 (N / D) + e) in
  let k := rne_div N (Z.to_pos (D * 2 ^ (E - e))) in
  0 <= k <= 2 ^ 53 /\ (-1074 < E -> 2 ^ 52 <= k).
Proof.
  intros HN HD Hpre E k.
  set (m := N / D) in *.
  assert (Hm : 0 <= m) by (apply Z.div_pos; lia).
  assert (Hp : 0 < 2 ^ (E - e)) by (apply Z.pow_pos_nonneg; lia).
  assert (HD' : 0 < D * 2 ^ (E - e)) by nia.
  pose proof (rne_div_bounds N (Z.to_pos (D * 2 ^ (E - e)))) as Hb.
  fold k in Hb. rewrite Z2Pos.id in Hb by exact HD'.
  rewrite <- Z.div_div in Hb by lia. fold m in Hb.
  assert (Hhi : m / 2 ^ (E - e) < 2 ^ 53).
  { apply div_pow2_bound; try lia. subst E. unfold fexp64. lia. }
  assert (Hlo : 0 <= m / 2 ^ (E - e)) by (apply Z.div_pos; lia).
  split; [lia |]. intros HE.
  assert (HEeq : E = Zdigits2 m + e - 53) by (subst E; unfold fexp64 in *; lia).
  assert (Hmpos : 0 < m).
  { destruct (Z.eq_dec m 0) as [Hz | Hnz]; [| lia].
    rewrite Hz in *. simpl Zdigits2 in *. unfold fexp64 in *. lia. }
  destruct (Zdigits2_bounds Hmpos) as [Hmlo _].
  assert (2 ^ 52 <= m / 2 ^ (E - e)); [| lia].
  apply Z.div_le_lower_bound; [exact Hp |].
  rewrite <- Z.pow_add_r by lia.
  replace (E - e + 52) with (Zdigits2 m - 1) by lia. exact Hmlo.
Qed.

Section Monotone.
Variables N1 D1 e1 N2 D2 e2 : Z.
Hypothesis HN1 : 0 <= N1.
Hypothesis HD1 : 0 < D1.
Hypothesis HN2 : 0 <= N2.
Hypothesis HD2 : 0 < D2.
Let m1 := N1 / D1.
Let m2 := N2 / D2.
Let E1 := fexp64 (Zdigits2 m1 + e1).
Let E2 := fexp64 (Zdigits2 m2 + e2).
Hypothesis Hpre1 : e1 <= E1.
Hypothesis Hpre2 : e2 <= E2.
Hypothesis Hle :
  N1 * D2 * 2 ^ (e1 - Z.min e1 e2) <= N2 * D1 * 2 ^ (e2 - Z.min e1 e2).
Let k1 := rne_div N1 (Z.to_pos (D1 * 2 ^ (E1 - e1))).
Let k2 := rne_div N2 (Z.to_pos (D2 * 2 ^ (E2 - e2))).

(** The smaller quantity has the smaller magnitude. *)
Lemma mono_magnitude : 0 < m1 -> Zdigits2 m1 + e1 <= Zdigits2 m2 + e2.
Proof.
  intros Hm1.
  set (e0 := Z.min e1 e2) in *.
  assert (Hp1 : 0 < 2 ^ (e1 - e0)) by (apply Z.pow_pos_nonneg; lia).
  assert (Hp2 : 0 < 2 ^ (e2 - e0)) by (apply Z.pow_pos_nonneg; lia).
  assert (Hm1lo : m1 * D1 <= N1).
  { subst m1. rewrite Z.mul_comm. apply Z.mul_div_le. exact HD1. }
  assert (Hm2hi : N2 < (m2 + 1) * D2).
  { subst m2. pose proof (Z.div_mod N2 D2 ltac:(lia)).
    pose proof (Z.mod_pos_bound N2 D2 HD2). nia. }
  assert (Hm2 : 0 <= m2) by (apply Z.div_pos; lia).
  assert (Hlt : m1 * 2 ^ (e1 - e0) < (m2 + 1) * 2 ^ (e2 - e0)).
  { revert Hle Hp1 Hp2.
    generalize (2 ^ (e1 - e0)) (2 ^ (e2 - e0)). intros A B Hle' HA HB.
    assert (S1 : m1 * D1 * (D2 * A) <= N1 * (D2 * A))
      by (apply Z.mul_le_mono_nonneg_r; nia).
    assert (S2 : N2 * (D1 * B) < (m2 + 1) * D2 * (D1 * B))
      by (apply Z.mul_lt_mono_pos_r; nia).
    apply (Z.mul_lt_mono_pos_r (D1 * D2)); [nia | lia]. }
  destruct (Zdigits2_bounds Hm1) as [Hlo _].
  pose proof (Zdigits2_upper Hm2) as Hhi.
  pose proof (Zdigits2_nonneg m2) as Hd2.
  pose proof (Zdigits2_nonneg m1) as Hd1.
  assert (Hpow : 2 ^ (Zdigits2 m1 - 1 + (e1 - e0)) < 2 ^ (Zdigits2 m2 + (e2 - e0))).
  { assert (Hd1' : 0 < Zdigits2 m1).
    { destruct m1; try lia. simpl. lia. }
    rewrite !Z.pow_add_r by lia. nia. }
  apply Z.pow_lt_mono_r_iff in Hpow; lia.
Qed.

(** Hence the smaller target exponent. *)
Lemma mono_exponent : E1 <= E2.
Proof.
  destruct (Z.eq_dec m1 0) as [Hz | Hnz].
  - subst E1 E2. rewrite Hz in *. simpl Zdigits2 in *. unfold fexp64 in *. lia.
  - assert (Hm1 : 0 <= m1) by (apply Z.div_pos; lia).
    pose proof (mono_magnitude ltac:(lia)). subst E1 E2. unfold fexp64. lia.
Qed.

(** Rounding keeps the order of the quantities rounded. *)
Theorem rnd_mono :
  SFleb (rnd false N1 D1 e1) (rnd false N2 D2 e2) = true.
Proof.
  unfold rnd. fold m1 m2. fold E1 E2. fold k1 k2.
  destruct (@mono_k_bounds N1 D1 e1 HN1 HD1 Hpre1) as [Hk1 _].
  destruct (@mono_k_bounds N2 D2 e2 HN2 HD2 Hpre2) as [Hk2 Hk2lo].
  fold m1 E1 k1 in Hk1. fold m2 E2 k2 in Hk2, Hk2lo.
  pose proof mono_exponent as HE.
  destruct (Z.eq_dec E1 E2) as [Heq | Hne].
  - rewrite Heq. apply round_at_le; try lia.
    subst k1 k2. apply rne_div_mono.
    set (e0 := Z.min e1 e2) in *.
    assert (Hp1 : 0 < 2 ^ (E1 - e1)) by (apply Z.pow_pos_nonneg; lia).
    assert (Hp2 : 0 < 2 ^ (E2 - e2)) by (apply Z.pow_pos_nonneg; lia).
    rewrite !Z2Pos.id by nia.
    set (t := E2 - e1 - e2 + e0).
    assert (Ht : 0 <= t) by (subst t e0; lia).
    assert (Hpt : 0 < 2 ^ t) by (apply Z.pow_pos_nonneg; lia).
    replace (E2 - e2) with ((e1 - e0) + t) by (subst t; lia).
    replace (E1 - e1) with ((e2 - e0) + t) by (subst t; lia).
    rewrite !Z.pow_add_r by (subst e0; lia).
    nia.
  - apply round_at_lt; try lia.
    split; [apply Hk2lo; subst E1 E2; unfold fexp64 in *; lia | lia].
Qed.
End Monotone.

(** ** Binary64: valid numbers and their order *)

Lemma bounded_spec (m : positive) (e : Z) :
  bounded B64.prec B64.emax m e = true <->
  fexp64 (Zdigits2 (Zpos m) + e) = e /\ e <= 971.
Proof.
  unfold bounded, canonical_mantissa. rewrite andb_true_iff, fexp64_eq.
  rewrite Z.eqb_eq, Z.leb_le. reflexivity.
Qed.

(** A valid mantissa has at most 53 bits, and exactly 53 above the minimal
    exponent. *)
Lemma bounded_digits (m : positive) (e : Z) :
  bounded B64.prec B64.emax m e = true ->
  -1074 <= e <= 971 /\ Zdigits2 (Zpos m) <= 53 /\ Zpos m < 2 ^ 53
  /\ (-1074 < e -> Zdigits2 (Zpos m) = 53 /\ 2 ^ 52 <= Zpos m).
Proof.
  intros Hb. apply bounded_spec in Hb. destruct Hb as [Hc He].
  unfold fexp64 in Hc.
  destruct (Zdigits2_bounds (m := Zpos m)) as [Hlo Hhi]; [lia |].
  assert (Hd : Zdigits2 (Zpos m) <= 53) by lia.
  split; [lia |]. split; [lia |]. split.
  - apply Z.lt_le_trans with (2 ^ Zdigits2 (Zpos m)); [exact Hhi |].
    apply Z.pow_le_mono_r; lia.
  - intros Hn. split; [lia |].
    replace 52 with (Zdigits2 (Zpos m) - 1) by lia. exact Hlo.
Qed.

(** Splitting a power of two. *)
Lemma pow2_split (a b : Z) : 0 <= a -> 0 <= b -> 2 ^ (a + b) = 2 ^ a * 2 ^ b.
Proof. intros. apply Z.pow_add_r; assumption. Qed.

(** Comparing [m1 * 2 ^ e1] with [m2 * 2 ^ e2] does not depend on the base
    exponent the two are scaled to. *)
Lemma value_order_rebase (m1 m2 e1 e2 b b' : Z) :
  b <= e1 -> b <= e2 -> b' <= b ->
  (m1 * 2 ^ (e1 - b) <= m2 * 2 ^ (e2 - b)
   <-> m1 * 2 ^ (e1 - b') <= m2 * 2 ^ (e2 - b')).
Proof.
  intros H1 H2 Hb.
  replace (e1 - b') with ((e1 - b) + (b - b')) by lia.
  replace (e2 - b') with ((e2 - b) + (b - b')) by lia.
  rewrite !pow2_split by lia.
  assert (Hp : 0 < 2 ^ (b - b')) by (apply Z.pow_pos_nonneg; lia).
  generalize dependent (2 ^ (b - b')). intros P HP.
  generalize (2 ^ (e1 - b)) (2 ^ (e2 - b)). intros A B.
  split; intros H; nia.
Qed.

(** The order of two valid positive numbers is the order of their values. *)
Lemma SFleb_value (m1 m2 : positive) (e1 e2 : Z) :
  bounded B64.prec B64.emax m1 e1 = true ->
  bounded B64.prec B64.emax m2 e2 = true ->
  SFleb (S754_finite false m1 e1) (S754_finite false m2 e2) = true ->
  Zpos m1 * 2 ^ (e1 - Z.min e1 e2) <= Zpos m2 * 2 ^ (e2 - Z.min e1 e2).
Proof.
  intros Hb1 Hb2 Hle.
  destruct (bounded_digits _ _ Hb1) as [He1 [Hd1 [Hm1 _]]].
  destruct (bounded_digits _ _ Hb2) as [He2 [Hd2 [Hm2 Hn2]]].
  unfold SFleb, SFcompare in Hle.
  destruct (Z.compare_spec e1 e2) as [Heq | Hlt | Hgt].
  - subst e2. rewrite Z.min_id, Z.sub_diag. simpl.
    fold (Pos.compare m1 m2) in Hle.
    destruct (Pos.compare_spec m1 m2); try discriminate Hle; lia.
  - rewrite Z.min_l by lia. rewrite Z.sub_diag. simpl (2 ^ 0).
    destruct Hn2 as [_ Hlo2]; [lia |].
    assert (2 <= 2 ^ (e2 - e1)).
    { change 2 with (2 ^ 1) at 1. apply Z.pow_le_mono_r; lia. }
    nia.
  - discriminate Hle.
Qed.

(** A valid positive number is its own rounding. *)
Lemma rnd_valid (m : positive) (e : Z) :
  bounded B64.prec B64.emax m e = true ->
  rnd false (Zpos m) 1 e = S754_finite false m e.
Proof.
  intros Hb. destruct (bounded_digits _ _ Hb) as [He [Hd [Hm _]]].
  apply bounded_spec in Hb. destruct Hb as [Hc _].
  unfold rnd. rewrite Z.div_1_r, Hc, Z.sub_diag.
  change (Z.to_pos (1 * 2 ^ 0)) with 1%positive.
  replace (Zpos m) with (Zpos m * Zpos 1) at 1 by lia.
  rewrite rne_div_exact. unfold round_at.
  destruct (Z.eqb_spec (Zpos m) (2 ^ 53)) as [Hc53 | _]; [lia |].
  destruct (Z.leb_spec e 971); [reflexivity | lia].
Qed.



Lemma SFleb_zero_nn (s : bool) (y : spec_float) :
  nn y -> SFleb (S754_zero s) y = true.
Proof. intros [s' | m e _ |]; reflexivity. Qed.

Lemma SFleb_nn_inf (x : spec_float) :
  nn x -> SFleb x (S754_infinity false) = true.
Proof. intros [s' | m e _ |]; reflexivity. Qed.

(** A rounding with positive sign is a non-negative number. *)
Lemma rnd_nn (N D e : Z) :
  0 <= N -> 0 < D -> e <= fexp64 (Zdigits2 (N / D) + e) ->
  nn (rnd false N D e).
Proof.
  intros HN HD Hpre.
  destruct (@mono_k_bounds N D e HN HD Hpre) as [Hk Hklo]. unfold rnd.
  set (E := fexp64 (Zdigits2 (N / D) + e)) in *.
  set (k := rne_div N (Z.to_pos (D * 2 ^ (E - e)))) in *.
  assert (HE : -1074 <= E) by (subst E; unfold fexp64; lia).
  unfold round_at. destruct k as [| p | p] eqn:Hkp; try lia.
  - constructor.
  - destruct (Z.eqb_spec (Zpos p) (2 ^ 53)) as [H53 | H53].
    + destruct (Z.leb_spec (E + 1) 971); [| constructor].
      constructor. apply bounded_spec.
      change (Zdigits2 (Z.pos (2 ^ 52))) with 53. unfold fexp64. lia.
    + destruct (Z.leb_spec E 971); [| constructor].
      constructor. apply bounded_spec. split; [| assumption].
      destruct (Z.eq_dec E (-1074)) as [HEm | HEm].
      * assert (Hd : Zdigits2 (Zpos p) <= 53).
        { destruct (Zdigits2_bounds (m := Zpos p)) as [Hlo _]; [lia |].
          assert (Zdigits2 (Zpos p) - 1 < 53); [| lia].
          apply (Z.pow_lt_mono_r_iff 2); lia. }
        unfold fexp64. lia.
      * assert (Hd : Zdigits2 (Zpos p) = 53).
        { apply Zdigits2_unique; [| lia]. split; [apply Hklo; lia | lia]. }
        rewrite Hd. unfold fexp64. lia.
Qed.

Lemma binary_round_aux_exact (s : bool) (N e : Z) :
  0 <= N -> e <= fexp64 (Zdigits2 N + e) ->
  binary_round_aux B64.prec B64.emax s N e loc_Exact = rnd s N 1 e.
Proof.
  intros HN Hpre.
  rewrite <- binary_round_aux_rnd; rewrite ?Z.div_1_r; try lia.
  rewrite Z.mod_1_r. reflexivity.
Qed.

(** ** Multiplication by a valid positive number *)

Section Mul.
Variables (mc : positive) (ec : Z).
Hypothesis Hc : bounded B64.prec B64.emax mc ec = true.

(** The exponent of an exact product is not above its target exponent. *)
Lemma mul_pre (mx : positive) (ex : Z) :
  bounded B64.prec B64.emax mx ex = true ->
  ex + ec <= fexp64 (Zdigits2 (Zpos (mx * mc)) + (ex + ec)).
Proof.
  intros Hx.
  destruct (bounded_digits _ _ Hx) as [Hex [_ [_ Hnx]]].
  destruct (bounded_digits _ _ Hc) as [Hec [_ [_ Hnc]]].
  unfold fexp64.
  destruct (Z.eq_dec ec (-1074)) as [Hec' | Hec'];
    destruct (Z.eq_dec ex (-1074)) as [Hex' | Hex']; try lia.
  - destruct Hnx as [_ Hlo]; [lia |].
    assert (53 <= Zdigits2 (Zpos (mx * mc))); [| lia].
    change 53 with (Zdigits2 (2 ^ 52)). apply Zdigits2_le; [lia |].
    rewrite Pos2Z.inj_mul. nia.
  - destruct Hnc as [_ Hlo]; [lia |].
    assert (53 <= Zdigits2 (Zpos (mx * mc))); [| lia].
    change 53 with (Zdigits2 (2 ^ 52)). apply Zdigits2_le; [lia |].
    rewrite Pos2Z.inj_mul. nia.
  - destruct Hnc as [_ Hlo]; [lia |].
    assert (53 <= Zdigits2 (Zpos (mx * mc))); [| lia].
    change 53 with (Zdigits2 (2 ^ 52)). apply Zdigits2_le; [lia |].
    rewrite Pos2Z.inj_mul. nia.
Qed.

(** A product is the rounding of the exact product. *)
Lemma mul_rnd (mx : positive) (ex : Z) :
  bounded B64.prec B64.emax mx ex = true ->
  SFmul B64.prec B64.emax (S754_finite false mx ex) (S754_finite false mc ec)
  = rnd false (Zpos mx * Zpos mc) 1 (ex + ec).
Proof.
  intros Hx. cbn [SFmul xorb].
  rewrite binary_round_aux_exact; [reflexivity | lia | apply mul_pre, Hx].
Qed.

Lemma mul_nn (x : spec_float) :
  nn x -> nn (SFmul B64.prec B64.emax x (S754_finite false mc ec)).
Proof.
  intros [s | mx ex Hx |].
  - constructor.
  - rewrite mul_rnd by exact Hx. apply rnd_nn; try lia.
    rewrite Z.div_1_r. apply mul_pre, Hx.
  - constructor.
Qed.

(** Multiplying by a valid positive number keeps the order. *)
Lemma mul_mono (x1 x2 : spec_float) :
  nn x1 -> nn x2 -> SFleb x1 x2 = true ->
  SFleb (SFmul B64.prec B64.emax x1 (S754_finite false mc ec))
        (SFmul B64.prec B64.emax x2 (S754_finite false mc ec)) = true.
Proof.
  intros H1 H2 Hle.
  destruct H1 as [s1 | m1 e1 Hb1 |].
  - apply SFleb_zero_nn. apply (mul_nn H2).
  - destruct H2 as [s2 | m2 e2 Hb2 |]; try discriminate Hle.
    + rewrite !mul_rnd by assumption.
      apply rnd_mono; try lia;
        rewrite ?Z.div_1_r; try (apply mul_pre; assumption).
      pose proof (SFleb_value _ _ _ _ Hb1 Hb2 Hle) as Hv.
      replace (Z.min (e1 + ec) (e2 + ec)) with (Z.min e1 e2 + ec) by lia.
      replace (e1 + ec - (Z.min e1 e2 + ec)) with (e1 - Z.min e1 e2) by lia.
      replace (e2 + ec - (Z.min e1 e2 + ec)) with (e2 - Z.min e1 e2) by lia.
      nia.
    + apply SFleb_nn_inf. apply mul_nn. constructor. exact Hb1.
  - destruct H2 as [s2 | m2 e2 Hb2 |]; try discriminate Hle. reflexivity.
Qed.
End Mul.

(** ** Binary64: division by a positive number *)

(** A power of two has one digit more than its exponent. *)
Lemma Zdigits2_pow2 (t : Z) : 0 <= t -> Zdigits2 (2 ^ t) = t + 1.
Proof.
  intros Ht. apply Zdigits2_unique; [| lia].
  replace (t + 1 - 1) with t by lia. split; [lia |].
  apply Z.pow_lt_mono_r; lia.
Qed.

Lemma fexp64_le (a b : Z) : a <= b -> fexp64 a <= fexp64 b.
Proof. unfold fexp64. lia. Qed.

Lemma div_eucl_div_mod (a b : Z) : Z.div_eucl a b = (a / b, a mod b).
Proof. unfold Z.div, Z.modulo. destruct (Z.div_eucl a b). reflexivity. Qed.

(** The location the division computes from its remainder. *)
Lemma new_location_loc_of (d r : Z) :
  0 < d -> 0 <= r < d -> new_location d r = loc_of r d.
Proof.
  intros Hd Hr. unfold new_location, new_location_even, new_location_odd, loc_of.
  destruct (Z.even d) eqn:Hev; [reflexivity |].
  destruct (Z.eqb_spec r 0); [reflexivity |]. f_equal.
  assert (Hodd : Z.odd d = true) by (rewrite <- Z.negb_even, Hev; reflexivity).
  apply Z.odd_spec in Hodd. destruct Hodd as [h Hh].
  destruct (Z.compare_spec (2 * r + 1) d);
    destruct (Z.compare_spec (2 * r) d); try reflexivity; lia.
Qed.

Section Div.
Variables (mc : positive) (ec : Z).





(** The core of the division returns a located quotient. *)
Lemma div_core (mx : positive) (ex : Z) :
  SFdiv_core_binary B64.prec B64.emax (Zpos mx) ex (Zpos mc) ec
  = (div_num mc ec mx ex / Zpos mc, div_exp mc ec mx ex,
     loc_of (div_num mc ec mx ex mod Zpos mc) (Zpos mc)).
Proof.
  unfold SFdiv_core_binary. rewrite fexp64_eq. fold (div_exp mc ec mx ex).
  set (e' := div_exp mc ec mx ex).
  assert (Hs : 0 <= ex - ec - e') by (subst e'; unfold div_exp; lia).
  assert (Hm : match ex - ec - e' with
               | 0 => Zpos mx
               | Zpos _ => Z.shiftl (Zpos mx) (ex - ec - e')
               | Zneg _ => 0
               end = div_num mc ec mx ex).
  { unfold div_num. fold e'. destruct (ex - ec - e') as [| p | p] eqn:Hsp.
    - rewrite Z.pow_0_r. lia.
    - rewrite Z.shiftl_mul_pow2 by lia. reflexivity.
    - lia. }
  rewrite Hm, div_eucl_div_mod.
  rewrite new_location_loc_of; [reflexivity | lia |].
  apply Z.mod_pos_bound. lia.
Qed.

Lemma div_num_pos (mx : positive) (ex : Z) : 0 < div_num mc ec mx ex.
Proof.
  unfold div_num.
  assert (0 < 2 ^ (ex - ec - div_exp mc ec mx ex)).
  { apply Z.pow_pos_nonneg; [lia |]. unfold div_exp. lia. }
  nia.
Qed.

(** The exponent of that quotient is not above its target exponent. *)
Lemma div_pre (mx : positive) (ex : Z) :
  div_exp mc ec mx ex
  <= fexp64 (Zdigits2 (div_num mc ec mx ex / Zpos mc) + div_exp mc ec mx ex).
Proof.
  set (e' := div_exp mc ec mx ex). set (N := div_num mc ec mx ex).
  set (dx := Zdigits2 (Zpos mx)). set (dc := Zdigits2 (Zpos mc)).
  set (A := dx + ex - (dc + ec)).
  assert (He' : e' = Z.min (fexp64 A) (ex - ec)) by reflexivity.
  set (s := ex - ec - e').
  assert (Hs : 0 <= s) by (subst s; lia).
  assert (HN : N = Zpos mx * 2 ^ s) by reflexivity.
  assert (Hp : 0 < 2 ^ s) by (apply Z.pow_pos_nonneg; lia).
  destruct (Zdigits2_bounds (m := Zpos mx)) as [Hxlo Hxhi]; [lia |].
  destruct (Zdigits2_bounds (m := Zpos mc)) as [Hclo Hchi]; [lia |].
  fold dx in Hxlo, Hxhi. fold dc in Hclo, Hchi.
  assert (Hdx : 0 < dx) by (subst dx; simpl; lia).
  assert (Hdc : 0 < dc) by (subst dc; simpl; lia).
  (* N >= 2 ^ (dx - 1 + s) *)
  assert (HNlo : 2 ^ (dx - 1 + s) <= N).
  { rewrite HN, Z.pow_add_r by lia. nia. }
  destruct (Z_lt_le_dec (dx - 1 + s) dc) as [Hsmall | Hbig].
  - (* the quotient may be tiny: then e' is the minimal exponent *)
    assert (HA : A - 53 < e') by (subst A s; lia).
    assert (He'min : e' <= -1074) by (unfold fexp64 in He'; lia).
    unfold fexp64. lia.
  - (* the quotient has at least dx - dc + s digits *)
    set (t := dx - 1 + s - dc).
    assert (Ht : 0 <= t) by (subst t; lia).
    assert (Hq : 2 ^ t <= N / Zpos mc).
    { apply Z.div_le_lower_bound; [lia |].
      apply Z.le_trans with (2 ^ dc * 2 ^ t).
      - assert (0 < 2 ^ t) by (apply Z.pow_pos_nonneg; lia). nia.
      - rewrite <- Z.pow_add_r by lia.
        replace (dc + t) with (dx - 1 + s) by (subst t; lia). exact HNlo. }
    assert (Hd : t + 1 <= Zdigits2 (N / Zpos mc)).
    { rewrite <- Zdigits2_pow2 by exact Ht.
      apply Zdigits2_le; [apply Z.pow_nonneg; lia | exact Hq]. }
    apply Z.le_trans with (fexp64 A); [lia |].
    apply fexp64_le. subst A t s. lia.
Qed.

(** A quotient is the rounding of the exact quotient. *)
Lemma div_rnd (mx : positive) (ex : Z) :
  SFdiv B64.prec B64.emax (S754_finite false mx ex) (S754_finite false mc ec)
  = rnd false (div_num mc ec mx ex) (Zpos mc) (div_exp mc ec mx ex).
Proof.
  cbn [SFdiv xorb]. rewrite div_core.
  apply binary_round_aux_rnd; [pose proof (div_num_pos mx ex); lia | lia |].
  apply div_pre.
Qed.

Lemma div_nn (x : spec_float) :
  nn x -> nn (SFdiv B64.prec B64.emax x (S754_finite false mc ec)).
Proof.
  intros [s | mx ex Hx |].
  - constructor.
  - rewrite div_rnd. apply rnd_nn; [pose proof (div_num_pos mx ex); lia | lia |].
    apply div_pre.
  - constructor.
Qed.

(** Dividing by a positive number keeps the order. *)
Lemma div_mono (x1 x2 : spec_float) :
  nn x1 -> nn x2 -> SFleb x1 x2 = true ->
  SFleb (SFdiv B64.prec B64.emax x1 (S754_finite false mc ec))
        (SFdiv B64.prec B64.emax x2 (S754_finite false mc ec)) = true.
Proof.
  intros H1 H2 Hle.
  destruct H1 as [s1 | m1 e1 Hb1 |].
  - apply SFleb_zero_nn. apply (div_nn H2).
  - destruct H2 as [s2 | m2 e2 Hb2 |]; try discriminate Hle.
    + rewrite !div_rnd.
      apply rnd_mono; try lia; try apply div_pre;
        try (pose proof (div_num_pos m1 e1); pose proof (div_num_pos m2 e2); lia).
      pose proof (SFleb_value _ _ _ _ Hb1 Hb2 Hle) as Hv.
      set (f1 := div_exp mc ec m1 e1). set (f2 := div_exp mc ec m2 e2).
      assert (Hf1 : f1 <= e1 - ec) by (subst f1; unfold div_exp; lia).
      assert (Hf2 : f2 <= e2 - ec) by (subst f2; unfold div_exp; lia).
      unfold div_num. fold f1 f2.
      apply (proj1 (@value_order_rebase (Zpos m1) (Zpos m2) e1 e2
                      (Z.min e1 e2) (ec + Z.min f1 f2)
                      ltac:(lia) ltac:(lia) ltac:(lia))) in Hv.
      assert (Hp1 : 2 ^ (e1 - ec - f1) * 2 ^ (f1 - Z.min f1 f2)
                    = 2 ^ (e1 - (ec + Z.min f1 f2))).
      { rewrite <- Z.pow_add_r by lia. f_equal. lia. }
      assert (Hp2 : 2 ^ (e2 - ec - f2) * 2 ^ (f2 - Z.min f1 f2)
                    = 2 ^ (e2 - (ec + Z.min f1 f2))).
      { rewrite <- Z.pow_add_r by lia. f_equal. lia. }
      rewrite <- Hp1, <- Hp2 in Hv. nia.
    + apply SFleb_nn_inf. apply div_nn. constructor. exact Hb1.
  - destruct H2 as [s2 | m2 e2 Hb2 |]; try discriminate Hle. reflexivity.
Qed.
End Div.

(** ** Binary64: normalisation, signs and addition *)

(** Doubling [d] times multiplies by [2 ^ d]. *)
Lemma pos_iter_xO (m d : positive) :
  Zpos (Pos.iter xO m d) = Zpos m * 2 ^ Zpos d.
Proof.
  induction d as [| d IH] using Pos.peano_ind.
  - change (2 ^ 1) with 2. cbn [Pos.iter]. lia.
  - rewrite Pos.iter_succ, Pos2Z.inj_xO, IH, Pos2Z.inj_succ, Z.pow_succ_r by lia.
    ring.
Qed.

(** Aligning to a lower exponent multiplies the mantissa by the power of two
    that keeps the value. *)
Lemma shl_align_spec (m : positive) (e e' : Z) :
  Zpos (fst (shl_align m e e')) = Zpos m * 2 ^ (e - Z.min e e')
  /\ snd (shl_align m e e') = Z.min e e'.
Proof.
  unfold shl_align. destruct (e' - e) as [| d | d] eqn:Hd; cbn [fst snd].
  - replace (Z.min e e') with e by lia. rewrite Z.sub_diag. split; lia.
  - replace (Z.min e e') with e by lia. rewrite Z.sub_diag. split; lia.
  - replace (Z.min e e') with e' by lia. rewrite pos_iter_xO.
    replace (e - e') with (Zpos d) by lia. split; reflexivity.
Qed.

Lemma Zdigits2_mul_pow2 (m j : Z) :
  0 < m -> 0 <= j -> Zdigits2 (m * 2 ^ j) = Zdigits2 m + j.
Proof.
  intros Hm Hj. destruct (Zdigits2_bounds Hm) as [Hlo Hhi].
  assert (Hd : 0 < Zdigits2 m) by (destruct m; try lia; simpl; lia).
  assert (Hp : 0 < 2 ^ j) by (apply Z.pow_pos_nonneg; lia).
  apply Zdigits2_unique; [| lia].
  replace (Zdigits2 m + j - 1) with ((Zdigits2 m - 1) + j) by lia.
  rewrite !Z.pow_add_r by lia. nia.
Qed.



Lemma norm_pre (M e : Z) :
  0 < M ->
  norm_exp M e <= fexp64 (Zdigits2 (norm_num M e / 1) + norm_exp M e).
Proof.
  intros HM. rewrite Z.div_1_r. unfold norm_num.
  rewrite Zdigits2_mul_pow2 by (unfold norm_exp; lia).
  replace (Zdigits2 M + (e - norm_exp M e) + norm_exp M e)
    with (Zdigits2 M + e) by lia.
  unfold norm_exp. lia.
Qed.

Lemma norm_num_pos (M e : Z) : 0 < M -> 0 < norm_num M e.
Proof.
  intros HM. unfold norm_num.
  assert (0 < 2 ^ (e - norm_exp M e)).
  { apply Z.pow_pos_nonneg; [lia |]. unfold norm_exp. lia. }
  nia.
Qed.

(** [binary_round] is the rounding of the value it is given. *)
Lemma binary_round_rnd (s : bool) (m : positive) (e : Z) :
  binary_round B64.prec B64.emax s m e
  = rnd s (norm_num (Zpos m) e) 1 (norm_exp (Zpos m) e).
Proof.
  unfold binary_round. rewrite fexp64_eq.
  destruct (shl_align_spec m e (fexp64 (Zpos (digits2_pos m) + e)))
    as [Hfst Hsnd].
  destruct (shl_align m e (fexp64 (Zpos (digits2_pos m) + e))) as [mz ez].
  cbn [fst snd] in Hfst, Hsnd. subst ez.
  change (Zpos (digits2_pos m)) with (Zdigits2 (Zpos m)) in *.
  fold (norm_exp (Zpos m) e) in *. rewrite Hfst.
  fold (norm_num (Zpos m) e).
  apply binary_round_aux_exact.
  - pose proof (@norm_num_pos (Zpos m) e ltac:(lia)). lia.
  - pose proof (@norm_pre (Zpos m) e ltac:(lia)) as Hp.
    rewrite Z.div_1_r in Hp. exact Hp.
Qed.

Lemma norm_nn (M e : Z) :
  0 < M -> nn (rnd false (norm_num M e) 1 (norm_exp M e)).
Proof.
  intros HM. apply rnd_nn; [| lia | apply norm_pre, HM].
  pose proof (norm_num_pos e HM). lia.
Qed.

(** It keeps the order of the values. *)
Lemma norm_mono (M1 e1 M2 e2 : Z) :
  0 < M1 -> 0 < M2 ->
  M1 * 2 ^ (e1 - Z.min e1 e2) <= M2 * 2 ^ (e2 - Z.min e1 e2) ->
  SFleb (rnd false (norm_num M1 e1) 1 (norm_exp M1 e1))
        (rnd false (norm_num M2 e2) 1 (norm_exp M2 e2)) = true.
Proof.
  intros H1 H2 Hle.
  pose proof (norm_num_pos e1 H1). pose proof (norm_num_pos e2 H2).
  apply rnd_mono; try lia; try (apply norm_pre; assumption).
  set (f1 := norm_exp M1 e1). set (f2 := norm_exp M2 e2).
  assert (Hf1 : f1 <= e1) by (subst f1; unfold norm_exp; lia).
  assert (Hf2 : f2 <= e2) by (subst f2; unfold norm_exp; lia).
  unfold norm_num. fold f1 f2.
  apply (proj1 (@value_order_rebase M1 M2 e1 e2 (Z.min e1 e2) (Z.min f1 f2)
                  ltac:(lia) ltac:(lia) ltac:(lia))) in Hle.
  assert (Hp1 : 2 ^ (e1 - f1) * 2 ^ (f1 - Z.min f1 f2) = 2 ^ (e1 - Z.min f1 f2)).
  { rewrite <- Z.pow_add_r by lia. f_equal. lia. }
  assert (Hp2 : 2 ^ (e2 - f2) * 2 ^ (f2 - Z.min f1 f2) = 2 ^ (e2 - Z.min f1 f2)).
  { rewrite <- Z.pow_add_r by lia. f_equal. lia. }
  rewrite <- Hp1, <- Hp2 in Hle. nia.
Qed.

Lemma pow2_merge (a b c : Z) :
  c <= b -> b <= a -> 2 ^ (a - b) * 2 ^ (b - c) = 2 ^ (a - c).
Proof. intros. rewrite <- Z.pow_add_r by lia. f_equal. lia. Qed.

(** ** Signs *)

Lemma round_at_opp (E k : Z) : round_at true E k = SFopp (round_at false E k).
Proof.
  unfold round_at. destruct k as [| p | p]; try reflexivity.
  destruct (Zpos p =? 2 ^ 53); [destruct (E + 1 <=? 971) | destruct (E <=? 971)];
    reflexivity.
Qed.

Lemma rnd_opp (N D e : Z) : rnd true N D e = SFopp (rnd false N D e).
Proof. unfold rnd. apply round_at_opp. Qed.

Lemma SFleb_finite_pos_inv (m1 m2 : positive) (e1 e2 : Z) :
  SFleb (S754_finite false m1 e1) (S754_finite false m2 e2) = true ->
  e1 < e2 \/ (e1 = e2 /\ (m1 <= m2)%positive).
Proof.
  unfold SFleb, SFcompare. fold (Pos.compare m1 m2).
  destruct (Z.compare_spec e1 e2) as [Heq | Hlt | Hgt]; intros H.
  - right. split; [exact Heq |].
    destruct (Pos.compare_spec m1 m2); try discriminate H; lia.
  - left. exact Hlt.
  - discriminate H.
Qed.

Lemma SFleb_finite_neg (m1 m2 : positive) (e1 e2 : Z) :
  e1 < e2 \/ (e1 = e2 /\ (m1 <= m2)%positive) ->
  SFleb (S754_finite true m2 e2) (S754_finite true m1 e1) = true.
Proof.
  intros [Hlt | [-> Hle]]; unfold SFleb, SFcompare.
  - rewrite (proj2 (Z.compare_gt_iff e2 e1) Hlt). reflexivity.
  - rewrite Z.compare_refl. fold (Pos.compare m2 m1).
    destruct (Pos.compare_spec m2 m1); try reflexivity. lia.
Qed.

(** Negation reverses the order of non-negative numbers. *)
Lemma SFleb_opp_nn (a b : spec_float) :
  nn a -> nn b -> SFleb a b = true -> SFleb (SFopp b) (SFopp a) = true.
Proof.
  intros [sa | ma ea _ |] [sb | mb eb _ |] Hle;
    try reflexivity; try discriminate Hle.
  apply SFleb_finite_neg, SFleb_finite_pos_inv, Hle.
Qed.

(** The negation of a non-negative number is below every non-negative
    number. *)
Lemma SFleb_np_nn (a b : spec_float) :
  nn a -> nn b -> SFleb (SFopp a) b = true.
Proof. intros [sa | ma ea _ |] [sb | mb eb _ |]; reflexivity. Qed.

(** ** [binary_normalize] is monotone in the value it is given *)

Lemma normalize_mono (M1 e1 M2 e2 : Z) :
  M1 * 2 ^ (e1 - Z.min e1 e2) <= M2 * 2 ^ (e2 - Z.min e1 e2) ->
  SFleb (binary_normalize B64.prec B64.emax M1 e1 false)
        (binary_normalize B64.prec B64.emax M2 e2 false) = true.
Proof.
  intros Hle.
  assert (Hp1 : 0 < 2 ^ (e1 - Z.min e1 e2)) by (apply Z.pow_pos_nonneg; lia).
  assert (Hp2 : 0 < 2 ^ (e2 - Z.min e1 e2)) by (apply Z.pow_pos_nonneg; lia).
  destruct M1 as [| p1 | p1]; destruct M2 as [| p2 | p2];
    cbn [binary_normalize]; rewrite ?binary_round_rnd, ?rnd_opp;
    try (exfalso; nia).
  - reflexivity.
  - apply SFleb_zero_nn, norm_nn. lia.
  - apply norm_mono; lia.
  - apply (@SFleb_np_nn _ (S754_zero false)); [apply norm_nn; lia | constructor].
  - apply SFleb_np_nn; apply norm_nn; lia.
  - apply SFleb_opp_nn; try (apply norm_nn; lia).
    apply norm_mono; try lia.
    replace (Z.min e2 e1) with (Z.min e1 e2) by lia. lia.
Qed.

(** ** Addition *)

Lemma SFadd_finite (sx sy : bool) (mx my : positive) (ex ey : Z) :
  SFadd B64.prec B64.emax (S754_finite sx mx ex) (S754_finite sy my ey)
  = binary_normalize B64.prec B64.emax
      (cond_Zopp sx (Zpos mx * 2 ^ (ex - Z.min ex ey))
       + cond_Zopp sy (Zpos my * 2 ^ (ey - Z.min ex ey)))
      (Z.min ex ey) false.
Proof.
  cbn [SFadd].
  destruct (shl_align_spec mx ex (Z.min ex ey)) as [Hx _].
  destruct (shl_align_spec my ey (Z.min ex ey)) as [Hy _].
  rewrite Hx, Hy.
  replace (Z.min ex (Z.min ex ey)) with (Z.min ex ey) by lia.
  replace (Z.min ey (Z.min ex ey)) with (Z.min ex ey) by lia.
  reflexivity.
Qed.

(** Adding one and the same finite number to two valid positive numbers
    keeps their order. *)
Lemma add_finite_mono (m1 m2 : positive) (e1 e2 : Z) (sr : bool)
    (mr : positive) (er : Z) :
  bounded B64.prec B64.emax m1 e1 = true ->
  bounded B64.prec B64.emax m2 e2 = true ->
  SFleb (S754_finite false m1 e1) (S754_finite false m2 e2) = true ->
  SFleb (SFadd B64.prec B64.emax (S754_finite false m1 e1)
           (S754_finite sr mr er))
        (SFadd B64.prec B64.emax (S754_finite false m2 e2)
           (S754_finite sr mr er)) = true.
Proof.
  intros Hb1 Hb2 Hle.
  pose proof (SFleb_value _ _ _ _ Hb1 Hb2 Hle) as Hv.
  rewrite !SFadd_finite. apply normalize_mono.
  set (z1 := Z.min e1 er). set (z2 := Z.min e2 er). set (b := Z.min z1 z2).
  apply (proj1 (@value_order_rebase (Zpos m1) (Zpos m2) e1 e2
                  (Z.min e1 e2) b
                  ltac:(lia) ltac:(lia) ltac:(subst b z1 z2; lia))) in Hv.
  cbn [cond_Zopp].
  rewrite !Z.mul_add_distr_r.
  assert (Hx1 : Zpos m1 * 2 ^ (e1 - z1) * 2 ^ (z1 - b) = Zpos m1 * 2 ^ (e1 - b)).
  { rewrite <- Z.mul_assoc, pow2_merge by (subst b z1 z2; lia). reflexivity. }
  assert (Hx2 : Zpos m2 * 2 ^ (e2 - z2) * 2 ^ (z2 - b) = Zpos m2 * 2 ^ (e2 - b)).
  { rewrite <- Z.mul_assoc, pow2_merge by (subst b z1 z2; lia). reflexivity. }
  assert (Hr1 : Zpos mr * 2 ^ (er - z1) * 2 ^ (z1 - b) = Zpos mr * 2 ^ (er - b)).
  { rewrite <- Z.mul_assoc, pow2_merge by (subst b z1 z2; lia). reflexivity. }
  assert (Hr2 : Zpos mr * 2 ^ (er - z2) * 2 ^ (z2 - b) = Zpos mr * 2 ^ (er - b)).
  { rewrite <- Z.mul_assoc, pow2_merge by (subst b z1 z2; lia). reflexivity. }
  rewrite Hx1, Hx2.
  destruct sr; cbn [cond_Zopp].
  - rewrite !Z.mul_opp_l, Hr1, Hr2. lia.
  - rewrite Hr1, Hr2. lia.
Qed.

(** ** Binary64: monotone stages *)

(** Normalising a valid positive number returns it. *)
Lemma normalize_valid (m : positive) (e : Z) :
  bounded B64.prec B64.emax m e = true ->
  binary_normalize B64.prec B64.emax (Zpos m) e false = S754_finite false m e.
Proof.
  intros Hb. cbn [binary_normalize]. rewrite binary_round_rnd.
  pose proof Hb as Hc. apply bounded_spec in Hc. destruct Hc as [Hc _].
  unfold norm_num, norm_exp. rewrite Hc, Z.min_id, Z.sub_diag.
  change (2 ^ 0) with 1. rewrite Z.mul_1_r. apply rnd_valid, Hb.
Qed.

Lemma SFleb_refl_finite (m : positive) (e : Z) :
  SFleb (S754_finite false m e) (S754_finite false m e) = true.
Proof. apply SFleb_finite_pos. right. split; [reflexivity | lia]. Qed.



Lemma mono_nn_compose (f g : spec_float -> spec_float) :
  mono_nn f -> mono_nn g -> mono_nn (fun x => g (f x)).
Proof.
  intros Hf Hg x1 x2 H1 H2 Hle.
  destruct (Hf x1 x2 H1 H2 Hle) as [Hf1 [Hf2 Hfle]].
  apply (Hg _ _ Hf1 Hf2 Hfle).
Qed.



Lemma mono_nn_div (c : spec_float) :
  pos_valid c -> mono_nn (fun x => SFdiv B64.prec B64.emax x c).
Proof.
  intros [m [e [-> Hb]]] x1 x2 H1 H2 Hle.
  split; [apply div_nn, H1 |]. split; [apply div_nn, H2 |].
  apply div_mono; assumption.
Qed.

Lemma mono_nn_mul_r (c : spec_float) :
  pos_valid c -> mono_nn (fun x => SFmul B64.prec B64.emax x c).
Proof.
  intros [m [e [-> Hb]]] x1 x2 H1 H2 Hle.
  split; [apply (mul_nn _ _ Hb), H1 |]. split; [apply (mul_nn _ _ Hb), H2 |].
  apply mul_mono; assumption.
Qed.

Lemma SFmul_comm (x y : spec_float) :
  SFmul B64.prec B64.emax x y = SFmul B64.prec B64.emax y x.
Proof.
  destruct x as [sx | sx | | sx mx ex]; destruct y as [sy | sy | | sy my ey];
    cbn [SFmul]; rewrite ?(xorb_comm sx sy); try reflexivity.
  rewrite (Pos.mul_comm mx my), (Z.add_comm ex ey). reflexivity.
Qed.

Lemma mono_nn_mul_l (c : spec_float) :
  pos_valid c -> mono_nn (fun x => SFmul B64.prec B64.emax c x).
Proof.
  intros Hc x1 x2 H1 H2 Hle.
  rewrite (SFmul_comm c x1), (SFmul_comm c x2).
  apply (mono_nn_mul_r Hc); assumption.
Qed.

Lemma add_pos_nn (m1 m2 : positive) (e1 e2 : Z) :
  nn (SFadd B64.prec B64.emax (S754_finite false m1 e1)
        (S754_finite false m2 e2)).
Proof.
  rewrite SFadd_finite. cbn [cond_Zopp].
  assert (Hp1 : 0 < 2 ^ (e1 - Z.min e1 e2)) by (apply Z.pow_pos_nonneg; lia).
  assert (Hp2 : 0 < 2 ^ (e2 - Z.min e1 e2)) by (apply Z.pow_pos_nonneg; lia).
  destruct (Zpos m1 * 2 ^ (e1 - Z.min e1 e2) + Zpos m2 * 2 ^ (e2 - Z.min e1 e2))
    as [| p | p] eqn:HM; try nia.
  cbn [binary_normalize]. rewrite binary_round_rnd. apply norm_nn. lia.
Qed.

(** Adding a valid positive number keeps non-negative numbers in order. *)
Lemma mono_nn_add_r (c : spec_float) :
  pos_valid c -> mono_nn (fun x => SFadd B64.prec B64.emax x c).
Proof.
  intros [mc [ec [-> Hc]]] x1 x2 H1 H2 Hle.
  assert (Hnn : forall x, nn x ->
            nn (SFadd B64.prec B64.emax x (S754_finite false mc ec))).
  { intros x [s | m e Hb |].
    - constructor. exact Hc.
    - apply add_pos_nn.
    - constructor. }
  split; [apply Hnn, H1 |]. split; [apply Hnn, H2 |].
  destruct H1 as [s1 | m1 e1 Hb1 |]; destruct H2 as [s2 | m2 e2 Hb2 |];
    try discriminate Hle.
  - apply SFleb_refl_finite.
  - cbn [SFadd]. fold (SFadd B64.prec B64.emax (S754_finite false m2 e2)
                         (S754_finite false mc ec)).
    rewrite <- (normalize_valid _ _ Hc) at 1. rewrite SFadd_finite.
    apply normalize_mono. cbn [cond_Zopp].
    replace (Z.min ec (Z.min e2 ec)) with (Z.min e2 ec) by lia.
    rewrite Z.sub_diag. change (2 ^ 0) with 1.
    assert (0 < 2 ^ (e2 - Z.min e2 ec)) by (apply Z.pow_pos_nonneg; lia).
    nia.
  - reflexivity.
  - apply add_finite_mono; assumption.
  - apply SFleb_nn_inf. apply add_pos_nn.
  - reflexivity.
Qed.

(** ** Binary64: the power model *)

(** A valid number above a non-negative number is non-negative. *)
Lemma nn_of_le (a b : spec_float) :
  nn a -> valid_binary B64.prec B64.emax b = true -> SFleb a b = true -> nn b.
Proof.
  intros Ha Hb Hle.
  destruct b as [sb | sb | | sb mb eb].
  - constructor.
  - destruct sb; [| constructor].
    destruct Ha; discriminate Hle.
  - destruct Ha; discriminate Hle.
  - destruct sb; [destruct Ha; discriminate Hle |].
    constructor. exact Hb.
Qed.

(** Two ordered non-negative numbers between two positive finite ones are
    positive and finite. *)
Lemma nn_between (lo hi d1 d2 : spec_float) :
  pos_valid lo -> pos_valid hi -> nn d1 -> nn d2 ->
  SFleb lo d1 = true -> SFleb d1 d2 = true -> SFleb d2 hi = true ->
  pos_valid d1 /\ pos_valid d2.
Proof.
  intros [ml [el [-> _]]] [mh [eh [-> _]]] H1 H2 Hlo Hle Hhi.
  destruct H1 as [s1 | m1 e1 Hb1 |]; try discriminate Hlo;
    destruct H2 as [s2 | m2 e2 Hb2 |]; try discriminate Hle;
    try discriminate Hhi.
  split; do 2 eexists; split; try reflexivity; assumption.
Qed.

Lemma round_at_cases (s : bool) (E k : Z) :
  round_at s E k = S754_zero s
  \/ round_at s E k = S754_infinity s
  \/ exists m e, round_at s E k = S754_finite s m e.
Proof.
  unfold round_at. destruct k as [| p | p]; auto.
  destruct (Zpos p =? 2 ^ 53); [destruct (E + 1 <=? 971) | destruct (E <=? 971)];
    eauto.
Qed.

(** The product of a valid number other than NaN by a valid positive
    number is a zero, an infinity or a finite number. *)
Lemma mul_valid_cases (x c : spec_float) :
  valid_binary B64.prec B64.emax x = true -> x <> S754_nan -> pos_valid c ->
  (exists s, SFmul B64.prec B64.emax x c = S754_zero s)
  \/ (exists s, SFmul B64.prec B64.emax x c = S754_infinity s)
  \/ exists s m e, SFmul B64.prec B64.emax x c = S754_finite s m e.
Proof.
  intros Hx Hnan [mc [ec [-> Hc]]].
  destruct x as [sx | sx | | sx mx ex]; cbn [SFmul].
  - left. eauto.
  - right. left. eauto.
  - contradiction.
  - rewrite binary_round_aux_exact; [| lia | apply (mul_pre _ _ Hc), Hx].
    unfold rnd.
    match goal with
    | |- context [round_at ?s ?E ?k] =>
        destruct (round_at_cases s E k) as [-> | [-> | [m [e ->]]]]
    end; eauto 6.
Qed.

Lemma SFleb_refl_inf (s : bool) :
  SFleb (S754_infinity s) (S754_infinity s) = true.
Proof. destruct s; reflexivity. Qed.

(** Adding one and the same number, other than NaN, to two valid positive
    numbers keeps their order. *)
Lemma add_any_mono (d1 d2 r : spec_float) :
  pos_valid d1 -> pos_valid d2 -> SFleb d1 d2 = true ->
  (exists s, r = S754_zero s)
  \/ (exists s, r = S754_infinity s)
  \/ (exists s m e, r = S754_finite s m e) ->
  SFleb (SFadd B64.prec B64.emax d1 r) (SFadd B64.prec B64.emax d2 r) = true.
Proof.
  intros [m1 [e1 [-> Hb1]]] [m2 [e2 [-> Hb2]]] Hle
    [[s ->] | [[s ->] | [s [m [e ->]]]]].
  - exact Hle.
  - apply SFleb_refl_inf.
  - apply add_finite_mono; assumption.
Qed.



(** The cpu term is monotone: a division, a product, a sum and a product. *)
Lemma cpu_power_mono (tdp : Z) :
  tdp = 65 \/ tdp = 15 -> mono_nn (cpu_power tdp).
Proof.
  intros Htdp. unfold cpu_power.
  apply (@mono_nn_compose
           (fun u => fadd (fmul (fdiv u (lit 100 1)) Estimator.CPU_POWER_FACTOR)
                       Estimator.CPU_BASELINE)
           (fun c => fmul (of_int tdp) c)).
  - apply (@mono_nn_compose
             (fun u => fmul (fdiv u (lit 100 1)) Estimator.CPU_POWER_FACTOR)
             (fun b => fadd b Estimator.CPU_BASELINE)).
    + apply (@mono_nn_compose
               (fun u => fdiv u (lit 100 1))
               (fun a => fmul a Estimator.CPU_POWER_FACTOR)).
      * apply mono_nn_div. do 2 eexists. split; reflexivity.
      * apply mono_nn_mul_r. do 2 eexists. split; reflexivity.
    + apply mono_nn_add_r. do 2 eexists. split; reflexivity.
  - apply mono_nn_mul_l.
    destruct Htdp as [-> | ->]; do 2 eexists; split; reflexivity.
Qed.

(** C8. On binary64, for an estimator built by [__init__] on any machine and
    a memory figure held fixed, the power computed for a cpu utilisation
    [u1] is at most the power computed for [u2] whenever
    [0 <= u1 <= u2 <= 100]: every rounding on the way is monotone.  The
    three inputs are genuine binary64 values, which [valid_binary] says of a
    [spec_float], and the memory figure is a number: NaN compares false
    with everything, itself included. *)
Theorem power_monotone_binary64 (intensity : B64.float) (machine : string)
    (u1 u2 memory_gb : B64.float) :
  valid_binary B64.prec B64.emax u1 = true ->
  valid_binary B64.prec B64.emax u2 = true ->
  valid_binary B64.prec B64.emax memory_gb = true ->
  memory_gb <> S754_nan ->
  fleb (of_int 0) u1 = true -> fleb u1 u2 = true ->
  fleb u2 (of_int 100) = true ->
  exists p1 p2,
    Estimator.total_power_watts (Estimator.init intensity machine)
      u1 memory_gb = Ok p1
    /\ Estimator.total_power_watts (Estimator.init intensity machine)
         u2 memory_gb = Ok p2
    /\ fleb p1 p2 = true.
Proof.
  intros Hv1 Hv2 Hvm Hnan H0 H12 H100.
  rewrite !(total_power_watts_value b64_100_nonzero).
  do 2 eexists. split; [reflexivity |]. split; [reflexivity |].
  pose proof (init_tdp intensity machine) as Htdp.
  set (tdp := Estimator.tdp (Estimator.init intensity machine)) in *.
  fold (cpu_power tdp u1). fold (cpu_power tdp u2).
  pose proof (cpu_power_mono Htdp) as Hmono.
  assert (Hz : nn (of_int 0)) by constructor.
  assert (Hn1 : nn u1) by (apply (@nn_of_le _ _ Hz Hv1 H0)).
  assert (Hn2 : nn u2) by (apply (@nn_of_le _ _ Hn1 Hv2 H12)).
  assert (Hh : nn (of_int 100)) by (constructor; reflexivity).
  destruct (Hmono _ _ Hz Hn1 H0) as [_ [Hd1 Hlo]].
  destruct (Hmono _ _ Hn1 Hn2 H12) as [_ [Hd2 Hle]].
  destruct (Hmono _ _ Hn2 Hh H100) as [_ [_ Hhi]].
  assert (Hends : pos_valid (cpu_power tdp (of_int 0))
                  /\ pos_valid (cpu_power tdp (of_int 100))).
  { destruct Htdp as [-> | ->]; split; do 2 eexists; split;
      vm_compute; reflexivity. }
  destruct Hends as [Hplo Hphi].
  destruct (@nn_between _ _ _ _ Hplo Hphi Hd1 Hd2 Hlo Hle Hhi) as [Hp1 Hp2].
  apply add_any_mono; try assumption.
  apply mul_valid_cases; try assumption.
  do 2 eexists. split; reflexivity.
Qed.

(** ** Binary64: gigabytes to megabytes and back *)

(** Two non-negative numbers, one of them positive and finite, that are
    below each other are equal. *)
Lemma SFleb_antisym_finite (a : spec_float) (m : positive) (e : Z) :
  nn a ->
  SFleb a (S754_finite false m e) = true ->
  SFleb (S754_finite false m e) a = true ->
  a = S754_finite false m e.
Proof.
  intros [s | m' e' _ |] H1 H2; try discriminate H1; try discriminate H2.
  apply SFleb_finite_pos_inv in H1. apply SFleb_finite_pos_inv in H2.
  assert (He : e' = e) by lia. subst e'.
  assert (Hm : m' = m) by lia. subst m'. reflexivity.
Qed.

(** A quantity that a valid positive number represents exactly rounds to
    that number. *)
Lemma rnd_exact (N D e0 : Z) (m : positive) (e : Z) :
  0 <= N -> 0 < D -> e0 <= fexp64 (Zdigits2 (N / D) + e0) ->
  bounded B64.prec B64.emax m e = true ->
  N * 2 ^ (e0 - Z.min e0 e) = Zpos m * D * 2 ^ (e - Z.min e0 e) ->
  rnd false N D e0 = S754_finite false m e.
Proof.
  intros HN HD Hpre Hb Heq.
  pose proof Hb as Hc. apply bounded_spec in Hc. destruct Hc as [Hc _].
  assert (Hpre' : e <= fexp64 (Zdigits2 (Zpos m / 1) + e))
    by (rewrite Z.div_1_r, Hc; lia).
  apply SFleb_antisym_finite.
  - apply rnd_nn; assumption.
  - rewrite <- (rnd_valid _ _ Hb). apply rnd_mono; try lia; try assumption.
  - rewrite <- (rnd_valid _ _ Hb). apply rnd_mono; try lia; try assumption.
    rewrite (Z.min_comm e e0). lia.
Qed.

Lemma mul_1024_normal (m : positive) (e : Z) :
  bounded B64.prec B64.emax m e = true -> 2 ^ 52 <= Zpos m -> e <= 961 ->
  fmul (S754_finite false m e : B64.float) (of_int 1024)
  = S754_finite false m (e + 10).
Proof.
  intros Hb Hm He.
  destruct (bounded_digits _ _ Hb) as [Hrange [_ [Hlt _]]].
  assert (Hd : Zdigits2 (Zpos m) = 53) by (apply Zdigits2_unique; lia).
  assert (Hc : bounded B64.prec B64.emax (2 ^ 52) (-42) = true) by reflexivity.
  change (fmul (S754_finite false m e : B64.float) (of_int 1024))
    with (SFmul B64.prec B64.emax (S754_finite false m e)
            (S754_finite false (2 ^ 52) (-42))).
  rewrite (mul_rnd _ _ Hc) by exact Hb.
  apply rnd_exact; try lia.
  - rewrite Z.div_1_r. rewrite <- Pos2Z.inj_mul. apply (mul_pre _ _ Hc _ _ Hb).
  - apply bounded_spec. rewrite Hd. unfold fexp64. lia.
  - replace (Z.min (e + -42) (e + 10)) with (e + -42) by lia.
    rewrite Z.sub_diag. replace (e + 10 - (e + -42)) with 52 by lia.
    change (Zpos (2 ^ 52)) with (2 ^ 52). change (2 ^ 0) with 1. lia.
Qed.

Lemma div_1024_normal (m : positive) (e : Z) :
  bounded B64.prec B64.emax m e = true -> 2 ^ 52 <= Zpos m -> e <= 961 ->
  fdiv (S754_finite false m (e + 10) : B64.float) (of_int 1024)
  = S754_finite false m e.
Proof.
  intros Hb Hm He.
  change (fdiv (S754_finite false m (e + 10) : B64.float) (of_int 1024))
    with (SFdiv B64.prec B64.emax (S754_finite false m (e + 10))
            (S754_finite false (2 ^ 52) (-42))).
  rewrite div_rnd.
  set (f := div_exp (2 ^ 52) (-42) m (e + 10)).
  assert (Hf : f <= e + 52) by (subst f; unfold div_exp; lia).
  apply rnd_exact; try lia; try exact Hb.
  - pose proof (div_num_pos (2 ^ 52) (-42) m (e + 10)). lia.
  - apply div_pre.
  - unfold div_num. fold f.
    replace (e + 10 - -42 - f) with (e + 52 - f) by lia.
    change (Zpos (2 ^ 52)) with (2 ^ 52).
    rewrite <- !Z.mul_assoc. f_equal.
    rewrite <- !Z.pow_add_r by lia. f_equal. lia.
Qed.

(** In the ordinary range, converting gigabytes to megabytes and back is
    exact. *)
Lemma gb_mb_gb (g : B64.float) :
  ordinary g -> fdiv (fmul g (of_int 1024)) (of_int 1024) = g.
Proof.
  intros [[s ->] | [m [e [-> [Hb [Hm He]]]]]].
  - destruct s; reflexivity.
  - rewrite mul_1024_normal by assumption. apply div_1024_normal; assumption.
Qed.

Section RoundTrip.
Context {F : Type} `{PyFloat F}.
Variable self : Estimator.EnergyEstimator F.

(** The inputs [_calculate_energy] was given can be read off its result. *)
Lemma calculate_energy_fields (duration cpu_percent memory_gb : F)
    (metrics : Estimator.EnergyMetrics F) :
  Estimator._calculate_energy self duration cpu_percent memory_gb = Ok metrics ->
  Estimator.duration_seconds metrics = duration
  /\ Estimator.cpu_percent metrics = cpu_percent
  /\ Estimator.memory_mb metrics = fmul memory_gb (of_int 1024).
Proof.
  unfold Estimator._calculate_energy. intros Hcalc.
  apply bind_inv in Hcalc. destruct Hcalc as [power [_ Hcalc]].
  apply bind_inv in Hcalc. destruct Hcalc as [kwh [_ Hcalc]].
  injection Hcalc as <-. repeat split.
Qed.

(** [measure_execution] returns what [_calculate_energy] makes of the
    observed duration and of the two averages. *)
Lemma measure_execution_inv (A : Type) (run : Estimator.Execution F A)
    (res : A) (metrics : Estimator.EnergyMetrics F) :
  Estimator.measure_execution self run = Ok (res, metrics) ->
  exists avg_cpu avg_memory_gb,
    Estimator.average (Estimator.cpu_samples run) = Ok avg_cpu
    /\ Estimator.average (Estimator.memory_samples run) = Ok avg_memory_gb
    /\ Estimator._calculate_energy self
         (fsub (Estimator.end_time run) (Estimator.start_time run))
         avg_cpu avg_memory_gb = Ok metrics.
Proof.
  unfold Estimator.measure_execution. intros Hrun.
  apply bind_inv in Hrun. destruct Hrun as [res' [_ Hrun]].
  apply bind_inv in Hrun. destruct Hrun as [avg_cpu [Hcpu Hrun]].
  apply bind_inv in Hrun. destruct Hrun as [avg_memory_gb [Hmem Hrun]].
  apply bind_inv in Hrun. destruct Hrun as [metrics' [Hcalc Hrun]].
  injection Hrun as _ <-.
  exists avg_cpu, avg_memory_gb. repeat split; assumption.
Qed.

(** [estimate_from_metrics] on a memory in megabytes that converts back to
    the gigabytes it came from. *)
Lemma estimate_of_megabytes (duration cpu_percent memory_gb : F) :
  fdiv (fmul memory_gb (of_int 1024)) (of_int 1024) = memory_gb ->
  Estimator.estimate_from_metrics self duration cpu_percent
    (fmul memory_gb (of_int 1024))
  = Estimator._calculate_energy self duration cpu_percent memory_gb.
Proof.
  intros Hback. unfold Estimator.estimate_from_metrics.
  rewrite truediv_int_nonzero by discriminate.
  rewrite bind_Ok, Hback. reflexivity.
Qed.
End RoundTrip.

(** The metrics [measure_execution] reports, handed back to
    [estimate_from_metrics] as they are, are reproduced, when the memory
    average is in the ordinary range. *)
Lemma estimate_reproduces_measured (A : Type)
    (self : Estimator.EnergyEstimator B64.float)
    (run : Estimator.Execution B64.float A) (res : A)
    (metrics : Estimator.EnergyMetrics B64.float) (avg_memory_gb : B64.float) :
  Estimator.measure_execution self run = Ok (res, metrics) ->
  Estimator.average (Estimator.memory_samples run) = Ok avg_memory_gb ->
  ordinary avg_memory_gb ->
  Estimator.estimate_from_metrics self
    (Estimator.duration_seconds metrics) (Estimator.cpu_percent metrics)
    (Estimator.memory_mb metrics) = Ok metrics.
Proof.
  intros Hrun Hmem Hord.
  destruct (measure_execution_inv _ _ Hrun)
    as [avg_cpu [g [_ [Hmem' Hcalc]]]].
  assert (Hg : g = avg_memory_gb) by congruence. subst g.
  destruct (calculate_energy_fields _ _ _ _ Hcalc) as [-> [-> ->]].
  rewrite estimate_of_megabytes by (apply gb_mb_gb, Hord).
  exact Hcalc.
Qed.

End RoundingTheory.

(** ** The two entry points *)

(** C5. When the workload returns, [measure_execution] computes its metrics
    from the observed duration and the two sampled averages, and
    [estimate_from_metrics] given the same duration, the same cpu average
    and the same memory, in megabytes, returns the very same
    [EnergyMetrics], energy, carbon and SCI score included.  In particular
    the duration, cpu and memory figures that [measure_execution] reports,
    handed to [estimate_from_metrics] as they are, give back the report,
    the conversion to megabytes and back being exact for a memory average
    in the ordinary range. *)
Theorem entry_points_agree (A : Type)
    (self : Estimator.EnergyEstimator B64.float)
    (run : Estimator.Execution B64.float A) (res : A) :
  Estimator.func_outcome run = Ok res ->
  exists avg_cpu avg_memory_gb metrics,
    Estimator.average (Estimator.cpu_samples run) = Ok avg_cpu
    /\ Estimator.average (Estimator.memory_samples run) = Ok avg_memory_gb
    /\ Estimator.measure_execution self run = Ok (res, metrics)
    /\ (forall memory_mb : B64.float,
          truediv_int memory_mb 1024 = Ok avg_memory_gb ->
          Estimator.estimate_from_metrics self
            (fsub (Estimator.end_time run) (Estimator.start_time run))
            avg_cpu memory_mb = Ok metrics)
    /\ (ordinary avg_memory_gb ->
        Estimator.estimate_from_metrics self
          (Estimator.duration_seconds metrics)
          (Estimator.cpu_percent metrics)
          (Estimator.memory_mb metrics) = Ok metrics).
Proof.
  intros Hres.
  destruct (average_returns (Estimator.cpu_samples run)) as [avg_cpu Hcpu].
  destruct (average_returns (Estimator.memory_samples run))
    as [avg_memory_gb Hmem].
  destruct (calculate_energy_value b64_100_nonzero self
              (fsub (Estimator.end_time run) (Estimator.start_time run))
              avg_cpu avg_memory_gb) as [power [_ Hcalc]].
  assert (Hrun : Estimator.measure_execution self run
                 = Ok (res, {|
                     Estimator.duration_seconds :=
                       fsub (Estimator.end_time run) (Estimator.start_time run);
                     Estimator.cpu_percent := avg_cpu;
                     Estimator.memory_mb := fmul avg_memory_gb (of_int 1024);
                     Estimator.energy_joules :=
                       fmul power
                         (fsub (Estimator.end_time run)
                            (Estimator.start_time run));
                     Estimator.carbon_grams :=
                       fmul
                         (fdiv
                            (fmul power
                               (fsub (Estimator.end_time run)
                                  (Estimator.start_time run)))
                            (of_int 3600000))
                         (Estimator.carbon_intensity self);
                     Estimator.sci_score :=
                       fmul
                         (fdiv
                            (fmul power
                               (fsub (Estimator.end_time run)
                                  (Estimator.start_time run)))
                            (of_int 3600000))
                         (Estimator.carbon_intensity self) |})).
  { unfold Estimator.measure_execution.
    rewrite Hres, bind_Ok, Hcpu, bind_Ok, Hmem, bind_Ok, Hcalc, bind_Ok.
    reflexivity. }
  exists avg_cpu, avg_memory_gb. eexists.
  split; [exact Hcpu |]. split; [exact Hmem |]. split; [exact Hrun |]. split.
  - intros memory_mb Hmb. unfold Estimator.estimate_from_metrics.
    rewrite Hmb, bind_Ok. exact Hcalc.
  - intros Hord.
    apply (estimate_reproduces_measured self run Hrun Hmem Hord).
Qed.

Lemma entry_points_agree_witness :
  exists metrics,
    Estimator.measure_execution Samples.x86 Samples.sampled = Ok (tt, metrics)
    /\ Estimator.estimate_from_metrics Samples.x86
         (fsub (of_int 10) (of_int 0)) (of_int 50) (of_int 2048)
       = Ok metrics
    /\ Estimator.estimate_from_metrics Samples.x86
         (Estimator.duration_seconds metrics) (Estimator.cpu_percent metrics)
         (Estimator.memory_mb metrics) = Ok metrics.
Proof.
  destruct (@entry_points_agree unit Samples.x86 Samples.sampled tt eq_refl)
    as [avg_cpu [avg_memory_gb [metrics [Hcpu [Hmem [Hrun [Hsame Hback]]]]]]].
  vm_compute in Hcpu. injection Hcpu as <-.
  vm_compute in Hmem. injection Hmem as <-.
  exists metrics. split; [exact Hrun |]. split.
  - apply (Hsame (of_int 2048)). reflexivity.
  - apply Hback. right. do 2 eexists.
    split; [reflexivity |]. split; [reflexivity |]. split; [| lia].
    vm_compute. discriminate.
Defined.

Lemma power_monotone_binary64_witness :
  exists p1 p2 : B64.float,
    Estimator.total_power_watts Samples.x86 (of_int 25) (of_int 2) = Ok p1
    /\ Estimator.total_power_watts Samples.x86 (of_int 50) (of_int 2) = Ok p2
    /\ fleb p1 p2 = true.
Proof.
  apply (@power_monotone_binary64 Estimator.default_carbon_intensity "x86_64"
           (of_int 25) (of_int 50) (of_int 2));
    try reflexivity.
  discriminate.
Defined.

(** * The console: listings, comparison and dispatch *)

(** ** Slices *)

Section SliceFrom.
Context {A : Type}.

(** A negative start counts from the end: [xs[-n:]] is [last_entries]. *)
Lemma slice_from_last (n : nat) (xs : list A) :
  (0 < n)%nat ->
  Console.slice_from (- Z.of_nat n) xs = Cli.last_entries n xs.
Proof.
  intros Hn. unfold Console.slice_from, Cli.last_entries.
  destruct (Z.ltb_spec (- Z.of_nat n) 0) as [_ | Hge]; [| lia].
  f_equal. lia.
Qed.

End SliceFrom.

(** ** [show_history] *)

Section ShowHistory.
Local Abbreviation float := B64.float.
Implicit Types (history : list (Cli.ResultData float)) (limit : Z).

(** The division by 0.062 cannot raise: a file that holds a list of
    complete entries is always listed. *)
Lemma show_history_value history limit :
  Console.show_history (Some history) limit
  = Ok (Some
      {| Console.lines :=
           map Console.line_of (Console.slice_from (- limit) history);
         Console.executions := List.length history;
         Console.total_carbon :=
           py_sum (map (fun e => Cli.carbon_grams (Cli.metrics e)) history);
         Console.total_energy :=
           py_sum (map (fun e => Cli.energy_joules (Cli.metrics e)) history);
         Console.total_charges :=
           fdiv (fmul (py_sum (map (fun e => Cli.carbon_grams (Cli.metrics e))
                                 history)) (of_int 1000)) (lit 62 1000) |}).
Proof.
  unfold Console.show_history.
  rewrite truediv_nonzero by exact b64_0062_nonzero. reflexivity.
Qed.

(** X2. With a positive limit the listing shows the last [limit] entries
    of the file, in the order of the file, all of them when the file has
    fewer; the count printed under the listing is the number of entries of
    the whole file, shown or not. *)
Theorem show_history_last_entries history limit :
  (0 < limit)%Z ->
  exists listing,
    Console.show_history (Some history) limit = Ok (Some listing)
    /\ Console.lines listing
       = map Console.line_of (Cli.last_entries (Z.to_nat limit) history)
    /\ List.length (Console.lines listing)
       = Nat.min (Z.to_nat limit) (List.length history)
    /\ Console.executions listing = List.length history.
Proof.
  intros Hlimit. rewrite show_history_value. eexists.
  split; [reflexivity |]. cbn [Console.lines Console.executions].
  replace (- limit)%Z with (- Z.of_nat (Z.to_nat limit))%Z by lia.
  rewrite slice_from_last by lia.
  split; [reflexivity |]. split; [| reflexivity].
  rewrite length_map. apply last_entries_length.
Qed.

(** X3. A limit that is not positive does not limit: [history[-0:]] is the
    whole list, and a negative limit drops that many of the oldest entries
    and shows every other one. *)
Theorem show_history_nonpositive_limit history limit :
  (limit <= 0)%Z ->
  exists listing,
    Console.show_history (Some history) limit = Ok (Some listing)
    /\ Console.lines listing
       = map Console.line_of (skipn (Z.to_nat (- limit)) history)
    /\ (limit = 0%Z -> Console.lines listing = map Console.line_of history).
Proof.
  intros Hlimit. rewrite show_history_value. eexists.
  split; [reflexivity |]. cbn [Console.lines].
  assert (Hslice : Console.slice_from (- limit) history
                   = skipn (Z.to_nat (- limit)) history).
  { unfold Console.slice_from. destruct (Z.ltb_spec (- limit) 0); [lia |].
    destruct (Z.le_ge_cases (- limit) (Z.of_nat (List.length history)))
      as [Hin | Hout].
    - rewrite Z.min_l by lia. reflexivity.
    - rewrite Z.min_r by lia. rewrite Nat2Z.id.
      rewrite skipn_all. symmetry. apply skipn_all2. lia. }
  rewrite Hslice. split; [reflexivity |].
  intros ->. reflexivity.
Qed.

End ShowHistory.

(** ** Prefixes of strings *)

Lemma append_length (s t : string) :
  String.length (s ++ t) = (String.length s + String.length t)%nat.
Proof. induction s as [| c s IH]; simpl; [reflexivity | now rewrite IH]. Qed.

Lemma prefix_length (n : nat) : forall s,
  String.length (Console.prefix n s) = Nat.min n (String.length s).
Proof.
  unfold Console.prefix.
  induction n as [| n IH]; intros [| c s]; simpl; try reflexivity.
  rewrite IH. reflexivity.
Qed.

Lemma prefix_split (n : nat) : forall s,
  exists rest, s = (Console.prefix n s ++ rest)%string.
Proof.
  unfold Console.prefix.
  induction n as [| n IH]; intros [| c s]; simpl.
  - exists EmptyString. reflexivity.
  - exists (String c s). reflexivity.
  - exists EmptyString. reflexivity.
  - destruct (IH s) as [rest Hrest]. exists rest. f_equal. exact Hrest.
Qed.

Lemma prefix_short (n : nat) : forall s,
  (String.length s <= n)%nat -> Console.prefix n s = s.
Proof.
  unfold Console.prefix.
  induction n as [| n IH]; intros [| c s]; simpl; intros Hlen;
    try reflexivity; try lia.
  f_equal. apply IH. lia.
Qed.

Section Listing.
Local Abbreviation float := B64.float.
Implicit Types (history : list (Cli.ResultData float)) (limit : Z).

Lemma slice_from_incl {A : Type} (k : Z) (xs : list A) (x : A) :
  In x (Console.slice_from k xs) -> In x xs.
Proof.
  unfold Console.slice_from. intros Hin.
  rewrite <- (firstn_skipn
                (Z.to_nat (if (k <? 0)%Z
                           then Z.max (Z.of_nat (List.length xs) + k) 0
                           else Z.min k (Z.of_nat (List.length xs)))) xs).
  apply in_or_app. right. exact Hin.
Qed.

(** X4. Every line of a listing comes from an entry of the file: its
    duration and carbon mass are the stored ones, its time stamp is the
    stored one cut after 19 characters and its command the stored one cut
    after 30, each left whole when it is not longer.  What is shown is a
    prefix of what is stored, of exactly 19 or 30 characters when the stored
    text has at least as many. *)
Theorem show_history_lines (file : Cli.HistoryFile float) limit listing line :
  Console.show_history file limit = Ok (Some listing) ->
  In line (Console.lines listing) ->
  exists entry cut_time cut_command,
    In entry (Cli.stored file)
    /\ Console.line_duration line = Cli.duration_seconds entry
    /\ Console.line_carbon line = Cli.carbon_grams (Cli.metrics entry)
    /\ Cli.timestamp entry
       = (Console.line_timestamp line ++ cut_time)%string
    /\ Cli.command entry
       = (Console.line_command line ++ cut_command)%string
    /\ (String.length (Console.line_timestamp line) <= 19)%nat
    /\ (String.length (Console.line_command line) <= 30)%nat
    /\ ((String.length (Cli.timestamp entry) <= 19)%nat -> cut_time = EmptyString)
    /\ ((String.length (Cli.command entry) <= 30)%nat ->
        cut_command = EmptyString)
    /\ String.length (Console.line_timestamp line)
       = Nat.min 19 (String.length (Cli.timestamp entry))
    /\ String.length (Console.line_command line)
       = Nat.min 30 (String.length (Cli.command entry)).
Proof.
  destruct file as [history |]; [| discriminate].
  rewrite show_history_value. intros Hshown Hline.
  injection Hshown as <-. cbn [Console.lines] in Hline.
  apply in_map_iff in Hline. destruct Hline as [entry [<- Hentry]].
  apply slice_from_incl in Hentry.
  destruct (prefix_split 19 (Cli.timestamp entry)) as [cut_time Htime].
  destruct (prefix_split 30 (Cli.command entry)) as [cut_command Hcommand].
  exists entry, cut_time, cut_command.
  cbn [Console.line_of Console.line_timestamp Console.line_command
       Console.line_duration Console.line_carbon Cli.stored].
  split; [exact Hentry |]. split; [reflexivity |]. split; [reflexivity |].
  split; [exact Htime |]. split; [exact Hcommand |].
  split; [rewrite prefix_length; lia |].
  split; [rewrite prefix_length; lia |].
  split.
  { intros Hshort. rewrite (prefix_short _ Hshort) in Htime.
    destruct cut_time as [| c rest]; [reflexivity |].
    apply (f_equal String.length) in Htime.
    rewrite append_length in Htime. simpl in Htime. lia. }
  split.
  { intros Hshort. rewrite (prefix_short _ Hshort) in Hcommand.
    destruct cut_command as [| c rest]; [reflexivity |].
    apply (f_equal String.length) in Hcommand.
    rewrite append_length in Hcommand. simpl in Hcommand. lia. }
  split; apply prefix_length.
Qed.

End Listing.

(** ** The comparison, run by run *)

Section CompareRuns.
Local Abbreviation float := B64.float.
Variables (world : nat -> Cli.Observation float) (command : string).

(** The carbon mass [run_command] records for the [i]-th observation at a
    grid intensity of [c] grams per kWh. *)
Let recorded (i : nat) (c : Z) : float :=
  round_nd
    (fmul (fdiv (fmul (fsub (Cli.end_time (world i)) (Cli.start_time (world i)))
                   (of_int 25))
             (of_int 3600000))
       (of_int c)) 4.

Lemma measure_each_value locs : forall file i,
  exists results,
    Cli.measure_each file world i command locs = Ok results
    /\ map fst results = map fst locs
    /\ map (fun r => Cli.carbon_grams (Cli.metrics (snd r))) results
       = map (fun jl => recorded (fst jl) (Cli.intensity_for (snd (snd jl))))
           (combine (seq i (List.length locs)) locs).
Proof.
  induction locs as [| [name code] rest IH]; intros file i.
  - exists []. repeat split.
  - cbn [Cli.measure_each].
    destruct (run_command_returns b64_0062_nonzero file (world i) command
                code false)
      as [run [-> [_ [_ [_ [_ [_ [Hcarbon [_ Hfile]]]]]]]]].
    rewrite bind_Ok.
    destruct (IH (Cli.history run) (S i)) as [results [-> [Hnames Hmass]]].
    rewrite bind_Ok. eexists. split; [reflexivity |].
    cbn [map fst snd List.length seq combine].
    rewrite Hnames, Hmass, Hcarbon. split; reflexivity.
Qed.

Lemma report_value (baseline : float) results :
  is_zero baseline = false ->
  exists rows,
    Cli.report baseline results = Ok rows
    /\ map Cli.name rows = map fst results
    /\ map Cli.carbon rows
       = map (fun r => Cli.carbon_grams (Cli.metrics (snd r))) results.
Proof.
  intros Hbase. induction results as [| entry rest IH].
  - exists []. repeat split.
  - destruct IH as [rows [Hrows [Hnames Hmass]]].
    cbn [Cli.report]. unfold Cli.report_row.
    rewrite truediv_nonzero by exact Hbase. rewrite !bind_Ok, Hrows, bind_Ok.
    eexists. split; [reflexivity |].
    cbn [map Cli.name Cli.carbon]. rewrite Hnames, Hmass. split; reflexivity.
Qed.

Lemma report_raises (baseline : float) entry rest :
  is_zero baseline = true ->
  Cli.report baseline (entry :: rest) = Raise ZeroDivisionError.
Proof.
  intros Hbase. cbn [Cli.report]. unfold Cli.report_row, truediv.
  rewrite Hbase. reflexivity.
Qed.

(** X5. What [compare_locations] does is decided by the carbon mass
    recorded for its first run, the one for Colombia.  When that mass is
    zero the comparison raises [ZeroDivisionError]; otherwise it prints four
    rows, named in the order of the list, whose masses are those recorded at
    165, 420, 389 and 389 g/kWh: neither US-CA nor FR is a location
    [run_command] knows, so California and France are both measured at the
    default intensity.  No other exception can leave the comparison. *)
Theorem compare_locations_outcome (file : Cli.HistoryFile float) :
  if is_zero (recorded 0 165)
  then Cli.compare_locations file world command = Raise ZeroDivisionError
  else exists rows,
         Cli.compare_locations file world command = Ok rows
         /\ map Cli.name rows
            = ["Colombia"; "Alemania"; "California"; "Francia"]%string
         /\ map Cli.carbon rows
            = [recorded 0 165; recorded 1 420; recorded 2 389;
               recorded 3 389].
Proof.
  unfold Cli.compare_locations, Cli.compare_over.
  destruct (measure_each_value Cli.locations file 0)
    as [results [-> [Hnames Hmass]]].
  rewrite bind_Ok.
  destruct results as [| first rest]; [discriminate Hnames |].
  assert (Hfirst : Cli.carbon_grams (Cli.metrics (snd first))
                   = recorded 0 165).
  { injection Hmass as Hfirst _. exact Hfirst. }
  rewrite Hfirst.
  destruct (is_zero (recorded 0 165)) eqn:Hbase.
  - apply report_raises. exact Hbase.
  - destruct (report_value _ (first :: rest) Hbase) as [rows [-> [Hn Hm]]].
    exists rows. split; [reflexivity |].
    rewrite Hn, Hm, Hnames, Hmass. split; reflexivity.
Qed.

(** Whatever a non-zero baseline is, its own row does not rise: a finite
    one gives a difference of zero, an infinite one or NaN gives NaN, and
    [0 < NaN] is false. *)
Lemma self_delta_not_rising (baseline : float) :
  is_zero baseline = false ->
  fltb (of_int 0)
    (fmul (fdiv (fsub baseline baseline) baseline) (of_int 100)) = false
  /\ (forall s m e, baseline = S754_finite s m e ->
      is_zero (fmul (fdiv (fsub baseline baseline) baseline) (of_int 100))
      = true).
Proof.
  intros Hbase. destruct baseline as [s | s | | s m e].
  - discriminate Hbase.
  - split; [destruct s; reflexivity | discriminate].
  - split; [reflexivity | discriminate].
  - assert (Hsub : fsub (S754_finite s m e : float) (S754_finite s m e)
                   = S754_zero false).
    { simpl. rewrite Z.sub_diag. reflexivity. }
    rewrite Hsub. split; [destruct s; reflexivity |].
    intros _ _ _ _. destruct s; reflexivity.
Qed.

(** X6. When the comparison prints, its first row is the baseline compared
    with itself, and that row never shows the rising arrow: the difference
    printed for Colombia is zero whenever the baseline is finite. *)
Theorem baseline_row_never_rises (file : Cli.HistoryFile float) :
  is_zero (recorded 0 165) = false ->
  exists first rest,
    Cli.compare_locations file world command = Ok (first :: rest)
    /\ Cli.name first = "Colombia"%string
    /\ Cli.carbon first = recorded 0 165
    /\ Cli.rising first = false
    /\ (forall s m e, recorded 0 165 = S754_finite s m e ->
        is_zero (Cli.diff_percent first) = true).
Proof.
  intros Hbase.
  unfold Cli.compare_locations, Cli.compare_over.
  destruct (measure_each_value Cli.locations file 0)
    as [results [-> [Hnames Hmass]]].
  rewrite bind_Ok.
  destruct results as [| first rest]; [discriminate Hnames |].
  assert (Hfirst : Cli.carbon_grams (Cli.metrics (snd first))
                   = recorded 0 165).
  { injection Hmass as Hfirst _. exact Hfirst. }
  assert (Hname : fst first = "Colombia"%string).
  { injection Hnames as Hname _. exact Hname. }
  rewrite Hfirst. cbn [Cli.report]. unfold Cli.report_row.
  rewrite Hfirst, truediv_nonzero by exact Hbase. rewrite !bind_Ok.
  destruct (report_value _ rest Hbase) as [rows [-> _]].
  rewrite bind_Ok. do 2 eexists. split; [reflexivity |].
  cbn [Cli.name Cli.carbon Cli.rising Cli.diff_percent].
  destruct (self_delta_not_rising _ Hbase) as [Hrising Hzero].
  split; [exact Hname |]. split; [reflexivity |].
  split; [exact Hrising | exact Hzero].
Qed.

(** The first loop of the comparison leaves the history file as it found
    it: every run is asked not to save. *)
Lemma history_after_each_value locs : forall file i,
  Console.history_after_each file world i command locs = file.
Proof.
  induction locs as [| [name code] rest IH]; intros file i.
  - reflexivity.
  - cbn [Console.history_after_each].
    destruct (run_command_returns b64_0062_nonzero file (world i) command
                code false)
      as [run [-> [_ [_ [_ [_ [_ [_ [_ Hfile]]]]]]]]].
    rewrite Hfile. apply IH.
Qed.

End CompareRuns.

(** ** [main] *)

(** What [run_command] copies into its dict. *)
Lemma run_command_echo {F : Type} `{PyFloat F} (file : Cli.HistoryFile F)
    (obs : Cli.Observation F) (command location : string)
    (save_history : bool) (run : Cli.Run F) :
  Cli.run_command file obs command location save_history = Ok run ->
  Cli.command (Cli.returned run) = command
  /\ Cli.location (Cli.returned run) = location
  /\ Cli.timestamp (Cli.returned run) = Cli.now obs
  /\ Cli.cpu_percent (Cli.metrics (Cli.returned run)) = lit 45 1
  /\ Cli.memory_mb (Cli.metrics (Cli.returned run)) = lit 512 1.
Proof.
  unfold Cli.run_command.
  destruct (Cli.proc obs) as [returncode stdout stderr | message];
    cbv beta iota zeta; intros Hrun;
    apply bind_inv in Hrun; destruct Hrun as [kwh [_ Hrun]];
    apply bind_inv in Hrun; destruct Hrun as [charges [_ Hrun]];
    apply bind_inv in Hrun; destruct Hrun as [km [_ Hrun]];
    injection Hrun as <-; repeat split.
Qed.

Section Main.
Local Abbreviation float := B64.float.
Variables (file : Cli.HistoryFile float) (world : nat -> Cli.Observation float).

(** X7. The sub-command [run] saves what it measured.  On a history file
    that is absent or holds a list of entries, whatever the command did,
    [run] ends without an exception and the dict it returns is the last
    entry of the file afterwards; before it stand the entries of the file
    as it was, without a prefix that leaves 99 of them, or all of them when
    they were fewer.  The dict records the command, the location and the
    time stamp as given, and the intensity of the location. *)
Theorem main_run_records (cmd location : string) :
  exists data output evicted kept,
    Console.main (Console.RunArgs cmd location) file world
    = (Ok (Console.Ran data output), Some (kept ++ [data]))
    /\ Cli.stored file = evicted ++ kept
    /\ List.length kept = Nat.min 99 (List.length (Cli.stored file))
    /\ kept = Cli.last_entries 99 (Cli.stored file)
    /\ Cli.command data = cmd
    /\ Cli.location data = location
    /\ Cli.carbon_intensity (Cli.metrics data) = Cli.intensity_for location
    /\ Cli.timestamp data = Cli.now (world 0%nat).
Proof.
  cbn [Console.main].
  destruct (run_command_returns b64_0062_nonzero file (world 0%nat) cmd
              location true)
    as [run [Hrun [_ [_ [_ [_ [_ [_ [Hintensity Hfile]]]]]]]]].
  rewrite Hrun, Hfile, save_to_history_value.
  destruct (last_entries_suffix 99 (Cli.stored file))
    as [evicted [Hsplit _]].
  exists (Cli.returned run), (Cli.output run), evicted,
    (Cli.last_entries 99 (Cli.stored file)).
  split; [reflexivity |]. split; [exact Hsplit |].
  split; [apply last_entries_length |]. split; [reflexivity |].
  destruct (run_command_echo _ _ _ _ _ Hrun) as [Hcmd [Hloc [Hnow _]]].
  repeat split; assumption.
Qed.

(** The comparison either prints or divides by a zero baseline. *)
Lemma compare_locations_cases (cmd : string) :
  Cli.compare_locations file world cmd = Raise ZeroDivisionError
  \/ exists rows, Cli.compare_locations file world cmd = Ok rows.
Proof.
  unfold Cli.compare_locations, Cli.compare_over.
  destruct (measure_each_value world cmd Cli.locations file 0)
    as [results [-> [Hnames _]]].
  rewrite bind_Ok.
  destruct results as [| first rest]; [discriminate Hnames |].
  destruct (is_zero (Cli.carbon_grams (Cli.metrics (snd first)))) eqn:Hbase.
  - left. apply report_raises. exact Hbase.
  - right. destruct (report_value _ (first :: rest) Hbase) as [rows [-> _]].
    exists rows. reflexivity.
Qed.

(** X8. Only [run] writes the history file.  Whatever its arguments,
    [main] leaves the file as it found it unless the sub-command is [run],
    and it does so however it ends: [compare] prints its rows or raises
    [ZeroDivisionError], and in either case the file is the one it found.
    On a file that is absent or holds a list of complete entries,
    [history] lists at most ten lines, the parser giving no way to ask for
    more, and only prints its notice when there is no file. *)
Theorem main_only_run_writes :
  (forall args,
     (exists cmd location, args = Console.RunArgs cmd location)
     \/ snd (Console.main args file world) = file)
  /\ (forall cmd,
       exists outcome,
         Console.main (Console.CompareArgs cmd) file world = (outcome, file)
         /\ (outcome = Raise ZeroDivisionError
             \/ exists rows, outcome = Ok (Console.Compared rows)))
  /\ exists shown,
       Console.main Console.HistoryArgs file world
       = (Ok (Console.Listed shown), file)
       /\ (shown = None <-> file = None)
       /\ forall listing, shown = Some listing ->
            List.length (Console.lines listing)
            = Nat.min 10 (List.length (Cli.stored file)).
Proof.
  assert (Hcompare : forall cmd,
    exists outcome,
      Console.main (Console.CompareArgs cmd) file world = (outcome, file)
      /\ (outcome = Raise ZeroDivisionError
          \/ exists rows, outcome = Ok (Console.Compared rows))).
  { intros cmd. cbn [Console.main]. rewrite history_after_each_value.
    eexists. split; [reflexivity |].
    destruct (compare_locations_cases cmd) as [-> | [rows ->]].
    - left. reflexivity.
    - right. exists rows. reflexivity. }
  split; [| split; [exact Hcompare |]].
  - intros [| cmd location | | cmd].
    + right. reflexivity.
    + left. exists cmd, location. reflexivity.
    + right. reflexivity.
    + right. destruct (Hcompare cmd) as [outcome [-> _]]. reflexivity.
  - cbn [Console.main]. destruct file as [history |].
    + rewrite show_history_value, bind_Ok. eexists.
      split; [reflexivity |]. split; [split; discriminate |].
      intros listing Hshown. injection Hshown as <-.
      cbn [Console.lines Cli.stored]. rewrite length_map.
      change (Console.slice_from _ history)
        with (Console.slice_from (- Z.of_nat 10) history).
      rewrite slice_from_last by lia. apply last_entries_length.
    + exists None. split; [reflexivity |].
      split; [split; reflexivity | discriminate].
Qed.

(** X9. A run followed by a listing: the history shown after
    [greenpipeline run] ends with the line of that run, whatever the file
    held before, and it counts between one and a hundred executions. *)
Theorem history_lists_latest_run (cmd location : string)
    (later : nat -> Cli.Observation float) :
  exists data output file' listing earlier,
    Console.main (Console.RunArgs cmd location) file world
    = (Ok (Console.Ran data output), file')
    /\ Console.main Console.HistoryArgs file' later
       = (Ok (Console.Listed (Some listing)), file')
    /\ Console.lines listing = earlier ++ [Console.line_of data]
    /\ (List.length earlier <= 9)%nat
    /\ (1 <= Console.executions listing <= 100)%nat.
Proof.
  destruct (run_command_returns b64_0062_nonzero file (world 0%nat) cmd
              location true)
    as [run [Hrun [_ [_ [_ [_ [_ [_ [_ Hfile]]]]]]]]].
  do 5 eexists.
  split.
  { cbn [Console.main].
    rewrite Hrun, Hfile, save_to_history_value. reflexivity. }
  split.
  { cbn [Console.main]. rewrite show_history_value, bind_Ok. reflexivity. }
  cbn [Console.lines Console.executions].
  match goal with
  | |- context [Console.slice_from _ ?xs] =>
      change (Console.slice_from _ xs)
        with (Console.slice_from (- Z.of_nat 10) xs)
  end.
  rewrite slice_from_last by lia.
  change 10%nat with (S 9). rewrite last_entries_snoc, map_app.
  split; [reflexivity |].
  rewrite ?length_map, ?length_app, ?last_entries_length.
  cbn [List.length]. lia.
Qed.

End Main.

(** ** The output shown by [_print_results] *)

Local Abbreviation chars := list_ascii_of_string.

Lemma split_lines_cons (s : string) :
  exists piece pieces, Console.split_lines s = piece :: pieces.
Proof.
  destruct s as [| c s]; simpl.
  - do 2 eexists. reflexivity.
  - destruct (Ascii.eqb c Console.newline); [do 2 eexists; reflexivity |].
    destruct (Console.split_lines s); do 2 eexists; reflexivity.
Qed.

Lemma split_lines_no_newline (s : string) :
  Forall (fun piece => ~ In Console.newline (chars piece))
    (Console.split_lines s).
Proof.
  induction s as [| c s IH]; simpl.
  - constructor; [intros [] | constructor].
  - destruct (Ascii.eqb_spec c Console.newline) as [-> | Hc].
    + constructor; [intros [] | exact IH].
    + destruct (Console.split_lines s) as [| piece pieces].
      * constructor; [| constructor]. simpl. intros [Heq | []].
        apply Hc. exact Heq.
      * inversion IH as [| ? ? Hpiece Hpieces]; subst.
        constructor; [| exact Hpieces]. simpl. intros [Heq | Hin].
        -- apply Hc. exact Heq.
        -- apply Hpiece. exact Hin.
Qed.

(** Joining the pieces with the line break gives the text back. *)
Lemma split_lines_concat (s : string) :
  String.concat (String Console.newline EmptyString) (Console.split_lines s)
  = s.
Proof.
  induction s as [| c s IH]; simpl; [reflexivity |].
  destruct (Ascii.eqb_spec c Console.newline) as [-> | Hc].
  - destruct (split_lines_cons s) as [piece [pieces Hs]].
    rewrite Hs in *. simpl. f_equal. exact IH.
  - destruct (split_lines_cons s) as [piece [pieces Hs]].
    rewrite Hs in *. destruct pieces as [| piece' pieces].
    + simpl in *. f_equal. exact IH.
    + simpl in *. f_equal. exact IH.
Qed.

Lemma prefix_chars (n : nat) : forall s c,
  In c (chars (Console.prefix n s)) -> In c (chars s).
Proof.
  unfold Console.prefix.
  induction n as [| n IH]; intros [| a s] c; simpl; try tauto.
  intros [Heq | Hin]; [left; exact Heq | right; apply (IH _ _ Hin)].
Qed.

Lemma slice_from_bound {A : Type} (n : nat) (xs : list A) :
  (0 < n)%nat ->
  List.length (Console.slice_from (- Z.of_nat n) xs)
  = Nat.min n (List.length xs).
Proof.
  intros Hn. rewrite slice_from_last by exact Hn. apply last_entries_length.
Qed.

(** X11. Under the heading of the command's output [_print_results] shows
    nothing when there is no output, and otherwise between one and five
    lines, each of them three spaces followed by at most 70 characters
    without a line break. *)
Theorem print_results_output_shape (output : string) :
  (Console._print_results_output output = [] <-> output = EmptyString)
  /\ (List.length (Console._print_results_output output) <= 5)%nat
  /\ forall line, In line (Console._print_results_output output) ->
       exists text,
         line = ("   " ++ text)%string
         /\ (String.length text <= 70)%nat
         /\ ~ In Console.newline (chars text).
Proof.
  destruct output as [| c rest].
  - split; [split; reflexivity |]. split; [simpl; lia | intros line []].
  - unfold Console._print_results_output.
    set (text := Console.strip (String c rest)).
    change (-5)%Z with (- Z.of_nat 5)%Z.
    split; [| split].
    + split; [| discriminate]. intros Hnone.
      apply (f_equal (@List.length string)) in Hnone.
      rewrite length_map, slice_from_bound in Hnone by lia.
      destruct (split_lines_cons text) as [piece [pieces Hs]].
      rewrite Hs in Hnone. simpl in Hnone. discriminate Hnone.
    + rewrite length_map, slice_from_bound by lia. lia.
    + intros line Hline. apply in_map_iff in Hline.
      destruct Hline as [piece [<- Hpiece]].
      apply slice_from_incl in Hpiece.
      exists (Console.prefix 70 piece). split; [reflexivity |].
      split; [rewrite prefix_length; lia |].
      intros Hin. apply prefix_chars in Hin.
      pose proof (split_lines_no_newline text) as Hall.
      rewrite Forall_forall in Hall. apply (Hall _ Hpiece Hin).
Qed.

Lemma lstrip_blank (s : string) :
  Forall (fun c => Console.is_space c = true) (chars s) ->
  Console.lstrip s = EmptyString.
Proof.
  induction s as [| c s IH]; simpl; intros Hall; [reflexivity |].
  inversion Hall as [| ? ? Hc Hrest]; subst. rewrite Hc. apply IH, Hrest.
Qed.

(** X12. An output made of white space only is not empty, so the heading
    is printed; stripped, it is one empty line, and one line of three
    spaces is what follows the heading. *)
Theorem blank_output_prints_one_line (output : string) :
  output <> EmptyString ->
  Forall (fun c => Console.is_space c = true) (chars output) ->
  Console._print_results_output output = ["   "%string].
Proof.
  intros Hsome Hblank. unfold Console._print_results_output.
  destruct output as [| c rest]; [contradiction |].
  unfold Console.strip. rewrite (lstrip_blank _ Hblank). reflexivity.
Qed.

Lemma slice_from_all {A : Type} (n : nat) (xs : list A) :
  (List.length xs <= n)%nat -> (0 < n)%nat ->
  Console.slice_from (- Z.of_nat n) xs = xs.
Proof.
  intros Hlen Hn. rewrite slice_from_last by exact Hn.
  apply last_entries_short. exact Hlen.
Qed.

(** X13. Nothing of a short output is lost: when the stripped output has
    at most five lines of at most 70 characters, the lines shown are its
    lines, indented, and joined by line breaks they give the stripped
    output back. *)
Theorem short_output_shown_whole (output : string) :
  output <> EmptyString ->
  (List.length (Console.split_lines (Console.strip output)) <= 5)%nat ->
  Forall (fun piece => (String.length piece <= 70)%nat)
    (Console.split_lines (Console.strip output)) ->
  exists texts,
    Console._print_results_output output
    = map (fun text => ("   " ++ text)%string) texts
    /\ String.concat (String Console.newline EmptyString) texts
       = Console.strip output.
Proof.
  intros Hsome Hcount Hwidth.
  exists (Console.split_lines (Console.strip output)).
  split; [| apply split_lines_concat].
  unfold Console._print_results_output.
  destruct output as [| c rest]; [contradiction |].
  change (-5)%Z with (- Z.of_nat 5)%Z.
  rewrite slice_from_all by lia.
  apply map_ext_in. intros piece Hpiece.
  rewrite Forall_forall in Hwidth.
  rewrite (prefix_short _ (Hwidth _ Hpiece)). reflexivity.
Qed.

(** * The estimator, further *)

Section EstimatorFurther.
Local Abbreviation float := B64.float.
Open Scope Z_scope.

(** X14. [__init__] looks the machine up in [CPU_TDP] with 65 as the
    default: the thermal design power is 15 W for the two ARM names, spelt
    exactly so, and 65 W for every other string, known or not.  The
    intensity and the machine are stored as given. *)
Theorem init_falls_back_to_65 (intensity : float) (machine : string) :
  Estimator.tdp (Estimator.init intensity machine)
  = (if (String.eqb machine "aarch64" || String.eqb machine "arm64")%bool
     then 15 else 65)
  /\ Estimator.carbon_intensity (Estimator.init intensity machine) = intensity
  /\ Estimator.platform (Estimator.init intensity machine) = machine.
Proof.
  split; [| split; reflexivity].
  unfold Estimator.init, Estimator.CPU_TDP.
  cbn [Estimator.tdp Estimator.dict_get].
  rewrite (String.eqb_sym machine "aarch64"), (String.eqb_sym machine "arm64").
  destruct (String.eqb_spec "x86_64" machine) as [<- | _]; [reflexivity |].
  destruct (String.eqb "aarch64" machine); [reflexivity |].
  destruct (String.eqb "arm64" machine); reflexivity.
Qed.

Variable self : Estimator.EnergyEstimator float.

(** X15. [measure_execution] fails exactly when the measured function
    does, and then with the exception of the function: no series of
    samples, empty or not, and no reading of the clock makes the averages
    or the energy model raise.  When the function returns, its result comes
    back with metrics whose duration is the difference of the two readings
    and whose score is the carbon mass. *)
Theorem measure_execution_outcome (A : Type)
    (run : Estimator.Execution float A) :
  match Estimator.func_outcome run with
  | Raise e => Estimator.measure_execution self run = Raise e
  | Ok res =>
      exists metrics,
        Estimator.measure_execution self run = Ok (res, metrics)
        /\ Estimator.duration_seconds metrics
           = fsub (Estimator.end_time run) (Estimator.start_time run)
        /\ Estimator.sci_score metrics = Estimator.carbon_grams metrics
  end.
Proof.
  unfold Estimator.measure_execution.
  destruct (Estimator.func_outcome run) as [res | e]; [| reflexivity].
  rewrite bind_Ok.
  destruct (average_returns (Estimator.cpu_samples run)) as [cpu ->].
  destruct (average_returns (Estimator.memory_samples run)) as [mem ->].
  rewrite !bind_Ok.
  destruct (calculate_energy_value b64_100_nonzero self
              (fsub (Estimator.end_time run) (Estimator.start_time run))
              cpu mem) as [power [_ ->]].
  rewrite bind_Ok. eexists. split; [reflexivity |]. split; reflexivity.
Qed.

(** X16. [estimate_from_metrics] gives the memory back: a figure in
    megabytes that is a positive normal number, not so small that its
    1024th part is subnormal, is divided by 1024 and multiplied by 1024
    again without any loss, so the metrics report the megabytes they were
    given. *)
Theorem estimate_keeps_memory (duration cpu_percent : float)
    (m : positive) (e : Z) :
  bounded B64.prec B64.emax m e = true ->
  2 ^ 52 <= Zpos m -> -1064 <= e ->
  exists metrics,
    Estimator.estimate_from_metrics self duration cpu_percent
      (S754_finite false m e) = Ok metrics
    /\ Estimator.memory_mb metrics = S754_finite false m e
    /\ Estimator.duration_seconds metrics = duration
    /\ Estimator.cpu_percent metrics = cpu_percent.
Proof.
  intros Hb Hm He.
  destruct (bounded_digits _ _ Hb) as [Hrange [_ [Hlt _]]].
  assert (Hd : Zdigits2 (Zpos m) = 53) by (apply Zdigits2_unique; lia).
  assert (Hb' : bounded B64.prec B64.emax m (e - 10) = true).
  { apply bounded_spec. rewrite Hd. unfold fexp64. lia. }
  unfold Estimator.estimate_from_metrics.
  rewrite truediv_int_nonzero by discriminate. rewrite bind_Ok.
  assert (Hdiv : fdiv (S754_finite false m e : float) (of_int 1024)
                 = S754_finite false m (e - 10)).
  { replace e with (e - 10 + 10) at 1 by lia.
    apply div_1024_normal; assumption || lia. }
  rewrite Hdiv.
  destruct (calculate_energy_value b64_100_nonzero self duration cpu_percent
              (S754_finite false m (e - 10))) as [power [_ ->]].
  eexists. split; [reflexivity |].
  cbn [Estimator.memory_mb Estimator.duration_seconds Estimator.cpu_percent].
  split; [| split; reflexivity].
  rewrite (@mul_1024_normal m (e - 10)) by (assumption || lia). f_equal. lia.
Qed.

End EstimatorFurther.

(** * Binary64: [round] keeps the order *)

Section RoundKeepsOrder.
Open Scope Z_scope.
Variable ndigits : nat.
Local Abbreviation P := (pow10 ndigits).

(** The nearest binary64 to a ratio of positive integers is the rounding
    of that ratio. *)
Lemma rnd_ratio_rnd (n d : positive) :
  B64.rnd_ratio false n d
  = rnd false (div_num d 0 n 0) (Zpos d) (div_exp d 0 n 0).
Proof.
  change (B64.rnd_ratio false n d)
    with (SFdiv B64.prec B64.emax (S754_finite false n 0)
            (S754_finite false d 0)).
  apply div_rnd.
Qed.

(** The number of units of [10 ^ - ndigits] nearest to [m * 2 ^ e]. *)
Let units (m : positive) (e : Z) : Z :=
  rne_div (Zpos m * Zpos P * 2 ^ Z.max e 0) (Z.to_pos (2 ^ Z.max (- e) 0)).

(** The binary64 nearest to [k] such units. *)
Let of_units (k : Z) : spec_float :=
  match k with
  | Zpos n => B64.rnd_ratio false n P
  | _ => S754_zero false
  end.

Lemma of_units_nn (k : Z) : nn (of_units k).
Proof.
  destruct k as [| n | n]; try constructor.
  unfold of_units. rewrite rnd_ratio_rnd.
  apply rnd_nn; [pose proof (div_num_pos P 0 n 0); lia | lia | apply div_pre].
Qed.

Lemma of_units_mono (k1 k2 : Z) :
  k1 <= k2 -> SFleb (of_units k1) (of_units k2) = true.
Proof.
  intros Hle. destruct k1 as [| n1 | n1].
  - apply SFleb_zero_nn, of_units_nn.
  - destruct k2 as [| n2 | n2]; try lia.
    unfold of_units. rewrite !rnd_ratio_rnd.
    set (f1 := div_exp P 0 n1 0). set (f2 := div_exp P 0 n2 0).
    assert (Hf1 : f1 <= 0) by (subst f1; unfold div_exp; lia).
    assert (Hf2 : f2 <= 0) by (subst f2; unfold div_exp; lia).
    apply rnd_mono; try lia; try apply div_pre;
      try (pose proof (div_num_pos P 0 n1 0);
           pose proof (div_num_pos P 0 n2 0); lia).
    unfold div_num. fold f1 f2.
    replace (0 - 0 - f1) with (- f1) by lia.
    replace (0 - 0 - f2) with (- f2) by lia.
    assert (H1 : 2 ^ (- f1) * 2 ^ (f1 - Z.min f1 f2) = 2 ^ (- Z.min f1 f2)).
    { rewrite <- Z.pow_add_r by lia. f_equal. lia. }
    assert (H2 : 2 ^ (- f2) * 2 ^ (f2 - Z.min f1 f2) = 2 ^ (- Z.min f1 f2)).
    { rewrite <- Z.pow_add_r by lia. f_equal. lia. }
    assert (Hp : 0 < 2 ^ (- Z.min f1 f2)) by (apply Z.pow_pos_nonneg; lia).
    replace (Zpos n1 * 2 ^ (- f1) * Zpos P * 2 ^ (f1 - Z.min f1 f2))
      with (Zpos n1 * Zpos P * 2 ^ (- Z.min f1 f2))
      by (rewrite <- H1; ring).
    replace (Zpos n2 * 2 ^ (- f2) * Zpos P * 2 ^ (f2 - Z.min f1 f2))
      with (Zpos n2 * Zpos P * 2 ^ (- Z.min f1 f2))
      by (rewrite <- H2; ring).
    apply Z.mul_le_mono_nonneg_r; [lia |].
    apply Z.mul_le_mono_nonneg_r; lia.
  - simpl. destruct k2; apply SFleb_zero_nn; apply of_units_nn.
Qed.

(** [round] of a valid positive number is the binary64 nearest to its
    number of units: the number itself when it is an integer. *)
Lemma round_dec_units (m : positive) (e : Z) :
  bounded B64.prec B64.emax m e = true ->
  B64.round_dec (S754_finite false m e) ndigits = of_units (units m e).
Proof.
  intros Hb. unfold units. destruct e as [| pe | k].
  - (* an integer, exponent zero *)
    cbn [B64.round_dec]. change (Z.max (- 0) 0) with 0.
    change (Z.max 0 0) with 0. change (2 ^ 0) with 1.
    change (Z.to_pos 1) with 1%positive.
    replace (Zpos m * Zpos P * 1) with (Zpos (m * P) * Zpos 1) by lia.
    rewrite rne_div_exact. unfold of_units. rewrite rnd_ratio_rnd.
    symmetry. set (f := div_exp P 0 (m * P) 0).
    assert (Hf : f <= 0) by (subst f; unfold div_exp; lia).
    apply rnd_exact; try lia; try exact Hb.
    + pose proof (div_num_pos P 0 (m * P) 0). lia.
    + apply div_pre.
    + unfold div_num. fold f. rewrite Z.min_l by lia.
      replace (f - f) with 0 by lia. change (2 ^ 0) with 1.
      replace (0 - 0 - f) with (0 - f) by lia.
      rewrite Pos2Z.inj_mul. ring.
  - (* an integer, positive exponent *)
    cbn [B64.round_dec]. rewrite Z.max_l by lia. rewrite Z.max_r by lia.
    change (2 ^ 0) with 1. change (Z.to_pos 1) with 1%positive.
    assert (Hpow : 0 < 2 ^ Zpos pe) by (apply Z.pow_pos_nonneg; lia).
    replace (Zpos m * Zpos P * 2 ^ Zpos pe)
      with (Zpos m * Zpos P * 2 ^ Zpos pe * Zpos 1) by lia.
    rewrite rne_div_exact.
    destruct (Zpos m * Zpos P * 2 ^ Zpos pe) as [| n | n] eqn:Hn; try nia.
    unfold of_units. rewrite rnd_ratio_rnd.
    symmetry. set (f := div_exp P 0 n 0).
    assert (Hf : f <= 0) by (subst f; unfold div_exp; lia).
    apply rnd_exact; try lia; try exact Hb.
    + pose proof (div_num_pos P 0 n 0). lia.
    + apply div_pre.
    + unfold div_num. fold f. rewrite Z.min_l by lia.
      replace (f - f) with 0 by lia. change (2 ^ 0) with 1.
      replace (0 - 0 - f) with (0 - f) by lia.
      rewrite <- Hn. replace (Zpos pe - f) with (Zpos pe + (0 - f)) by lia.
      rewrite Z.pow_add_r by lia. ring.
  - (* a fraction *)
    cbn [B64.round_dec]. rewrite Z.max_r by lia.
    change (- Zneg k) with (Zpos k). rewrite Z.max_l by lia.
    change (2 ^ 0) with 1. rewrite Z.mul_1_r.
    rewrite <- Pos2Z.inj_pow. rewrite Pos2Z.id.
    unfold of_units. reflexivity.
Qed.

(** The number of units follows the order of the values. *)
Lemma units_mono (m1 m2 : positive) (e1 e2 : Z) :
  bounded B64.prec B64.emax m1 e1 = true ->
  bounded B64.prec B64.emax m2 e2 = true ->
  SFleb (S754_finite false m1 e1) (S754_finite false m2 e2) = true ->
  units m1 e1 <= units m2 e2.
Proof.
  intros Hb1 Hb2 Hle.
  pose proof (SFleb_value _ _ _ _ Hb1 Hb2 Hle) as Hv.
  unfold units. apply rne_div_mono.
  assert (Hq1 : 0 < 2 ^ Z.max (- e1) 0) by (apply Z.pow_pos_nonneg; lia).
  assert (Hq2 : 0 < 2 ^ Z.max (- e2) 0) by (apply Z.pow_pos_nonneg; lia).
  rewrite !Z2Pos.id by assumption.
  set (mu := Z.min e1 e2) in *.
  set (t := mu + Z.max (- e1) 0 + Z.max (- e2) 0).
  assert (Ht : 0 <= t) by (subst t mu; lia).
  assert (Hpt : 0 < 2 ^ t) by (apply Z.pow_pos_nonneg; lia).
  assert (H1 : 2 ^ Z.max e1 0 * 2 ^ Z.max (- e2) 0 = 2 ^ (e1 - mu) * 2 ^ t).
  { rewrite <- !Z.pow_add_r by (subst mu; lia). f_equal. subst t. lia. }
  assert (H2 : 2 ^ Z.max e2 0 * 2 ^ Z.max (- e1) 0 = 2 ^ (e2 - mu) * 2 ^ t).
  { rewrite <- !Z.pow_add_r by (subst mu; lia). f_equal. subst t. lia. }
  replace (Zpos m1 * Zpos P * 2 ^ Z.max e1 0 * 2 ^ Z.max (- e2) 0)
    with (Zpos m1 * 2 ^ (e1 - mu) * (Zpos P * 2 ^ t))
    by (rewrite <- !Z.mul_assoc, H1; ring).
  replace (Zpos m2 * Zpos P * 2 ^ Z.max e2 0 * 2 ^ Z.max (- e1) 0)
    with (Zpos m2 * 2 ^ (e2 - mu) * (Zpos P * 2 ^ t))
    by (rewrite <- !Z.mul_assoc, H2; ring).
  apply Z.mul_le_mono_nonneg_r; [nia | exact Hv].
Qed.

(** [round(x, ndigits)] keeps non-negative numbers non-negative and in
    order. *)
Lemma round_dec_mono : mono_nn (fun x => B64.round_dec x ndigits).
Proof.
  intros x1 x2 H1 H2 Hle.
  assert (Hnn : forall x, nn x -> nn (B64.round_dec x ndigits)).
  { intros x [s | m e Hb |]; try constructor.
    rewrite (round_dec_units _ _ Hb). apply of_units_nn. }
  split; [apply Hnn, H1 |]. split; [apply Hnn, H2 |].
  destruct H1 as [s1 | m1 e1 Hb1 |].
  - apply SFleb_zero_nn, Hnn, H2.
  - destruct H2 as [s2 | m2 e2 Hb2 |]; try discriminate Hle.
    + rewrite (round_dec_units _ _ Hb1), (round_dec_units _ _ Hb2).
      apply of_units_mono. apply units_mono; assumption.
    + apply SFleb_nn_inf. apply Hnn. constructor. exact Hb1.
  - destruct H2 as [s2 | m2 e2 Hb2 |]; try discriminate Hle. reflexivity.
Qed.

End RoundKeepsOrder.

(** * Figures that follow the duration *)

Lemma intensity_pos_valid (location : string) :
  pos_valid (of_int (Cli.intensity_for location) : B64.float).
Proof.
  unfold Cli.intensity_for.
  destruct (String.eqb location "DE"); [| destruct (String.eqb location "CO")];
    do 2 eexists; split; reflexivity.
Qed.

Section FiguresFollowDuration.
Local Abbreviation float := B64.float.
Variable location : string.

(** The six figures before they are rounded, as functions of the
    duration. *)
Let joules (d : float) : float := fmul d (of_int 25).
Let kwh (d : float) : float := fdiv (joules d) (of_int 3600000).
Let grams (d : float) : float :=
  fmul (kwh d) (of_int (Cli.intensity_for location)).
Let charges (d : float) : float :=
  fdiv (fmul (grams d) (of_int 1000)) (lit 62 1000).
Let km (d : float) : float := fdiv (grams d) (of_int 192).

Lemma joules_mono : mono_nn joules.
Proof. apply mono_nn_mul_r. do 2 eexists. split; reflexivity. Qed.

Lemma kwh_mono : mono_nn kwh.
Proof.
  refine (@mono_nn_compose joules (fun j => fdiv j (of_int 3600000))
            joules_mono _).
  apply mono_nn_div. do 2 eexists. split; reflexivity.
Qed.

Lemma grams_mono : mono_nn grams.
Proof.
  refine (@mono_nn_compose kwh
            (fun k => fmul k (of_int (Cli.intensity_for location)))
            kwh_mono _).
  apply mono_nn_mul_r. apply intensity_pos_valid.
Qed.

Lemma charges_mono : mono_nn charges.
Proof.
  refine (@mono_nn_compose grams
            (fun g => fdiv (fmul g (of_int 1000)) (lit 62 1000))
            grams_mono _).
  refine (@mono_nn_compose (fun g => fmul g (of_int 1000))
            (fun t => fdiv t (lit 62 1000)) _ _).
  - apply mono_nn_mul_r. do 2 eexists. split; reflexivity.
  - apply mono_nn_div. do 2 eexists. split; reflexivity.
Qed.

Lemma km_mono : mono_nn km.
Proof.
  refine (@mono_nn_compose grams (fun g => fdiv g (of_int 192))
            grams_mono _).
  apply mono_nn_div. do 2 eexists. split; reflexivity.
Qed.

Lemma rounded_mono (f : float -> float) (ndigits : nat) :
  mono_nn f -> mono_nn (fun d => round_nd (f d) ndigits).
Proof.
  intros Hf.
  refine (@mono_nn_compose f (fun x => B64.round_dec x ndigits) Hf _).
  apply round_dec_mono.
Qed.

Variables (file1 file2 : Cli.HistoryFile float).
Variables (obs1 obs2 : Cli.Observation float).
Variables (command1 command2 : string) (save1 save2 : bool).

Let duration1 : float := fsub (Cli.end_time obs1) (Cli.start_time obs1).
Let duration2 : float := fsub (Cli.end_time obs2) (Cli.start_time obs2).

(** X17. A run that lasted at least as long records at least as much.  For
    two runs at the same location whose observed durations are numbers
    with [0 <= duration1 <= duration2], none of the six figures of the
    first dict, duration, joules, kWh, grams, smartphone charges and
    kilometres, exceeds its counterpart in the second: every product,
    quotient and [round] on the way keeps the order. *)
Theorem longer_run_records_more :
  valid_binary B64.prec B64.emax duration1 = true ->
  valid_binary B64.prec B64.emax duration2 = true ->
  fleb (of_int 0) duration1 = true ->
  fleb duration1 duration2 = true ->
  exists run1 run2,
    Cli.run_command file1 obs1 command1 location save1 = Ok run1
    /\ Cli.run_command file2 obs2 command2 location save2 = Ok run2
    /\ fleb (Cli.duration_seconds (Cli.returned run1))
         (Cli.duration_seconds (Cli.returned run2)) = true
    /\ fleb (Cli.energy_joules (Cli.metrics (Cli.returned run1)))
         (Cli.energy_joules (Cli.metrics (Cli.returned run2))) = true
    /\ fleb (Cli.energy_kwh (Cli.metrics (Cli.returned run1)))
         (Cli.energy_kwh (Cli.metrics (Cli.returned run2))) = true
    /\ fleb (Cli.carbon_grams (Cli.metrics (Cli.returned run1)))
         (Cli.carbon_grams (Cli.metrics (Cli.returned run2))) = true
    /\ fleb (Cli.smartphone_charges (Cli.equivalents (Cli.returned run1)))
         (Cli.smartphone_charges (Cli.equivalents (Cli.returned run2)))
       = true
    /\ fleb (Cli.km_driven (Cli.equivalents (Cli.returned run1)))
         (Cli.km_driven (Cli.equivalents (Cli.returned run2))) = true.
Proof.
  intros Hv1 Hv2 H0 H12.
  assert (Hz : nn (of_int 0)) by constructor.
  assert (Hn1 : nn duration1) by (apply (@nn_of_le _ _ Hz Hv1 H0)).
  assert (Hn2 : nn duration2) by (apply (@nn_of_le _ _ Hn1 Hv2 H12)).
  destruct (run_command_figures file1 obs1 command1 location save1)
    as [run1 [Hrun1 [Hd1 [Hj1 [Hk1 [Hg1 [Hc1 Hm1]]]]]]].
  destruct (run_command_figures file2 obs2 command2 location save2)
    as [run2 [Hrun2 [Hd2 [Hj2 [Hk2 [Hg2 [Hc2 Hm2]]]]]]].
  exists run1, run2. split; [exact Hrun1 |]. split; [exact Hrun2 |].
  rewrite Hd1, Hd2, Hj1, Hj2, Hk1, Hk2, Hg1, Hg2, Hc1, Hc2, Hm1, Hm2.
  fold duration1 duration2.
  split; [apply (round_dec_mono 2 Hn1 Hn2 H12) |].
  split; [apply (rounded_mono 2 joules_mono Hn1 Hn2 H12) |].
  split; [apply (rounded_mono 6 kwh_mono Hn1 Hn2 H12) |].
  split; [apply (rounded_mono 4 grams_mono Hn1 Hn2 H12) |].
  split; [apply (rounded_mono 1 charges_mono Hn1 Hn2 H12) |].
  apply (rounded_mono 3 km_mono Hn1 Hn2 H12).
Qed.

(** X18. No figure is negative when the duration is not.  For a run whose
    observed duration is a number at least zero, each of the six figures of
    the dict is at least zero. *)
Theorem nonnegative_duration_nonnegative_figures :
  valid_binary B64.prec B64.emax duration1 = true ->
  fleb (of_int 0) duration1 = true ->
  exists run,
    Cli.run_command file1 obs1 command1 location save1 = Ok run
    /\ fleb (of_int 0) (Cli.duration_seconds (Cli.returned run)) = true
    /\ fleb (of_int 0) (Cli.energy_joules (Cli.metrics (Cli.returned run)))
       = true
    /\ fleb (of_int 0) (Cli.energy_kwh (Cli.metrics (Cli.returned run)))
       = true
    /\ fleb (of_int 0) (Cli.carbon_grams (Cli.metrics (Cli.returned run)))
       = true
    /\ fleb (of_int 0)
         (Cli.smartphone_charges (Cli.equivalents (Cli.returned run))) = true
    /\ fleb (of_int 0) (Cli.km_driven (Cli.equivalents (Cli.returned run)))
       = true.
Proof.
  intros Hv1 H0.
  assert (Hz : nn (of_int 0)) by constructor.
  assert (Hn1 : nn duration1) by (apply (@nn_of_le _ _ Hz Hv1 H0)).
  destruct (run_command_figures file1 obs1 command1 location save1)
    as [run1 [Hrun1 [Hd1 [Hj1 [Hk1 [Hg1 [Hc1 Hm1]]]]]]].
  exists run1. split; [exact Hrun1 |].
  rewrite Hd1, Hj1, Hk1, Hg1, Hc1, Hm1. fold duration1.
  assert (Hle : SFleb duration1 duration1 = true).
  { destruct Hn1 as [s | m e Hb |]; [destruct s; reflexivity | | reflexivity].
    apply SFleb_refl_finite. }
  split; [apply (SFleb_zero_nn false),
            (round_dec_mono 2 Hn1 Hn1 Hle) |].
  split; [apply (SFleb_zero_nn false),
            (rounded_mono 2 joules_mono Hn1 Hn1 Hle) |].
  split; [apply (SFleb_zero_nn false),
            (rounded_mono 6 kwh_mono Hn1 Hn1 Hle) |].
  split; [apply (SFleb_zero_nn false),
            (rounded_mono 4 grams_mono Hn1 Hn1 Hle) |].
  split; [apply (SFleb_zero_nn false),
            (rounded_mono 1 charges_mono Hn1 Hn1 Hle) |].
  apply (SFleb_zero_nn false), (rounded_mono 3 km_mono Hn1 Hn1 Hle).
Qed.

End FiguresFollowDuration.

(** * Figures that follow the intensity *)

(** A non-negative number times two ordered positive numbers gives two
    ordered non-negative numbers. *)
Lemma mul_nn_order (k c1 c2 : spec_float) :
  nn k -> pos_valid c1 -> pos_valid c2 -> SFleb c1 c2 = true ->
  nn (SFmul B64.prec B64.emax k c1)
  /\ nn (SFmul B64.prec B64.emax k c2)
  /\ SFleb (SFmul B64.prec B64.emax k c1) (SFmul B64.prec B64.emax k c2)
     = true.
Proof.
  intros Hk Hc1 Hc2 Hle.
  destruct Hk as [s | m e Hb |].
  - destruct Hc1 as [m1 [e1 [-> _]]]. destruct Hc2 as [m2 [e2 [-> _]]].
    cbn [SFmul]. repeat split; try constructor.
  - apply (@mono_nn_mul_l (S754_finite false m e)).
    + do 2 eexists. split; [reflexivity | exact Hb].
    + destruct Hc1 as [m1 [e1 [-> Hb1]]]. constructor. exact Hb1.
    + destruct Hc2 as [m2 [e2 [-> Hb2]]]. constructor. exact Hb2.
    + exact Hle.
  - destruct Hc1 as [m1 [e1 [-> _]]]. destruct Hc2 as [m2 [e2 [-> _]]].
    cbn [SFmul]. repeat split; try constructor.
Qed.

Lemma intensity_between (location : string) :
  SFleb (of_int (Cli.intensity_for "CO") : B64.float)
    (of_int (Cli.intensity_for location)) = true
  /\ SFleb (of_int (Cli.intensity_for location) : B64.float)
       (of_int (Cli.intensity_for "DE")) = true.
Proof.
  unfold Cli.intensity_for at 2 3.
  destruct (String.eqb location "DE"); [| destruct (String.eqb location "CO")];
    split; reflexivity.
Qed.

Section FiguresFollowIntensity.
Local Abbreviation float := B64.float.
Variables (file : Cli.HistoryFile float) (obs : Cli.Observation float).
Variables (command location : string) (save_history : bool).

Let duration : float := fsub (Cli.end_time obs) (Cli.start_time obs).

(** X19. Of all locations Colombia records the least carbon and Germany
    the most.  For one observation with a duration that is a number at
    least zero, the carbon mass recorded at any location lies between the
    one recorded at CO and the one recorded at DE. *)
Theorem carbon_between_colombia_and_germany :
  valid_binary B64.prec B64.emax duration = true ->
  fleb (of_int 0) duration = true ->
  exists lowest run highest,
    Cli.run_command file obs command "CO" save_history = Ok lowest
    /\ Cli.run_command file obs command location save_history = Ok run
    /\ Cli.run_command file obs command "DE" save_history = Ok highest
    /\ fleb (Cli.carbon_grams (Cli.metrics (Cli.returned lowest)))
         (Cli.carbon_grams (Cli.metrics (Cli.returned run))) = true
    /\ fleb (Cli.carbon_grams (Cli.metrics (Cli.returned run)))
         (Cli.carbon_grams (Cli.metrics (Cli.returned highest))) = true.
Proof.
  intros Hv H0.
  assert (Hz : nn (of_int 0)) by constructor.
  assert (Hn : nn duration) by (apply (@nn_of_le _ _ Hz Hv H0)).
  assert (Hle : SFleb duration duration = true).
  { destruct Hn as [s | m e Hb |]; [destruct s; reflexivity | | reflexivity].
    apply SFleb_refl_finite. }
  destruct (kwh_mono Hn Hn Hle) as [Hk _].
  destruct (run_command_figures file obs command "CO" save_history)
    as [lowest [Hlowest [_ [_ [_ [Hg1 _]]]]]].
  destruct (run_command_figures file obs command location save_history)
    as [run [Hrun [_ [_ [_ [Hg2 _]]]]]].
  destruct (run_command_figures file obs command "DE" save_history)
    as [highest [Hhighest [_ [_ [_ [Hg3 _]]]]]].
  exists lowest, run, highest.
  split; [exact Hlowest |]. split; [exact Hrun |]. split; [exact Hhighest |].
  rewrite Hg1, Hg2, Hg3. fold duration.
  destruct (intensity_between location) as [Hlo Hhi].
  destruct (mul_nn_order Hk (intensity_pos_valid "CO")
              (intensity_pos_valid location) Hlo) as [Ha [Hb Hab]].
  destruct (mul_nn_order Hk (intensity_pos_valid location)
              (intensity_pos_valid "DE") Hhi) as [_ [Hc Hbc]].
  split.
  - apply (round_dec_mono 4 Ha Hb Hab).
  - apply (round_dec_mono 4 Hb Hc Hbc).
Qed.

End FiguresFollowIntensity.

(** * The comparison of runs of equal length *)

Section EqualRuns.
Local Abbreviation float := B64.float.

(** The row the second loop of the comparison prints for one entry. *)
Let row_of (baseline : float) (entry : string * Cli.ResultData float)
    : Cli.Row float :=
  let carbon := Cli.carbon_grams (Cli.metrics (snd entry)) in
  let diff_percent :=
    fmul (fdiv (fsub carbon baseline) baseline) (of_int 100) in
  {| Cli.name := fst entry;
     Cli.carbon := carbon;
     Cli.diff_percent := diff_percent;
     Cli.rising := fltb (of_int 0) diff_percent |}.

Lemma report_rows (baseline : float) results :
  is_zero baseline = false ->
  Cli.report baseline results = Ok (map (row_of baseline) results).
Proof.
  intros Hbase. induction results as [| entry rest IH]; [reflexivity |].
  cbn [Cli.report]. unfold Cli.report_row.
  rewrite truediv_nonzero by exact Hbase. rewrite !bind_Ok, IH, bind_Ok.
  reflexivity.
Qed.

Variables (file : Cli.HistoryFile float) (world : nat -> Cli.Observation float).
Variable command : string.

Let duration (i : nat) : float :=
  fsub (Cli.end_time (world i)) (Cli.start_time (world i)).
Let recorded (i : nat) (c : Z) : float :=
  round_nd
    (fmul (fdiv (fmul (duration i) (of_int 25)) (of_int 3600000)) (of_int c))
    4.

(** X20. When the four runs of a comparison last equally long, a number of
    seconds at least zero, and the baseline is not zero, the rows of
    California and France agree in everything but the name, both being
    measured at the default intensity, and their carbon mass lies between
    that of Colombia and that of Germany. *)
Theorem comparison_of_equal_runs :
  (forall i, duration i = duration 0%nat) ->
  valid_binary B64.prec B64.emax (duration 0%nat) = true ->
  fleb (of_int 0) (duration 0%nat) = true ->
  is_zero (recorded 0 165) = false ->
  exists colombia alemania california francia,
    Cli.compare_locations file world command
    = Ok [colombia; alemania; california; francia]
    /\ Cli.carbon california = Cli.carbon francia
    /\ Cli.diff_percent california = Cli.diff_percent francia
    /\ Cli.rising california = Cli.rising francia
    /\ fleb (Cli.carbon colombia) (Cli.carbon california) = true
    /\ fleb (Cli.carbon california) (Cli.carbon alemania) = true.
Proof.
  intros Hsame Hv H0 Hbase.
  unfold Cli.compare_locations, Cli.compare_over.
  destruct (measure_each_value world command Cli.locations file 0)
    as [results [-> [Hnames Hmass]]].
  rewrite bind_Ok.
  destruct results as [| r1 [| r2 [| r3 [| r4 [| r5 rest]]]]];
    try discriminate Hnames.
  assert (Hm : [Cli.carbon_grams (Cli.metrics (snd r1));
                Cli.carbon_grams (Cli.metrics (snd r2));
                Cli.carbon_grams (Cli.metrics (snd r3));
                Cli.carbon_grams (Cli.metrics (snd r4))]
               = [recorded 0 165; recorded 1 420; recorded 2 389;
                  recorded 3 389]) by exact Hmass.
  injection Hm as Hm1 Hm2 Hm3 Hm4.
  assert (Hr : forall i c, recorded i c = recorded 0 c).
  { intros i c. unfold recorded. rewrite Hsame. reflexivity. }
  rewrite Hr in Hm2, Hm3, Hm4.
  rewrite Hm1, (@report_rows _ [r1; r2; r3; r4] Hbase).
  do 4 eexists. split; [reflexivity |].
  cbn [row_of Cli.carbon Cli.diff_percent Cli.rising snd].
  rewrite Hm1, Hm2, Hm3, Hm4.
  split; [reflexivity |]. split; [reflexivity |]. split; [reflexivity |].
  assert (Hz : nn (of_int 0)) by constructor.
  assert (Hn : nn (duration 0%nat)) by (apply (@nn_of_le _ _ Hz Hv H0)).
  assert (Hle : SFleb (duration 0%nat) (duration 0%nat) = true).
  { destruct Hn as [s | m e Hb |]; [destruct s; reflexivity | | reflexivity].
    apply SFleb_refl_finite. }
  destruct (kwh_mono Hn Hn Hle) as [Hk _].
  destruct (intensity_between "FR") as [Hlo Hhi].
  destruct (mul_nn_order Hk (intensity_pos_valid "CO")
              (intensity_pos_valid "FR") Hlo) as [Ha [Hb Hab]].
  destruct (mul_nn_order Hk (intensity_pos_valid "FR")
              (intensity_pos_valid "DE") Hhi) as [_ [Hc Hbc]].
  split.
  - apply (round_dec_mono 4 Ha Hb Hab).
  - apply (round_dec_mono 4 Hb Hc Hbc).
Qed.

End EqualRuns.

(** * The estimator: energy follows the duration, power stays in range *)

Section EnergyFollowsDuration.
Local Abbreviation float := B64.float.
Variable self : Estimator.EnergyEstimator float.

(** X21. With the cpu and memory figures held fixed, at a power and a
    carbon intensity that are positive finite numbers, the estimator's
    energy, carbon mass and score do not decrease when the duration grows
    from a number at least zero. *)
Theorem energy_follows_duration (cpu_percent memory_gb power d1 d2 : float) :
  Estimator.total_power_watts self cpu_percent memory_gb = Ok power ->
  pos_valid power ->
  pos_valid (Estimator.carbon_intensity self) ->
  valid_binary B64.prec B64.emax d1 = true ->
  valid_binary B64.prec B64.emax d2 = true ->
  fleb (of_int 0) d1 = true ->
  fleb d1 d2 = true ->
  exists m1 m2,
    Estimator._calculate_energy self d1 cpu_percent memory_gb = Ok m1
    /\ Estimator._calculate_energy self d2 cpu_percent memory_gb = Ok m2
    /\ fleb (Estimator.energy_joules m1) (Estimator.energy_joules m2) = true
    /\ fleb (Estimator.carbon_grams m1) (Estimator.carbon_grams m2) = true
    /\ fleb (Estimator.sci_score m1) (Estimator.sci_score m2) = true.
Proof.
  intros Hpower Hp Hi Hv1 Hv2 H0 H12.
  assert (Hz : nn (of_int 0)) by constructor.
  assert (Hn1 : nn d1) by (apply (@nn_of_le _ _ Hz Hv1 H0)).
  assert (Hn2 : nn d2) by (apply (@nn_of_le _ _ Hn1 Hv2 H12)).
  destruct (calculate_energy_value b64_100_nonzero self d1 cpu_percent
              memory_gb) as [p1 [Hp1 ->]].
  destruct (calculate_energy_value b64_100_nonzero self d2 cpu_percent
              memory_gb) as [p2 [Hp2 ->]].
  rewrite Hpower in Hp1, Hp2. injection Hp1 as <-. injection Hp2 as <-.
  do 2 eexists. split; [reflexivity |]. split; [reflexivity |].
  cbn [Estimator.energy_joules Estimator.carbon_grams Estimator.sci_score].
  pose proof (mono_nn_mul_l Hp) as Hjoules.
  assert (Hcarbon : mono_nn (fun d : float =>
            fmul (fdiv (fmul power d) (of_int 3600000))
              (Estimator.carbon_intensity self))).
  { refine (@mono_nn_compose (fun d => fmul power d)
              (fun j => fmul (fdiv j (of_int 3600000))
                          (Estimator.carbon_intensity self)) Hjoules _).
    refine (@mono_nn_compose (fun j => fdiv j (of_int 3600000))
              (fun k => fmul k (Estimator.carbon_intensity self)) _ _).
    - apply mono_nn_div. do 2 eexists. split; reflexivity.
    - apply mono_nn_mul_r. exact Hi. }
  split; [apply (Hjoules _ _ Hn1 Hn2 H12) |].
  split; apply (Hcarbon _ _ Hn1 Hn2 H12).
Qed.

(** X22. Without memory the power stays between the idle power and the
    thermal design power.  For an estimator built by [__init__] on any
    machine and a cpu utilisation that is a number from 0 to 100, the power
    computed with no memory in use is at least [tdp * 0.4] and at most
    [tdp]. *)
Theorem power_between_idle_and_tdp (intensity : float) (machine : string)
    (u : float) :
  valid_binary B64.prec B64.emax u = true ->
  fleb (of_int 0) u = true ->
  fleb u (of_int 100) = true ->
  exists p,
    Estimator.total_power_watts (Estimator.init intensity machine) u
      (of_int 0) = Ok p
    /\ fleb (fmul (of_int (Estimator.tdp (Estimator.init intensity machine)))
               Estimator.CPU_BASELINE) p = true
    /\ fleb p (of_int (Estimator.tdp (Estimator.init intensity machine)))
       = true.
Proof.
  intros Hv H0 H100.
  rewrite (total_power_watts_value b64_100_nonzero).
  eexists. split; [reflexivity |].
  pose proof (init_tdp intensity machine) as Htdp.
  set (tdp := Estimator.tdp (Estimator.init intensity machine)) in *.
  fold (cpu_power tdp u).
  pose proof (cpu_power_mono Htdp) as Hmono.
  assert (Hz : nn (of_int 0)) by constructor.
  assert (Hn : nn u) by (apply (@nn_of_le _ _ Hz Hv H0)).
  assert (Hh : nn (of_int 100)) by (constructor; reflexivity).
  destruct (Hmono _ _ Hz Hn H0) as [_ [Hd Hlo]].
  destruct (Hmono _ _ Hn Hh H100) as [_ [_ Hhi]].
  assert (Hends : pos_valid (cpu_power tdp (of_int 0))
                  /\ pos_valid (cpu_power tdp (of_int 100))
                  /\ cpu_power tdp (of_int 0)
                     = fmul (of_int tdp) Estimator.CPU_BASELINE
                  /\ cpu_power tdp (of_int 100) = of_int tdp).
  { destruct Htdp as [-> | ->]; split; [| split | | split];
      try (do 2 eexists; split; vm_compute; reflexivity);
      split; vm_compute; reflexivity. }
  destruct Hends as [Hplo [Hphi [Hidle Hfull]]].
  assert (Hle : SFleb u u = true).
  { destruct Hn as [s | m e Hb |]; [destruct s; reflexivity | | reflexivity].
    apply SFleb_refl_finite. }
  destruct (@nn_between _ _ _ _ Hplo Hphi Hd Hd Hlo
              (proj2 (proj2 (Hmono _ _ Hn Hn Hle))) Hhi)
    as [[m [e [Hp _]]] _].
  assert (Hsum : fadd (cpu_power tdp u)
                   (fmul (of_int 0) Estimator.RAM_WATTS_PER_GB)
                 = cpu_power tdp u).
  { rewrite Hp. reflexivity. }
  rewrite Hsum, <- Hidle, <- Hfull. split; assumption.
Qed.

End EnergyFollowsDuration.

(** * What a measurement does not depend on *)

Section Independence.
Local Abbreviation float := B64.float.

Lemma run_command_same_dict (file1 file2 : Cli.HistoryFile float)
    (obs : Cli.Observation float) (command location : string)
    (save1 save2 : bool) :
  exists run1 run2,
    Cli.run_command file1 obs command location save1 = Ok run1
    /\ Cli.run_command file2 obs command location save2 = Ok run2
    /\ Cli.returned run1 = Cli.returned run2
    /\ Cli.output run1 = Cli.output run2.
Proof.
  unfold Cli.run_command.
  destruct (Cli.proc obs) as [returncode stdout stderr | message];
    cbv beta iota zeta;
    rewrite truediv_int_nonzero by discriminate; rewrite bind_Ok;
    rewrite truediv_nonzero by exact b64_0062_nonzero; rewrite bind_Ok;
    rewrite truediv_int_nonzero by discriminate; rewrite bind_Ok;
    do 2 eexists; (split; [reflexivity |]); (split; [reflexivity |]);
    split; reflexivity.
Qed.

Lemma measure_each_same (world : nat -> Cli.Observation float)
    (command : string) locs : forall file1 file2 i,
  Cli.measure_each file1 world i command locs
  = Cli.measure_each file2 world i command locs.
Proof.
  induction locs as [| [name code] rest IH]; intros file1 file2 i.
  - reflexivity.
  - cbn [Cli.measure_each].
    destruct (run_command_same_dict file1 file2 (world i) command code
                false false)
      as [run1 [run2 [-> [-> [Hdict _]]]]].
    rewrite !bind_Ok, Hdict, (IH (Cli.history run1) (Cli.history run2)).
    reflexivity.
Qed.

(** X23. The history plays no part in a measurement.  A run that is not
    saved never reads the history file: on any two files it returns the
    same dict, shows the same text and leaves each file as it was.  A run
    that is saved and completes returns the dict and shows the text of the
    unsaved run.  And [compare_locations], whose runs are not saved, gives
    the same rows, or the same exception, on any history file. *)
Theorem measurement_ignores_history (file1 file2 : Cli.HistoryFile float)
    (world : nat -> Cli.Observation float) (command location : string) :
  (exists run1 run2,
     Cli.run_command file1 (world 0%nat) command location false = Ok run1
     /\ Cli.run_command file2 (world 0%nat) command location false = Ok run2
     /\ Cli.returned run1 = Cli.returned run2
     /\ Cli.output run1 = Cli.output run2
     /\ Cli.history run1 = file1
     /\ Cli.history run2 = file2)
  /\ (forall saved,
       Cli.run_command file1 (world 0%nat) command location true = Ok saved ->
       exists unsaved,
         Cli.run_command file2 (world 0%nat) command location false
         = Ok unsaved
         /\ Cli.returned saved = Cli.returned unsaved
         /\ Cli.output saved = Cli.output unsaved)
  /\ Cli.compare_locations file1 world command
     = Cli.compare_locations file2 world command.
Proof.
  split; [| split].
  - destruct (run_command_same_dict file1 file2 (world 0%nat) command
                location false false)
      as [run1 [run2 [Hrun1 [Hrun2 [Hdict Houtput]]]]].
    exists run1, run2.
    split; [exact Hrun1 |]. split; [exact Hrun2 |].
    split; [exact Hdict |]. split; [exact Houtput |].
    destruct (run_command_returns b64_0062_nonzero file1 (world 0%nat)
                command location false)
      as [r1 [Hr1 [_ [_ [_ [_ [_ [_ [_ Hfile1]]]]]]]]].
    destruct (run_command_returns b64_0062_nonzero file2 (world 0%nat)
                command location false)
      as [r2 [Hr2 [_ [_ [_ [_ [_ [_ [_ Hfile2]]]]]]]]].
    rewrite Hrun1 in Hr1. injection Hr1 as <-.
    rewrite Hrun2 in Hr2. injection Hr2 as <-.
    split; assumption.
  - intros saved Hsaved.
    destruct (run_command_same_dict file1 file2 (world 0%nat) command
                location true false)
      as [run1 [run2 [Hrun1 [Hrun2 [Hdict Houtput]]]]].
    rewrite Hsaved in Hrun1. injection Hrun1 as <-.
    exists run2. split; [exact Hrun2 |]. split; assumption.
  - unfold Cli.compare_locations, Cli.compare_over.
    rewrite (measure_each_same world command Cli.locations file1 file2 0).
    reflexivity.
Qed.


End Independence.

(** * The average of one sample *)

Section OneSample.
Local Abbreviation float := B64.float.
Open Scope Z_scope.

(** Dividing a valid positive number by one gives the number. *)
Lemma div_one (m : positive) (e : Z) :
  bounded B64.prec B64.emax m e = true ->
  fdiv (S754_finite false m e : float) (of_int 1) = S754_finite false m e.
Proof.
  intros Hb.
  change (fdiv (S754_finite false m e : float) (of_int 1))
    with (SFdiv B64.prec B64.emax (S754_finite false m e)
            (S754_finite false (2 ^ 52) (-52))).
  rewrite div_rnd.
  set (f := div_exp (2 ^ 52) (-52) m e).
  assert (Hf : f <= e + 52) by (subst f; unfold div_exp; lia).
  apply rnd_exact; try lia; try exact Hb.
  - pose proof (div_num_pos (2 ^ 52) (-52) m e). lia.
  - apply div_pre.
  - unfold div_num. fold f.
    replace (e - -52 - f) with (e + 52 - f) by lia.
    change (Zpos (2 ^ 52)) with (2 ^ 52).
    rewrite <- !Z.mul_assoc. f_equal.
    rewrite <- !Z.pow_add_r by lia. f_equal. lia.
Qed.

Variable self : Estimator.EnergyEstimator float.

(** X25. One sample is its own average.  When the sampling thread has
    appended exactly one pair of readings, both valid positive numbers, the
    metrics report that cpu figure as it is: the sum starts from the integer
    0 and the division is by 1, and neither rounds. *)
Theorem one_sample_is_its_average (A : Type) (res : A)
    (t0 t1 : float) (mc mg : positive) (ec eg : Z) :
  bounded B64.prec B64.emax mc ec = true ->
  bounded B64.prec B64.emax mg eg = true ->
  exists metrics,
    Estimator.measure_execution self
      {| Estimator.func_outcome := Ok res;
         Estimator.cpu_samples := [S754_finite false mc ec];
         Estimator.memory_samples := [S754_finite false mg eg];
         Estimator.start_time := t0;
         Estimator.end_time := t1 |}
    = Ok (res, metrics)
    /\ Estimator.cpu_percent metrics = S754_finite false mc ec
    /\ Estimator._calculate_energy self (fsub t1 t0)
         (S754_finite false mc ec) (S754_finite false mg eg) = Ok metrics.
Proof.
  intros Hc Hg. unfold Estimator.measure_execution.
  cbn [Estimator.func_outcome Estimator.cpu_samples Estimator.memory_samples
       Estimator.start_time Estimator.end_time].
  rewrite bind_Ok.
  assert (Havg : forall m e, bounded B64.prec B64.emax m e = true ->
            Estimator.average (F := float) [S754_finite false m e]
            = Ok (S754_finite false m e)).
  { intros m e Hb. unfold Estimator.average.
    rewrite truediv_int_nonzero by discriminate.
    f_equal. apply (div_one _ _ Hb). }
  rewrite (Havg _ _ Hc), (Havg _ _ Hg), !bind_Ok.
  destruct (calculate_energy_value b64_100_nonzero self (fsub t1 t0)
              (S754_finite false mc ec) (S754_finite false mg eg))
    as [power [_ Hcalc]].
  rewrite Hcalc, bind_Ok. eexists. split; [reflexivity |].
  split; reflexivity.
Qed.

End OneSample.

(** * The comparison fails below a threshold *)

Section ComparisonThreshold.
Local Abbreviation float := B64.float.

(** The carbon mass recorded for Colombia after a run of [d] seconds. *)
Let baseline (d : float) : float :=
  round_nd
    (fmul (fdiv (fmul d (of_int 25)) (of_int 3600000)) (of_int 165)) 4.

Lemma baseline_mono : mono_nn baseline.
Proof.
  refine (@mono_nn_compose
            (fun d => fmul (fdiv (fmul d (of_int 25)) (of_int 3600000))
                        (of_int (Cli.intensity_for "CO")))
            (fun g => B64.round_dec g 4) (grams_mono "CO") _).
  apply round_dec_mono.
Qed.

Lemma compare_raises_iff (file : Cli.HistoryFile float)
    (world : nat -> Cli.Observation float) (command : string) :
  Cli.compare_locations file world command = Raise ZeroDivisionError
  <-> is_zero (baseline (fsub (Cli.end_time (world 0%nat))
                           (Cli.start_time (world 0%nat)))) = true.
Proof.
  unfold Cli.compare_locations, Cli.compare_over.
  destruct (measure_each_value world command Cli.locations file 0)
    as [results [-> [Hnames Hmass]]].
  rewrite bind_Ok.
  destruct results as [| first rest]; [discriminate Hnames |].
  assert (Hfirst : Cli.carbon_grams (Cli.metrics (snd first))
                   = baseline (fsub (Cli.end_time (world 0%nat))
                                 (Cli.start_time (world 0%nat)))).
  { injection Hmass as Hfirst _. exact Hfirst. }
  rewrite Hfirst.
  destruct (is_zero (baseline (fsub (Cli.end_time (world 0%nat))
                                 (Cli.start_time (world 0%nat))))) eqn:Hbase.
  - split; [reflexivity |]. intros _. apply report_raises. exact Hbase.
  - destruct (report_value _ (first :: rest) Hbase) as [rows [-> _]].
    split; discriminate.
Qed.

Variables (file1 file2 : Cli.HistoryFile float).
Variables (world1 world2 : nat -> Cli.Observation float).
Variables (command1 command2 : string).

Let duration1 : float :=
  fsub (Cli.end_time (world1 0%nat)) (Cli.start_time (world1 0%nat)).
Let duration2 : float :=
  fsub (Cli.end_time (world2 0%nat)) (Cli.start_time (world2 0%nat)).

(** X26. The comparison fails below a threshold of duration.  If it
    raises [ZeroDivisionError] when its first run lasts [duration2], it
    raises it whenever the first run lasts a number of seconds from zero to
    [duration2]; so a comparison that prints keeps printing for every
    longer first run. *)
Theorem shorter_first_run_fails_too :
  valid_binary B64.prec B64.emax duration1 = true ->
  valid_binary B64.prec B64.emax duration2 = true ->
  fleb (of_int 0) duration1 = true ->
  fleb duration1 duration2 = true ->
  Cli.compare_locations file2 world2 command2 = Raise ZeroDivisionError ->
  Cli.compare_locations file1 world1 command1 = Raise ZeroDivisionError.
Proof.
  intros Hv1 Hv2 H0 H12 Hraises.
  assert (Hz : nn (of_int 0)) by constructor.
  assert (Hn1 : nn duration1) by (apply (@nn_of_le _ _ Hz Hv1 H0)).
  assert (Hn2 : nn duration2) by (apply (@nn_of_le _ _ Hn1 Hv2 H12)).
  apply compare_raises_iff in Hraises. apply compare_raises_iff.
  fold duration1. fold duration2 in Hraises.
  destruct (baseline_mono Hn1 Hn2 H12) as [Hb1 [_ Hle]].
  destruct (baseline duration2) as [s2 | | |]; try discriminate Hraises.
  destruct Hb1 as [s1 | m1 e1 _ |]; [reflexivity | |]; discriminate Hle.
Qed.

End ComparisonThreshold.

(** * The properties above on concrete runs *)

Lemma show_history_last_entries_witness :
  exists listing,
    Console.show_history (Some Logs.three) 2%Z = Ok (Some listing)
    /\ Console.lines listing
       = map Console.line_of (Cli.last_entries (Z.to_nat 2%Z) Logs.three)
    /\ List.length (Console.lines listing)
       = Nat.min (Z.to_nat 2%Z) (List.length Logs.three)
    /\ Console.executions listing = List.length Logs.three.
Proof. apply (@show_history_last_entries Logs.three 2%Z). reflexivity. Defined.

Lemma show_history_nonpositive_limit_witness :
  exists listing,
    Console.show_history (Some Logs.three) (-1)%Z = Ok (Some listing)
    /\ Console.lines listing
       = map Console.line_of (skipn (Z.to_nat (- (-1))%Z) Logs.three)
    /\ ((-1)%Z = 0%Z ->
        Console.lines listing = map Console.line_of Logs.three).
Proof.
  apply (@show_history_nonpositive_limit Logs.three (-1)%Z). discriminate.
Defined.

Lemma show_history_lines_witness :
  exists entry cut_time cut_command,
    In entry Logs.three
    /\ Cli.timestamp entry
       = ("2024-01-01T10:00:00" ++ cut_time)%string
    /\ Cli.command entry
       = ("python -m pytest tests/integra" ++ cut_command)%string.
Proof.
  destruct (@show_history_lines (Some Logs.three) 10%Z _
              (Console.line_of
                 (Logs.logged "2024-01-01T10:00:00.123456"
                    "python -m pytest tests/integration --maxfail=1"))
              (show_history_value Logs.three 10%Z))
    as [entry [cut_time [cut_command [Hin [_ [_ [Htime [Hcommand _]]]]]]]].
  - right. left. reflexivity.
  - exists entry, cut_time, cut_command.
    split; [exact Hin |]. split; [exact Htime | exact Hcommand].
Defined.

Lemma baseline_row_never_rises_witness :
  exists first rest,
    Cli.compare_locations None (fun _ => Logs.ten_seconds) "npm test"
    = Ok (first :: rest)
    /\ Cli.name first = "Colombia"%string
    /\ Cli.carbon first = lit 115 10000
    /\ Cli.rising first = false
    /\ is_zero (Cli.diff_percent first) = true.
Proof.
  destruct (@baseline_row_never_rises (fun _ => Logs.ten_seconds) "npm test"
              None eq_refl)
    as [first [rest [Hrows [Hname [Hcarbon [Hrising Hzero]]]]]].
  exists first, rest. split; [exact Hrows |]. split; [exact Hname |].
  split; [exact Hcarbon |]. split; [exact Hrising |].
  eapply Hzero. vm_compute. reflexivity.
Defined.

Lemma blank_output_prints_one_line_witness :
  Console._print_results_output
    (String (Ascii.ascii_of_nat 32) (String Console.newline EmptyString))
  = ["   "%string].
Proof.
  apply blank_output_prints_one_line.
  - discriminate.
  - repeat constructor.
Defined.

Lemma short_output_shown_whole_witness :
  exists texts,
    Console._print_results_output
      (String Console.newline
         ("2 passed" ++ String Console.newline ("0 failed"
          ++ String Console.newline EmptyString)))%string
    = map (fun text => ("   " ++ text)%string) texts
    /\ String.concat (String Console.newline EmptyString) texts
       = ("2 passed" ++ String Console.newline "0 failed")%string.
Proof.
  apply (@short_output_shown_whole
           (String Console.newline
              ("2 passed" ++ String Console.newline ("0 failed"
               ++ String Console.newline EmptyString)))%string).
  - discriminate.
  - vm_compute. lia.
  - vm_compute. repeat constructor.
Defined.

Lemma estimate_keeps_memory_witness :
  exists metrics,
    Estimator.estimate_from_metrics Samples.x86 (of_int 10) (of_int 50)
      (of_int 2048) = Ok metrics
    /\ Estimator.memory_mb metrics = of_int 2048
    /\ Estimator.duration_seconds metrics = of_int 10
    /\ Estimator.cpu_percent metrics = of_int 50.
Proof.
  apply (@estimate_keeps_memory Samples.x86 (of_int 10) (of_int 50)
           (2 ^ 52)%positive (-41)%Z).
  - reflexivity.
  - discriminate.
  - discriminate.
Defined.

Lemma longer_run_records_more_witness :
  exists run1 run2,
    Cli.run_command None Samples.quick "true" "CO" false = Ok run1
    /\ Cli.run_command None Logs.ten_seconds "npm test" "CO" true = Ok run2
    /\ fleb (Cli.duration_seconds (Cli.returned run1))
         (Cli.duration_seconds (Cli.returned run2)) = true
    /\ fleb (Cli.energy_joules (Cli.metrics (Cli.returned run1)))
         (Cli.energy_joules (Cli.metrics (Cli.returned run2))) = true
    /\ fleb (Cli.energy_kwh (Cli.metrics (Cli.returned run1)))
         (Cli.energy_kwh (Cli.metrics (Cli.returned run2))) = true
    /\ fleb (Cli.carbon_grams (Cli.metrics (Cli.returned run1)))
         (Cli.carbon_grams (Cli.metrics (Cli.returned run2))) = true
    /\ fleb (Cli.smartphone_charges (Cli.equivalents (Cli.returned run1)))
         (Cli.smartphone_charges (Cli.equivalents (Cli.returned run2)))
       = true
    /\ fleb (Cli.km_driven (Cli.equivalents (Cli.returned run1)))
         (Cli.km_driven (Cli.equivalents (Cli.returned run2))) = true.
Proof.
  apply (@longer_run_records_more "CO" None None Samples.quick
           Logs.ten_seconds "true" "npm test" false true);
    vm_compute; reflexivity.
Defined.

Lemma nonnegative_duration_nonnegative_figures_witness :
  exists run,
    Cli.run_command None Samples.quick "true" "DE" false = Ok run
    /\ fleb (of_int 0) (Cli.duration_seconds (Cli.returned run)) = true
    /\ fleb (of_int 0) (Cli.energy_joules (Cli.metrics (Cli.returned run)))
       = true
    /\ fleb (of_int 0) (Cli.energy_kwh (Cli.metrics (Cli.returned run)))
       = true
    /\ fleb (of_int 0) (Cli.carbon_grams (Cli.metrics (Cli.returned run)))
       = true
    /\ fleb (of_int 0)
         (Cli.smartphone_charges (Cli.equivalents (Cli.returned run))) = true
    /\ fleb (of_int 0) (Cli.km_driven (Cli.equivalents (Cli.returned run)))
       = true.
Proof.
  apply (@nonnegative_duration_nonnegative_figures "DE" None Samples.quick
           "true" false);
    vm_compute; reflexivity.
Defined.

Lemma carbon_between_colombia_and_germany_witness :
  exists lowest run highest,
    Cli.run_command None Logs.ten_seconds "npm test" "CO" false = Ok lowest
    /\ Cli.run_command None Logs.ten_seconds "npm test" "US-CA" false = Ok run
    /\ Cli.run_command None Logs.ten_seconds "npm test" "DE" false
       = Ok highest
    /\ fleb (Cli.carbon_grams (Cli.metrics (Cli.returned lowest)))
         (Cli.carbon_grams (Cli.metrics (Cli.returned run))) = true
    /\ fleb (Cli.carbon_grams (Cli.metrics (Cli.returned run)))
         (Cli.carbon_grams (Cli.metrics (Cli.returned highest))) = true.
Proof.
  apply (@carbon_between_colombia_and_germany None Logs.ten_seconds
           "npm test" "US-CA" false);
    vm_compute; reflexivity.
Defined.

Lemma comparison_of_equal_runs_witness :
  exists colombia alemania california francia,
    Cli.compare_locations None (fun _ => Logs.ten_seconds) "npm test"
    = Ok [colombia; alemania; california; francia]
    /\ Cli.carbon california = Cli.carbon francia
    /\ Cli.diff_percent california = Cli.diff_percent francia
    /\ Cli.rising california = Cli.rising francia
    /\ fleb (Cli.carbon colombia) (Cli.carbon california) = true
    /\ fleb (Cli.carbon california) (Cli.carbon alemania) = true.
Proof.
  apply (@comparison_of_equal_runs None (fun _ => Logs.ten_seconds)
           "npm test").
  - intros i. reflexivity.
  - vm_compute. reflexivity.
  - vm_compute. reflexivity.
  - vm_compute. reflexivity.
Defined.

Lemma energy_follows_duration_witness :
  exists m1 m2,
    Estimator._calculate_energy Samples.x86 (of_int 10) (of_int 50) (of_int 2)
    = Ok m1
    /\ Estimator._calculate_energy Samples.x86 (of_int 20) (of_int 50)
         (of_int 2) = Ok m2
    /\ fleb (Estimator.energy_joules m1) (Estimator.energy_joules m2) = true
    /\ fleb (Estimator.carbon_grams m1) (Estimator.carbon_grams m2) = true
    /\ fleb (Estimator.sci_score m1) (Estimator.sci_score m2) = true.
Proof.
  eapply (@energy_follows_duration Samples.x86 (of_int 50) (of_int 2) _
            (of_int 10) (of_int 20)).
  - vm_compute. reflexivity.
  - do 2 eexists. split; reflexivity.
  - do 2 eexists. split; vm_compute; reflexivity.
  - reflexivity.
  - reflexivity.
  - reflexivity.
  - reflexivity.
Defined.

Lemma power_between_idle_and_tdp_witness :
  exists p : B64.float,
    Estimator.total_power_watts
      (Estimator.init Estimator.default_carbon_intensity "arm64")
      (of_int 50) (of_int 0) = Ok p
    /\ fleb (fmul (of_int 15) Estimator.CPU_BASELINE) p = true
    /\ fleb p (of_int 15) = true.
Proof.
  apply (@power_between_idle_and_tdp Estimator.default_carbon_intensity
           "arm64" (of_int 50));
    reflexivity.
Defined.


Lemma one_sample_is_its_average_witness :
  exists metrics,
    Estimator.measure_execution Samples.x86
      {| Estimator.func_outcome := Ok tt;
         Estimator.cpu_samples := [of_int 50];
         Estimator.memory_samples := [of_int 2];
         Estimator.start_time := of_int 0;
         Estimator.end_time := of_int 10 |}
    = Ok (tt, metrics)
    /\ Estimator.cpu_percent metrics = of_int 50
    /\ Estimator._calculate_energy Samples.x86
         (fsub (of_int 10) (of_int 0)) (of_int 50) (of_int 2) = Ok metrics.
Proof.
  apply (@one_sample_is_its_average Samples.x86 unit tt (of_int 0)
           (of_int 10) 7036874417766400%positive 4503599627370496%positive
           (-47)%Z (-51)%Z);
    reflexivity.
Defined.

Lemma shorter_first_run_fails_too_witness :
  Cli.compare_locations (F := B64.float) None
    (fun _ =>
       {| Cli.start_time := of_int 5;
          Cli.proc := Cli.Completed 0 EmptyString EmptyString;
          Cli.end_time := of_int 5;
          Cli.now := "2024-01-01T00:00:00" |}) "true"
  = Raise ZeroDivisionError.
Proof.
  apply (@shorter_first_run_fails_too None None
           (fun _ =>
              {| Cli.start_time := of_int 5;
                 Cli.proc := Cli.Completed 0 EmptyString EmptyString;
                 Cli.end_time := of_int 5;
                 Cli.now := "2024-01-01T00:00:00" |})
           (fun _ => Samples.quick) "true" "true");
    vm_compute; reflexivity.
Defined.
